(** * boilerplate-automation: the DDL to Java generator (generator.js)

    A shallow embedding of the transformation core of [generator.js]:
    the identifier transformer ([toCamelCase], [toPascalCase]), the type
    mapper ([mapOracleType]), the DDL parser ([parseDDL]) and the two
    template renderers ([generateEntity], [generateDTO]).

    Conventions of the model.
    - A JavaScript string is a Rocq [string]; the DDL is ASCII text, so
      [toLowerCase], [toUpperCase], [\w], [\s] and [trim] are the ASCII ones.
    - A JavaScript number is a [Num]: an integer that is a double, an
      infinity or NaN.  [parseInt] rounds to the nearest double, the
      difference of two numbers is rounded again, and a number is printed
      with the shortest digits that give it back, as the engine does.
    - The exception the code can raise is the [RangeError] of [repeat] and
      of a template literal that grows beyond the longest string of the
      engine ([maxStringLength], the constant of V8, the engine of Node);
      a function that can raise it returns a [Completion].
    - The process-wide variable [config] becomes a parameter [cfg].  A field
      that is missing and a field that holds a falsy value ([""], [0],
      [false]) behave alike under [||] and [?:], so the record stores the
      falsy value for both; an array is truthy even when empty, so the array
      fields are options. *)

From Stdlib Require Import Bool Arith ZArith Lia List.
From Stdlib Require Import Ascii String DecimalString.
Import ListNotations.
Open Scope list_scope.
Open Scope string_scope.

(** ** Characters and strings *)

Module Js.

Definition dquote : string := String "034"%char EmptyString.
Definition nl : string := String "010"%char EmptyString.

Definition isUpper (c : ascii) : bool :=
  (65 <=? nat_of_ascii c)%nat && (nat_of_ascii c <=? 90)%nat.
Definition isLower (c : ascii) : bool :=
  (97 <=? nat_of_ascii c)%nat && (nat_of_ascii c <=? 122)%nat.
Definition isDigit (c : ascii) : bool :=
  (48 <=? nat_of_ascii c)%nat && (nat_of_ascii c <=? 57)%nat.
(** [\w] *)
Definition isWord (c : ascii) : bool :=
  isUpper c || isLower c || isDigit c || Ascii.eqb c "_"%char.
(** [\s], and what [trim] removes: tab, line feed, vertical tab, form feed,
    carriage return, space. *)
Definition isSpace (c : ascii) : bool :=
  ((9 <=? nat_of_ascii c)%nat && (nat_of_ascii c <=? 13)%nat) || Ascii.eqb c " "%char.

Definition lowerChar (c : ascii) : ascii :=
  if isUpper c then ascii_of_nat (nat_of_ascii c + 32) else c.
Definition upperChar (c : ascii) : ascii :=
  if isLower c then ascii_of_nat (nat_of_ascii c - 32) else c.

Fixpoint mapStr (f : ascii -> ascii) (s : string) : string :=
  match s with
  | EmptyString => EmptyString
  | String c s' => String (f c) (mapStr f s')
  end.

Definition toLowerCase : string -> string := mapStr lowerChar.
Definition toUpperCase : string -> string := mapStr upperChar.

(** [s.split(sep)] for a one-character separator: never the empty array. *)
Fixpoint split (sep : ascii) (s : string) : list string :=
  match s with
  | EmptyString => [EmptyString]
  | String c s' =>
      if Ascii.eqb c sep then EmptyString :: split sep s'
      else match split sep s' with
           | h :: t => String c h :: t
           | [] => [String c EmptyString]
           end
  end.

(** [parts.join('')] and [parts.join(sep)] *)
Definition join (sep : string) (parts : list string) : string :=
  String.concat sep parts.

(** [s.slice(n)] for [0 <= n] *)
Fixpoint slice (n : nat) (s : string) : string :=
  match n, s with
  | O, _ => s
  | S n', String _ s' => slice n' s'
  | S _, EmptyString => EmptyString
  end.

(** [s.charAt(n)]: the empty string out of range *)
Definition charAt (n : nat) (s : string) : string :=
  match String.get n s with
  | Some c => String c EmptyString
  | None => EmptyString
  end.

Definition startsWith (s p : string) : bool := String.prefix p s.

(** [s.includes(sub)] *)
Fixpoint includes (s sub : string) : bool :=
  String.prefix sub s ||
  match s with
  | EmptyString => false
  | String _ s' => includes s' sub
  end.

(** [n] copies of [s], one after the other. *)
Fixpoint copies (s : string) (n : nat) : string :=
  match n with
  | O => EmptyString
  | S n' => s ++ copies s n'
  end.

Fixpoint trimStart (s : string) : string :=
  match s with
  | String c s' => if isSpace c then trimStart s' else s
  | EmptyString => EmptyString
  end.

Fixpoint trimEnd (s : string) : string :=
  match s with
  | EmptyString => EmptyString
  | String c s' =>
      match trimEnd s' with
      | EmptyString => if isSpace c then EmptyString else String c EmptyString
      | t => String c t
      end
  end.

Definition trim (s : string) : string := trimEnd (trimStart s).

(** [arr.includes(x)] on an array of strings *)
Definition arrIncludes (arr : list string) (x : string) : bool :=
  existsb (String.eqb x) arr.

(** [s || d] on strings: the empty string is falsy *)
Definition orStr (s d : string) : string :=
  match s with
  | EmptyString => d
  | _ => s
  end.

(** [n || d] on numbers: zero is falsy *)
Definition orNum (n d : Z) : Z := if Z.eqb n 0 then d else n.

(** [a || d] on an optional array: every array is truthy *)
Definition orArr (a : option (list string)) (d : list string) : list string :=
  match a with
  | Some l => l
  | None => d
  end.

(** The longest prefix of [s] whose characters satisfy [p], and the rest:
    what a greedy [p+] or [p*] consumes when the next thing the pattern
    needs cannot satisfy [p]. *)
Fixpoint span (p : ascii -> bool) (s : string) : string * string :=
  match s with
  | String c s' =>
      if p c then let (a, b) := span p s' in (String c a, b)
      else (EmptyString, s)
  | EmptyString => (EmptyString, EmptyString)
  end.

(** A literal matched under the [i] flag at the start of [s]: the text it
    matched and the rest. *)
Fixpoint litCI (lit s : string) : option (string * string) :=
  match lit, s with
  | EmptyString, _ => Some (EmptyString, s)
  | String a lit', String c s' =>
      if Ascii.eqb (upperChar a) (upperChar c)
      then match litCI lit' s' with
           | Some (m, r) => Some (String c m, r)
           | None => None
           end
      else None
  | String _ _, EmptyString => None
  end.

(** [s.match(re)] without the [g] flag: the match at the leftmost position
    where the pattern matches; [at_] is the pattern tried at one position. *)
Fixpoint search {A : Type} (at_ : string -> option A) (s : string) : option A :=
  match at_ s with
  | Some r => Some r
  | None =>
      match s with
      | String _ s' => search at_ s'
      | EmptyString => None
      end
  end.

(** *** Numbers *)

(** The Number values the program meets: the integers that are doubles,
    the two infinities and NaN. *)
Inductive Num : Type :=
| Fin (z : Z)
| PosInf
| NegInf
| NaN.

(** The double nearest to the integer [z], for [0 <= z], ties to even,
    before the test for overflow: 53 significant bits are kept. *)
Definition roundNat (z : Z) : Z :=
  let k := Z.log2 z in
  if (k <? 53)%Z then z
  else
    let sh := (k - 52)%Z in
    let q := Z.shiftr z sh in
    let r := (z - Z.shiftl q sh)%Z in
    let half := Z.shiftl 1 (sh - 1) in
    let q' := if (half <? r)%Z || ((r =? half)%Z && Z.odd q)
              then (q + 1)%Z else q in
    Z.shiftl q' sh.

(** The Number for the integer [z]: the nearest double, or an infinity
    from 2^1024 on. *)
Definition toDouble (z : Z) : Num :=
  let m := roundNat (Z.abs z) in
  if (2 ^ 1024 <=? m)%Z then (if (z <? 0)%Z then NegInf else PosInf)
  else Fin (if (z <? 0)%Z then (- m)%Z else m).

(** [a - b] *)
Definition sub (a b : Num) : Num :=
  match a, b with
  | NaN, _ | _, NaN => NaN
  | Fin x, Fin y => toDouble (x - y)
  | PosInf, PosInf | NegInf, NegInf => NaN
  | PosInf, _ | _, NegInf => PosInf
  | NegInf, _ | _, PosInf => NegInf
  end.

(** [a > b] *)
Definition gtb (a b : Num) : bool :=
  match a, b with
  | NaN, _ | _, NaN => false
  | Fin x, Fin y => (y <? x)%Z
  | PosInf, PosInf | NegInf, _ => false
  | PosInf, _ => true
  | Fin _, NegInf => true
  | Fin _, PosInf => false
  end.

(** The digits of an integer in base ten, with a minus sign when it is
    negative. *)
Definition decimalString (z : Z) : string := NilZero.string_of_int (Z.to_int z).

(** The integer [v] rounds to the double [x]. *)
Definition roundsTo (v x : Z) : bool :=
  match toDouble v with
  | Fin y => (y =? x)%Z
  | _ => false
  end.

(** The integer of [k] significant digits that rounds to the double [x]
    and is nearest to it (of two equally near, the one whose last digit is
    even), when there is one. *)
Definition shortestAt (x k : Z) : option Z :=
  let n := Z.of_nat (String.length (decimalString x)) in
  let step := (10 ^ Z.max 0 (n - k))%Z in
  let lo := (x / step * step)%Z in
  let hi := (lo + step)%Z in
  match roundsTo lo x, roundsTo hi x with
  | true, true =>
      Some (if (x - lo <? hi - x)%Z then lo
            else if (hi - x <? x - lo)%Z then hi
            else if Z.even (lo / step) then lo else hi)
  | true, false => Some lo
  | false, true => Some hi
  | false, false => None
  end.

(** The integer with the fewest significant digits that rounds to [x]:
    seventeen digits always suffice. *)
Fixpoint shortestFrom (fuel : nat) (k : Z) (x : Z) : Z :=
  match fuel with
  | O => x
  | S fuel' =>
      match shortestAt x k with
      | Some v => v
      | None => shortestFrom fuel' (k + 1)%Z x
      end
  end.

Definition shortest (x : Z) : Z := shortestFrom 17 1%Z x.

Fixpoint dropZerosEnd (s : string) : string :=
  match s with
  | EmptyString => EmptyString
  | String c s' =>
      match dropZerosEnd s' with
      | EmptyString =>
          if Ascii.eqb c "0"%char then EmptyString else String c EmptyString
      | t => String c t
      end
  end.

(** [`${x}`] for a double [0 <= x] with an integer value.  Below 2^53
    every integer is a double and its digits are the shortest that give it
    back; from 1e21 on the exponent form is used. *)
Definition positiveToString (x : Z) : string :=
  if (x <? 2 ^ 53)%Z then decimalString x
  else
    let digits := decimalString (shortest x) in
    let n := Z.of_nat (String.length digits) in
    if (n <=? 21)%Z then digits
    else
      match dropZerosEnd digits with
      | String d EmptyString =>
          String d EmptyString ++ "e+" ++ decimalString (n - 1)
      | String d rest => String d ("." ++ rest) ++ "e+" ++ decimalString (n - 1)
      | EmptyString => digits
      end.

(** [`${n}`] *)
Definition numToString (n : Num) : string :=
  match n with
  | NaN => "NaN"
  | PosInf => "Infinity"
  | NegInf => "-Infinity"
  | Fin z => if (z <? 0)%Z then "-" ++ positiveToString (- z)
             else positiveToString z
  end.

Definition isHexDigit (c : ascii) : bool :=
  isDigit c
  || ((97 <=? nat_of_ascii c)%nat && (nat_of_ascii c <=? 102)%nat)
  || ((65 <=? nat_of_ascii c)%nat && (nat_of_ascii c <=? 70)%nat).

Definition digitValue (c : ascii) : Z :=
  if isDigit c then Z.of_nat (nat_of_ascii c - 48)
  else if isLower c then Z.of_nat (nat_of_ascii c - 87)
  else Z.of_nat (nat_of_ascii c - 55).

(** The integer that a run of digits writes in base [radix]. *)
Fixpoint mathInt (radix acc : Z) (digits : string) : Z :=
  match digits with
  | String c s' => mathInt radix (radix * acc + digitValue c)%Z s'
  | EmptyString => acc
  end.

(** The sign that [parseInt] reads, and the text after it. *)
Definition stripSign (s : string) : bool * string :=
  match s with
  | String c s' =>
      if Ascii.eqb c "-"%char then (true, s')
      else if Ascii.eqb c "+"%char then (false, s')
      else (false, s)
  | EmptyString => (false, s)
  end.

(** The base that [parseInt] reads (sixteen after [0x] or [0X], ten
    otherwise), and the text after the mark. *)
Definition stripPrefix (s : string) : Z * string :=
  match s with
  | String c (String x s') =>
      if Ascii.eqb c "0"%char
         && (Ascii.eqb x "x"%char || Ascii.eqb x "X"%char)
      then (16%Z, s') else (10%Z, s)
  | _ => (10%Z, s)
  end.

(** [parseInt(input)]: white space, a sign, [0x] for base sixteen, then
    the longest run of digits; NaN without a digit. *)
Definition parseInt (input : string) : Num :=
  let (negative, s) := stripSign (trimStart input) in
  let (radix, s) := stripPrefix s in
  let (digits, _) :=
    span (if (radix =? 16)%Z then isHexDigit else isDigit) s in
  match digits with
  | EmptyString => NaN
  | _ => let m := mathInt radix 0%Z digits in
         toDouble (if negative then (- m)%Z else m)
  end.

(** [parseInt(x || 0)] where [x] is a string or [undefined]: the empty
    string is falsy too, and [parseInt(0)] is 0. *)
Definition parseIntOr0 (x : option string) : Num :=
  match x with
  | Some EmptyString => Fin 0
  | Some s => parseInt s
  | None => Fin 0
  end.

(** *** Exceptions *)

(** What a function that can raise gives: a value, or the [RangeError]. *)
Inductive Completion (A : Type) : Type :=
| Ok (a : A)
| RangeError.
Arguments Ok {A} a.
Arguments RangeError {A}.

(** The length of the longest string of the engine (V8). *)
Definition maxStringLength : Z := (2 ^ 29 - 24)%Z.

(** ['9'.repeat(count)]: a [RangeError] for a negative or infinite count
    and for a result longer than the longest string. *)
Definition repeat (s : string) (count : Num) : Completion string :=
  match count with
  | NaN => Ok EmptyString
  | PosInf | NegInf => RangeError
  | Fin n =>
      if (n <? 0)%Z then RangeError
      else if (maxStringLength <? n * Z.of_nat (String.length s))%Z
           then RangeError
           else Ok (copies s (Z.to_nat n))
  end.

(** A template literal [`${a}${b}${c}`]: a [RangeError] when the text is
    longer than the longest string. *)
Definition template (a b c : string) : Completion string :=
  if (maxStringLength
      <? Z.of_nat (String.length a + String.length b + String.length c))%Z
  then RangeError
  else Ok (a ++ b ++ c).

End Js.

Import Js.

(** ** Configuration ([config.json], [getDefaultConfig]) *)

Record NamingConfig := {
  prefixes : option (list string);
  tablePrefixes : option (list string);
  removeThreeLetterPrefixes : bool
}.

Record NumberMapping := {
  number_default : string;
  large : string;
  decimal : string;
  largeThreshold : Z
}.

Record NamedMapping := {
  types : option (list string);
  mapping_default : string
}.

Record TypeMapping := {
  NUMBER : NumberMapping;
  STRING : NamedMapping;
  DATE : NamedMapping
}.

Record ValidationConfig := {
  generateAnnotations : bool;
  stringValidation : string;
  otherValidation : string;
  generateSchema : bool
}.

Record OutputConfig := {
  indentation : string
}.

Record Config := {
  naming : NamingConfig;
  typeMapping : TypeMapping;
  validation : ValidationConfig;
  output : OutputConfig
}.

Definition getDefaultConfig : Config := {|
  naming := {|
    prefixes := Some ["nr"; "cd"; "ds"; "dt"; "fl"; "vl"; "nm"; "tp"; "chm"; "pes"];
    tablePrefixes := Some ["tb"];
    removeThreeLetterPrefixes := true |};
  typeMapping := {|
    NUMBER := {| number_default := "Integer"; large := "Long";
                 decimal := "BigDecimal"; largeThreshold := 9 |};
    STRING := {| types := Some ["CHAR"; "VARCHAR2"; "TEXT"];
                 mapping_default := "String" |};
    DATE := {| types := Some ["DATE"; "TIMESTAMP"];
               mapping_default := "LocalDateTime" |} |};
  validation := {|
    generateAnnotations := true;
    stringValidation := "@NotBlank";
    otherValidation := "@NotNull";
    generateSchema := true |};
  output := {| indentation := "    " |}
|}.

(** [let config = {}]: the variable before [loadConfig] has run. *)
Definition emptyConfig : Config := {|
  naming := {| prefixes := None; tablePrefixes := None;
               removeThreeLetterPrefixes := false |};
  typeMapping := {|
    NUMBER := {| number_default := EmptyString; large := EmptyString;
                 decimal := EmptyString; largeThreshold := 0 |};
    STRING := {| types := None; mapping_default := EmptyString |};
    DATE := {| types := None; mapping_default := EmptyString |} |};
  validation := {|
    generateAnnotations := false;
    stringValidation := EmptyString;
    otherValidation := EmptyString;
    generateSchema := false |};
  output := {| indentation := EmptyString |}
|}.

(** ** Identifier transformer *)

(** [word.charAt(0).toUpperCase() + word.slice(1)] *)
Definition capitalize (word : string) : string :=
  toUpperCase (charAt 0 word) ++ slice 1 word.

(** The [for (const p of prefixes)] loop of [toCamelCase] with its
    [return word] after the loop. *)
Fixpoint camelFirst (ps : list string) (word : string) : string :=
  match ps with
  | [] => word
  | p :: ps' =>
      if startsWith word p && (String.length p <? String.length word)%nat
      then p ++ toUpperCase (charAt (String.length p) word)
             ++ slice (String.length p + 1) word
      else camelFirst ps' word
  end.

(** [parts.map((word, index) => ...)] *)
Fixpoint mapIndex {A B : Type} (f : A -> nat -> B) (index : nat) (l : list A)
  : list B :=
  match l with
  | [] => []
  | x :: l' => f x index :: mapIndex f (S index) l'
  end.

(** [parts.shift()] *)
Definition shift (parts : list string) : list string := tl parts.

(** [parts[0].length === 3] *)
Definition firstHasLength3 (parts : list string) : bool :=
  match parts with
  | p0 :: _ => (String.length p0 =? 3)%nat
  | [] => false
  end.

(** The configured prefix list, or the built-in one. *)
Definition camelPrefixes (cfg : Config) : list string :=
  orArr (prefixes (naming cfg))
        ["nr"; "cd"; "ds"; "dt"; "fl"; "vl"; "nm"; "tp"].

(** The array [parts] of [toCamelCase] when it reaches its [return]. *)
Definition camelParts (cfg : Config) (str : string) : list string :=
  let namingConfig := naming cfg in
  let parts := split "_" (toLowerCase str) in
  if removeThreeLetterPrefixes namingConfig && firstHasLength3 parts
  then shift parts else parts.

Definition toCamelCase (cfg : Config) (str : string) : string :=
  let ps := camelPrefixes cfg in
  let parts := camelParts cfg str in
  join EmptyString
    (mapIndex (fun word index =>
                 if (index =? 0)%nat then camelFirst ps word
                 else capitalize word) 0 parts).

(** The configured table-prefix list, or the built-in one. *)
Definition pascalPrefixes (cfg : Config) : list string :=
  orArr (tablePrefixes (naming cfg)) ["tb"].

(** The array [parts] of [toPascalCase] when it reaches its [return]. *)
Definition pascalParts (cfg : Config) (str : string) : list string :=
  let namingConfig := naming cfg in
  let tps := pascalPrefixes cfg in
  let parts := split "_" (toLowerCase str) in
  let parts :=
    if arrIncludes tps (hd EmptyString parts) then shift parts else parts in
  if removeThreeLetterPrefixes namingConfig
     && (0 <? List.length parts)%nat && firstHasLength3 parts
  then shift parts else parts.

Definition toPascalCase (cfg : Config) (str : string) : string :=
  join EmptyString (map capitalize (pascalParts cfg str)).

(** ** Type mapper *)

Record TypeInfo := {
  java : string;
  annotation : string
}.

Definition mapOracleType (cfg : Config)
    (type : option string) (precision scale : option string)
  : Completion TypeInfo :=
  let typeConfig := typeMapping cfg in
  let validationConfig := validation cfg in
  let type := match type with
              | Some t => toUpperCase t
              | None => EmptyString
              end in
  let precision := parseIntOr0 precision in
  let scale := parseIntOr0 scale in
  if includes type "NUMBER" then
    if gtb scale (Fin 0) then
      Ok {| java := orStr (decimal (NUMBER typeConfig)) "BigDecimal";
            annotation :=
              if generateAnnotations validationConfig
              then "@Digits(integer = " ++ numToString (sub precision scale)
                   ++ ", fraction = " ++ numToString scale ++ ")"
              else EmptyString |}
    else
      let threshold := orNum (largeThreshold (NUMBER typeConfig)) 9 in
      if gtb precision (Fin threshold) then
        match (if generateAnnotations validationConfig
               then match repeat "9" precision with
                    | Ok nines => template "@Min(0) @Max(" nines "L)"
                    | RangeError => RangeError
                    end
               else Ok EmptyString) with
        | Ok text =>
            Ok {| java := orStr (large (NUMBER typeConfig)) "Long";
                  annotation := text |}
        | RangeError => RangeError
        end
      else
        match (if generateAnnotations validationConfig
               then match repeat "9" precision with
                    | Ok nines => template "@Min(0) @Max(" nines ")"
                    | RangeError => RangeError
                    end
               else Ok EmptyString) with
        | Ok text =>
            Ok {| java := orStr (number_default (NUMBER typeConfig)) "Integer";
                  annotation := text |}
        | RangeError => RangeError
        end
  else
    let stringTypes := orArr (types (STRING typeConfig))
                             ["CHAR"; "VARCHAR2"; "TEXT"] in
    if existsb (fun t => includes type t) stringTypes then
      Ok {| java := orStr (mapping_default (STRING typeConfig)) "String";
            annotation :=
              if generateAnnotations validationConfig
              then "@Size(max = " ++ numToString precision ++ ")"
              else EmptyString |}
    else
      let dateTypes := orArr (types (DATE typeConfig)) ["DATE"] in
      if existsb (fun t => includes type t) dateTypes then
        Ok {| java := orStr (mapping_default (DATE typeConfig)) "LocalDateTime";
              annotation := EmptyString |}
      else
        Ok {| java := "String"; annotation := EmptyString |}.

(** ** DDL parser *)

Record Column := {
  originalName : string;
  javaName : string;
  pascalName : string;
  javaType : string;
  column_annotation : string;
  isId : bool
}.

Record TableModel := {
  schema : string;
  originalTableName : string;
  className : string;
  columns : list Column
}.

Definition isEmpty (s : string) : bool :=
  match s with
  | EmptyString => true
  | _ => false
  end.

(** [/CREATE TABLE (\w+)\.(\w+)/i] tried at the start of [s]; the result is
    the match array [[whole; schema; table]].  [\w+] is greedy and what
    follows it is not a word character, so it takes the whole run. *)
Definition createTableSchemaAt (s : string) : option (list string) :=
  match litCI "CREATE TABLE " s with
  | Some (m, r) =>
      let (g1, r1) := span isWord r in
      if isEmpty g1 then None
      else match r1 with
           | String "."%char r2 =>
               let (g2, _) := span isWord r2 in
               if isEmpty g2 then None
               else Some [m ++ g1 ++ "." ++ g2; g1; g2]
           | _ => None
           end
  | None => None
  end.

(** [/CREATE TABLE (\w+)/i] tried at the start of [s]: [[whole; table]]. *)
Definition createTableAt (s : string) : option (list string) :=
  match litCI "CREATE TABLE " s with
  | Some (m, r) =>
      let (g1, _) := span isWord r in
      if isEmpty g1 then None else Some [m ++ g1; g1]
  | None => None
  end.

(** [[^)]] *)
Definition notCloseParen (c : ascii) : bool := negb (Ascii.eqb c ")"%char).

(** [/PRIMARY KEY \(([^)]+)\)/i] tried at the start of [s]: the group. *)
Definition primaryKeyAt (s : string) : option string :=
  match litCI "PRIMARY KEY (" s with
  | Some (_, r) =>
      let (g1, r1) := span notCloseParen r in
      if isEmpty g1 then None
      else match r1 with
           | String ")"%char _ => Some g1
           | _ => None
           end
  | None => None
  end.

(** The optional tail [(?:\((\d+)(?:,(\d+))?\))?] of the column pattern at
    the start of [r]: the two groups, both [undefined] when the tail does
    not match (the pattern then matches without it). *)
Definition precisionScaleAt (r : string) : option string * option string :=
  match r with
  | String "("%char r1 =>
      let (d1, r2) := span isDigit r1 in
      if isEmpty d1 then (None, None)
      else match r2 with
           | String ")"%char _ => (Some d1, None)
           | String ","%char r3 =>
               let (d2, r4) := span isDigit r3 in
               if isEmpty d2 then (None, None)
               else match r4 with
                    | String ")"%char _ => (Some d1, Some d2)
                    | _ => (None, None)
                    end
           | _ => (None, None)
           end
  | _ => (None, None)
  end.

(** [trimmed.match(/^(\w+)\s+(\w+)(?:\((\d+)(?:,(\d+))?\))?/)]: the groups
    [(colName, colType, precision, scale)]. *)
Definition colMatch (trimmed : string)
  : option (string * string * option string * option string) :=
  let (colName, r) := span isWord trimmed in
  if isEmpty colName then None
  else
    let (ws, r1) := span isSpace r in
    if isEmpty ws then None
    else
      let (colType, r2) := span isWord r1 in
      if isEmpty colType then None
      else
        let (precision, scale) := precisionScaleAt r2 in
        Some (colName, colType, precision, scale).

(** The body of [lines.forEach(line => ...)]: [columns] is the array the
    callback pushes to; the [RangeError] of [mapOracleType] goes through. *)
Definition parseLine (cfg : Config) (pks : list string)
    (columns : list Column) (line : string) : Completion (list Column) :=
  let trimmed := trim line in
  match colMatch trimmed with
  | Some (colName, colType, precision, scale) =>
      if negb (startsWith trimmed "CONSTRAINT")
         && negb (startsWith trimmed "CREATE")
         && negb (startsWith trimmed "KEY")
         && negb (startsWith trimmed ")")
      then
        match mapOracleType cfg (Some colType) precision scale with
        | Ok typeInfo =>
            Ok (columns ++
                [ {| originalName := colName;
                     javaName := toCamelCase cfg colName;
                     pascalName :=
                       toUpperCase (charAt 0 (toCamelCase cfg colName))
                       ++ slice 1 (toCamelCase cfg colName);
                     javaType := java typeInfo;
                     column_annotation := annotation typeInfo;
                     isId := arrIncludes pks colName |} ])%list
        | RangeError => RangeError
        end
      else Ok columns
  | None => Ok columns
  end.

(** [lines.forEach(...)]: the callback runs line after line on the array
    [columns], until one run raises. *)
Fixpoint forEachLine (cfg : Config) (pks : list string) (lines : list string)
    (columns : list Column) : Completion (list Column) :=
  match lines with
  | [] => Ok columns
  | line :: lines' =>
      match parseLine cfg pks columns line with
      | Ok columns' => forEachLine cfg pks lines' columns'
      | RangeError => RangeError
      end
  end.

(** The primary-key list: [pkMatch[1].split(',')], each entry trimmed. *)
Definition parsePks (ddl : string) : list string :=
  match search primaryKeyAt ddl with
  | Some g => map trim (split ","%char g)
  | None => []
  end.

(** [schema] and [tableName] after the search for the table declaration. *)
Definition tableNames (ddl : string) : string * string :=
  let tableName := "Unknown" in
  let schema0 := "dbo" in
  let createTableMatch :=
    match search createTableSchemaAt ddl with
    | Some m => Some m
    | None => search createTableAt ddl
    end in
  match createTableMatch with
  | Some m =>
      if (List.length m =? 3)%nat
      then (nth 1 m EmptyString, nth 2 m EmptyString)
      else (schema0, nth 1 m EmptyString)
  | None => (schema0, tableName)
  end.

Definition parseDDL (cfg : Config) (ddl : string) : Completion TableModel :=
  let lines := split "010"%char ddl in
  let (schema0, tableName) := tableNames ddl in
  let pks := parsePks ddl in
  match forEachLine cfg pks lines [] with
  | Ok columns0 =>
      Ok {| schema := schema0;
            originalTableName := tableName;
            className := toPascalCase cfg tableName;
            columns := columns0 |}
  | RangeError => RangeError
  end.

(** ** Template renderers *)

Definition generateEntity (cfg : Config) (data : TableModel) : string :=
  let outputConfig := output cfg in
  let indent := orStr (indentation outputConfig) "    " in
  let pkClass :=
    if (1 <? List.length (filter isId (columns data)))%nat
    then "@IdClass(" ++ className data ++ "Id.class)"
    else EmptyString in
  "/** JAVA ENTITY **/" ++ nl
  ++ nl
  ++ "@Data" ++ nl
  ++ "@Entity" ++ nl
  ++ "@Table(schema = " ++ dquote ++ schema data ++ dquote
  ++ ", name = " ++ dquote ++ originalTableName data ++ dquote ++ ")" ++ nl
  ++ pkClass ++ nl
  ++ "public class " ++ className data ++ " implements Serializable {" ++ nl
  ++ nl
  ++ indent ++ "@Serial" ++ nl
  ++ indent ++ "private static final long serialVersionUID = 1L;" ++ nl
  ++ nl
  ++ join (nl ++ nl)
       (map (fun col =>
               let out := EmptyString in
               let out := if isId col then out ++ indent ++ "@Id" ++ nl
                          else out in
               out ++ indent ++ "@Column(name = " ++ dquote
                   ++ originalName col ++ dquote ++ ")" ++ nl
                   ++ indent ++ "private " ++ javaType col ++ " "
                   ++ javaName col ++ ";")
            (columns data)) ++ nl
  ++ "}".

(** The [notBlank] constant of [generateDTO]'s callback. *)
Definition notBlank (cfg : Config) (col : Column) : string :=
  let validationConfig := validation cfg in
  if String.eqb (javaType col) "String"
  then orStr (stringValidation validationConfig) "@NotBlank"
  else orStr (otherValidation validationConfig) "@NotNull".

(** One element of the first [data.columns.map] of [generateDTO]. *)
Definition dtoInterface (cfg : Config) (col : Column) : string :=
  let validationConfig := validation cfg in
  let indent := orStr (indentation (output cfg)) "    " in
  let schemaAnnotation :=
    if generateSchema validationConfig
    then "@Schema(description = " ++ dquote ++ " " ++ dquote
         ++ ", example = " ++ dquote ++ " " ++ dquote ++ ")"
    else EmptyString in
  indent ++ "protected interface " ++ pascalName col ++ " {" ++ nl
  ++ indent ++ notBlank cfg col ++ nl
  ++ indent ++ column_annotation col ++ nl
  ++ indent ++ schemaAnnotation ++ nl
  ++ indent ++ javaType col ++ " get" ++ pascalName col ++ "();" ++ nl
  ++ indent ++ "}".

Definition generateDTO (cfg : Config) (data : TableModel) : string :=
  let outputConfig := output cfg in
  let indent := orStr (indentation outputConfig) "    " in
  let interfacesList := join ", " (map pascalName (columns data)) in
  "/** JAVA DTO **/" ++ nl
  ++ nl
  ++ "public enum " ++ className data ++ "DTO {;" ++ nl
  ++ nl
  ++ join (nl ++ nl) (map (dtoInterface cfg) (columns data)) ++ nl
  ++ nl
  ++ indent ++ "public enum Request {;" ++ nl
  ++ indent ++ indent ++ "@Data" ++ nl
  ++ indent ++ indent ++ "@EqualsAndHashCode(callSuper = true)" ++ nl
  ++ indent ++ indent ++ "public static class Base implements "
  ++ interfacesList ++ " {" ++ nl
  ++ join nl
       (map (fun col => indent ++ indent ++ indent ++ "private "
                        ++ javaType col ++ " " ++ javaName col ++ ";")
            (columns data)) ++ nl
  ++ indent ++ indent ++ "}" ++ nl
  ++ "        " ++ nl
  ++ indent ++ indent ++ "@Data" ++ nl
  ++ indent ++ indent ++ "@EqualsAndHashCode(callSuper = true)" ++ nl
  ++ indent ++ indent ++ "public static class Cadastro extends Base {}" ++ nl
  ++ indent ++ "}" ++ nl
  ++ nl
  ++ indent ++ "public enum Response {;" ++ nl
  ++ indent ++ indent ++ "public interface Buscar extends "
  ++ interfacesList ++ " {}" ++ nl
  ++ indent ++ "}" ++ nl
  ++ "}".

(** * Vocabulary of the statements *)

(** ** The type name as the specification words it

    The second definition of the type name, written from the sentence of
    the specification and not from the code: every segment equal to a
    table-prefix token is filtered out, the remaining ones are capitalized
    and concatenated, and the unfiltered segments are used when the filter
    leaves nothing. *)
Definition toTypeName_spec (cfg : Config) (identifier : string) : string :=
  let parts := split "_" (toLowerCase identifier) in
  let cleanParts :=
    filter (fun p => negb (arrIncludes (pascalPrefixes cfg) p)) parts in
  let finalParts := match cleanParts with
                    | [] => parts
                    | _ => cleanParts
                    end in
  join EmptyString (map capitalize finalParts).

(** ** Prefix tokens

    A token the prefix loop of [toCamelCase] stops at: the word starts
    with it and is strictly longer. *)
Definition properPrefix (word p : string) : bool :=
  startsWith word p && (String.length p <? String.length word)%nat.

(** ** What the patterns say about the text *)

(** Every character of [s] satisfies [p]. *)
Fixpoint allChars (p : ascii -> bool) (s : string) : bool :=
  match s with
  | EmptyString => true
  | String c s' => p c && allChars p s'
  end.



(** The text contains a clause [PRIMARY KEY (cols)]. *)
Definition PrimaryKeyClauseIn (ddl : string) : Prop :=
  exists pre kw cols post,
    ddl = pre ++ kw ++ cols ++ ")" ++ post
    /\ toUpperCase kw = "PRIMARY KEY ("
    /\ cols <> EmptyString /\ allChars notCloseParen cols = true.

(** ** The columns of a line *)

(** The columns one line contributes: none or one. *)
Definition lineColumns (cfg : Config) (pks : list string) (line : string)
  : Completion (list Column) :=
  parseLine cfg pks [] line.

(** The columns a list of lines contributes, in the order of the lines. *)
Definition linesColumns (cfg : Config) (pks : list string)
    (lines : list string) : Completion (list Column) :=
  forEachLine cfg pks lines [].

(** ** Numbers as they are written

    The integer that a capture group of digits writes; 0 for a group that
    did not take part in the match. *)
Definition declared (x : option string) : Z :=
  match x with
  | Some digits => mathInt 10 0 digits
  | None => 0%Z
  end.

(** A capture group [(\d+)]: undefined, or a non-empty run of digits. *)
Definition digitGroup (x : option string) : Prop :=
  match x with
  | Some digits => digits <> EmptyString /\ allChars isDigit digits = true
  | None => True
  end.

(** The longest run of nines that still fits, with the thirteen characters
    before it and the two after it, in the longest string. *)
Definition maxNines : Z := (maxStringLength - 15)%Z.

(** The annotation of an integer column in [mapOracleType]: the bound with
    the nines, followed by [after], when annotations are enabled. *)
Definition nineBound (cfg : Config) (precision : Num) (after : string)
  : Completion string :=
  if generateAnnotations (validation cfg)
  then match repeat "9" precision with
       | Ok nines => template "@Min(0) @Max(" nines after
       | RangeError => RangeError
       end
  else Ok EmptyString.


(** ** At signs

    The templates write every annotation themselves, so a marker can only
    appear in the output where a template puts it, as long as the texts the
    templates interpolate (identifiers, configured type names, the
    indentation) carry no at sign. *)

Definition notAt (c : ascii) : bool := negb (Ascii.eqb c "@"%char).

(** No at sign in [s]. *)
Definition atFree (s : string) : bool := allChars notAt s.

(** The configured type names and the indentation carry no at sign. *)
Definition atFreeConfig (cfg : Config) : bool :=
  atFree (number_default (NUMBER (typeMapping cfg)))
  && atFree (large (NUMBER (typeMapping cfg)))
  && atFree (decimal (NUMBER (typeMapping cfg)))
  && atFree (mapping_default (STRING (typeMapping cfg)))
  && atFree (mapping_default (DATE (typeMapping cfg)))
  && atFree (indentation (output cfg)).

(** The last character of [s] is an at sign. *)
Fixpoint lastIsAt (s : string) : bool :=
  match s with
  | EmptyString => false
  | String c s' =>
      match s' with
      | EmptyString => Ascii.eqb c "@"%char
      | String _ _ => lastIsAt s'
      end
  end.

(** [s] holds no at sign followed by a capital I, and does not end with an
    at sign: appending to it cannot complete a marker that starts so. *)
Definition clean (s : string) : bool :=
  negb (includes s "@I") && negb (lastIsAt s).

(** A column that is no key and whose texts carry no at sign. *)
Definition plainColumn (col : Column) : Prop :=
  isId col = false
  /\ atFree (originalName col) = true
  /\ atFree (javaType col) = true
  /\ atFree (javaName col) = true.

(** ** Configurations a [config.json] may hold *)

(** The default configuration with the string type renamed, as a
    [config.json] may do. *)
Definition charSequenceConfig : Config := {|
  naming := naming getDefaultConfig;
  typeMapping := {|
    NUMBER := NUMBER (typeMapping getDefaultConfig);
    STRING := {| types := Some ["CHAR"; "VARCHAR2"; "TEXT"];
                 mapping_default := "CharSequence" |};
    DATE := DATE (typeMapping getDefaultConfig) |};
  validation := validation getDefaultConfig;
  output := output getDefaultConfig
|}.

(** The default configuration with an indentation that carries a marker
    of its own. *)
Definition markerIndentConfig : Config := {|
  naming := naming getDefaultConfig;
  typeMapping := typeMapping getDefaultConfig;
  validation := validation getDefaultConfig;
  output := {| indentation := "@IdClass " |}
|}.

(** The default configuration without the list of date types, as a
    [config.json] that omits [typeMapping.DATE.types] gives. *)
Definition noDateTypesConfig : Config := {|
  naming := naming getDefaultConfig;
  typeMapping := {|
    NUMBER := NUMBER (typeMapping getDefaultConfig);
    STRING := STRING (typeMapping getDefaultConfig);
    DATE := {| types := None; mapping_default := "LocalDateTime" |} |};
  validation := validation getDefaultConfig;
  output := output getDefaultConfig
|}.

(** ** The branches of the type mapper

    The string tokens and the date tokens the mapper looks for in a type. *)
Definition stringTokens (cfg : Config) : list string :=
  orArr (types (STRING (typeMapping cfg))) ["CHAR"; "VARCHAR2"; "TEXT"].

Definition dateTokens (cfg : Config) : list string :=
  orArr (types (DATE (typeMapping cfg))) ["DATE"].

(** Some token of [tokens] occurs in the upper-cased [type]. *)
Definition hasToken (tokens : list string) (type : string) : bool :=
  existsb (fun t => includes (toUpperCase type) t) tokens.

(** ** Character classes of the generated names *)

(** A letter or a digit. *)
Definition isAlnum (c : ascii) : bool := isUpper c || isLower c || isDigit c.

Definition notUnderscore (c : ascii) : bool := negb (Ascii.eqb c "_"%char).

(** Not the separator [sep]. *)
Definition notSep (sep c : ascii) : bool := negb (Ascii.eqb c sep).

(** ** Columns and texts of the parser *)

(** What [parseDDL] keeps true of a column [col] of the model of [ddl]:
    the name is a non-empty run of word characters, and the other fields
    are derived from it. *)
Definition derivedColumn (cfg : Config) (ddl : string) (col : Column) : Prop :=
  originalName col <> EmptyString
  /\ allChars isWord (originalName col) = true
  /\ javaName col = toCamelCase cfg (originalName col)
  /\ pascalName col = capitalize (javaName col)
  /\ isId col = arrIncludes (parsePks ddl) (originalName col).

(** Not the letter C, in either case: the keyword [CREATE] cannot start at
    such a character. *)
Definition notLetterC (c : ascii) : bool :=
  negb (Ascii.eqb (upperChar c) "C"%char).

(** The text is empty or starts outside the word characters: a run of word
    characters that precedes it ends there. *)
Definition endsWord (post : string) : Prop :=
  match post with
  | EmptyString => True
  | String c _ => isWord c = false
  end.

(** ** Looking for the composite-key marker

    A scanner for the start [@IdC] of the composite-key marker: the state
    counts the characters of it just read, and 4 means it was found. *)
Definition stepIdC (st : nat) (c : ascii) : nat :=
  match st with
  | 4 => 4
  | _ =>
      if Ascii.eqb c "@"%char then 1
      else match st with
           | 1 => if Ascii.eqb c "I"%char then 2 else 0
           | 2 => if Ascii.eqb c "d"%char then 3 else 0
           | 3 => if Ascii.eqb c "C"%char then 4 else 0
           | _ => 0
           end
  end.

Fixpoint scanIdC (st : nat) (s : string) : nat :=
  match s with
  | EmptyString => st
  | String c s' => scanIdC (stepIdC st c) s'
  end.

(** Read from the start, [s] leaves the scanner where it began: the start
    of the marker is not in [s], and [s] does not end inside it. *)
Definition quiet (s : string) : bool := (scanIdC 0 s =? 0)%nat.

(** A column whose texts carry no at sign. *)
Definition textColumn (col : Column) : Prop :=
  atFree (originalName col) = true
  /\ atFree (javaType col) = true
  /\ atFree (javaName col) = true.

(** One element of the [data.columns.map] of [generateEntity]: the lines
    the entity gives to a column. *)
Definition entityField (cfg : Config) (col : Column) : string :=
  let indent := orStr (indentation (output cfg)) "    " in
  (if isId col then EmptyString ++ indent ++ "@Id" ++ nl else EmptyString)
  ++ indent ++ "@Column(name = " ++ dquote ++ originalName col ++ dquote
  ++ ")" ++ nl
  ++ indent ++ "private " ++ javaType col ++ " " ++ javaName col ++ ";".

(** One element of the last [data.columns.map] of [generateDTO]: the field
    the class [Base] gives to a column. *)
Definition dtoBaseField (cfg : Config) (col : Column) : string :=
  let indent := orStr (indentation (output cfg)) "    " in
  indent ++ indent ++ indent ++ "private " ++ javaType col ++ " "
  ++ javaName col ++ ";".

(** ** Version 2.0 of the generator (before the configuration file)

    The three functions as they were with their constants written in the
    code. *)
Definition toCamelCase_v2 (str : string) : string :=
  let parts := split "_" (toLowerCase str) in
  let parts := if firstHasLength3 parts then shift parts else parts in
  join EmptyString
    (mapIndex (fun word index =>
                 if (index =? 0)%nat
                 then camelFirst ["nr"; "cd"; "ds"; "dt"; "fl"; "vl"; "nm"; "tp"]
                                 word
                 else capitalize word) 0 parts).

Definition toPascalCase_v2 (str : string) : string :=
  let parts := split "_" (toLowerCase str) in
  let parts :=
    if String.eqb (hd EmptyString parts) "tb" then shift parts else parts in
  let parts :=
    if (0 <? List.length parts)%nat && firstHasLength3 parts
    then shift parts else parts in
  join EmptyString (map capitalize parts).

Definition mapOracleType_v2 (type : option string)
    (precision scale : option string) : Completion TypeInfo :=
  let type := match type with
              | Some t => toUpperCase t
              | None => EmptyString
              end in
  let precision := parseIntOr0 precision in
  let scale := parseIntOr0 scale in
  if includes type "NUMBER" then
    if gtb scale (Fin 0) then
      Ok {| java := "BigDecimal";
            annotation := "@Digits(integer = "
                          ++ numToString (sub precision scale)
                          ++ ", fraction = " ++ numToString scale ++ ")" |}
    else if gtb precision (Fin 9) then
      match (match repeat "9" precision with
             | Ok nines => template "@Min(0) @Max(" nines "L)"
             | RangeError => RangeError
             end) with
      | Ok text => Ok {| java := "Long"; annotation := text |}
      | RangeError => RangeError
      end
    else
      match (match repeat "9" precision with
             | Ok nines => template "@Min(0) @Max(" nines ")"
             | RangeError => RangeError
             end) with
      | Ok text => Ok {| java := "Integer"; annotation := text |}
      | RangeError => RangeError
      end
  else if includes type "CHAR" || includes type "VARCHAR2"
          || includes type "TEXT" then
    Ok {| java := "String";
          annotation := "@Size(max = " ++ numToString precision ++ ")" |}
  else if includes type "DATE" then
    Ok {| java := "LocalDateTime"; annotation := EmptyString |}
  else Ok {| java := "String"; annotation := EmptyString |}.

(** ** The first version of [toPascalCase]

    It returns the array of the capitalized first characters, not a
    string. *)
Definition toPascalCase_v1 (str : string) : list string :=
  let parts := split "_" (toLowerCase str) in
  let cleanParts :=
    filter (fun p => negb (String.eqb p "tb") && (3 <? String.length p)%nat)
           parts in
  let finalParts := if (0 <? List.length cleanParts)%nat
                    then cleanParts else parts in
  map (fun word => toUpperCase (charAt 0 word)) finalParts.

(** ** The results of a run ([runCLI])

    The part of [runCLI] that builds the array [results] from the parsed
    model and the boxes the user ticked ([answers.outputs]). *)
Record Result := {
  result_type : string;
  filename : string;
  code : string
}.

Definition entityResult (cfg : Config) (parsedData : TableModel) : Result :=
  {| result_type := "Entity";
     filename := className parsedData ++ ".java";
     code := generateEntity cfg parsedData |}.

Definition dtoResult (cfg : Config) (parsedData : TableModel) : Result :=
  {| result_type := "DTO";
     filename := className parsedData ++ "DTO.java";
     code := generateDTO cfg parsedData |}.

Definition buildResults (cfg : Config) (parsedData : TableModel)
    (outputs : list string) : list Result :=
  let results := [] in
  let results :=
    if arrIncludes outputs "entity"
    then (results ++ [entityResult cfg parsedData])%list else results in
  let results :=
    if arrIncludes outputs "dto"
    then (results ++ [dtoResult cfg parsedData])%list else results in
  if (List.length results =? 0)%nat
  then (results ++ [entityResult cfg parsedData; dtoResult cfg parsedData])%list
  else results.

(** The text [runCLI] copies to the clipboard. *)
Definition combinedCode (results : list Result) : string :=
  join (nl ++ nl ++ copies "=" 50 ++ nl ++ nl)
       (map (fun r => "// " ++ result_type r ++ nl ++ code r) results).

(** * Facts about strings *)

Section StringFacts.

Lemma append_nil_r (s : string) : s ++ EmptyString = s.
Proof. induction s as [|c s IH]; simpl; [reflexivity | now rewrite IH]. Qed.

Lemma append_assoc (a b c : string) : (a ++ b) ++ c = a ++ (b ++ c).
Proof. induction a as [|x a IH]; simpl; [reflexivity | now rewrite IH]. Qed.

Lemma length_append (a b : string) :
  String.length (a ++ b) = String.length a + String.length b.
Proof. induction a as [|x a IH]; simpl; [reflexivity | now rewrite IH]. Qed.

Lemma split_not_nil (sep : ascii) (s : string) : split sep s <> [].
Proof.
  destruct s as [|c s]; simpl; [discriminate|].
  destruct (Ascii.eqb c sep); [discriminate|].
  destruct (split sep s); discriminate.
Qed.

Lemma capitalize_String (c : ascii) (s : string) :
  capitalize (String c s) = String (upperChar c) s.
Proof. reflexivity. Qed.

Lemma capitalize_empty : capitalize EmptyString = EmptyString.
Proof. reflexivity. Qed.

Lemma get_copies_char (c d : ascii) (n i : nat) :
  String.get i (copies (String c EmptyString) n) = Some d -> d = c.
Proof.
  revert i; induction n as [|n IH]; intros i; simpl; [discriminate|].
  destruct i as [|i]; [intros [= <-]; reflexivity | apply IH].
Qed.

Lemma startsWith_append (p t : string) : startsWith (p ++ t) p = true.
Proof.
  unfold startsWith; induction p as [|c p IH]; simpl.
  - now destruct t.
  - destruct (ascii_dec c c) as [_|n]; [exact IH | now elim n].
Qed.

Lemma charAt_append (p : string) (c : ascii) (t : string) :
  charAt (String.length p) (p ++ String c t) = String c EmptyString.
Proof. unfold charAt; induction p as [|x p IH]; simpl; [reflexivity | exact IH]. Qed.

Lemma slice_append (p t : string) : slice (String.length p) (p ++ t) = t.
Proof. induction p as [|x p IH]; simpl; [now destruct t | exact IH]. Qed.

End StringFacts.

(** * The identifier transformer *)

Section Identifiers.

Variable cfg : Config.

(** After index 0 the callback of [parts.map] only capitalizes. *)
Lemma mapIndex_capitalize (ps : list string) (i : nat) (l : list string) :
  mapIndex (fun word index =>
              if (index =? 0)%nat then camelFirst ps word
              else capitalize word) (S i) l
  = map capitalize l.
Proof.
  revert i; induction l as [|w l IH]; intros i; simpl; [reflexivity|].
  now rewrite IH.
Qed.

Lemma join_empty_cons (w : string) (l : list string) :
  join EmptyString (w :: l) = w ++ join EmptyString l.
Proof.
  unfold join; destruct l as [|x l]; simpl; [now rewrite append_nil_r|reflexivity].
Qed.

Lemma toCamelCase_parts (str : string) :
  toCamelCase cfg str =
  match camelParts cfg str with
  | [] => EmptyString
  | seg :: rest =>
      camelFirst (camelPrefixes cfg) seg
      ++ join EmptyString (map capitalize rest)
  end.
Proof.
  unfold toCamelCase; destruct (camelParts cfg str) as [|seg rest];
    [reflexivity|].
  cbn [mapIndex Nat.eqb]; rewrite mapIndex_capitalize.
  apply join_empty_cons.
Qed.

Lemma camelFirst_first_match (before after : list string)
    (p : string) (c : ascii) (tail : string) :
  (forall q, In q before -> properPrefix (p ++ String c tail) q = false) ->
  camelFirst (before ++ p :: after) (p ++ String c tail)
  = p ++ String (upperChar c) tail.
Proof.
  intros Hbefore; induction before as [|q before IH]; simpl.
  - rewrite startsWith_append, length_append; simpl.
    replace (String.length p <? String.length p + S (String.length tail))%nat
      with true by (symmetry; apply Nat.ltb_lt; lia).
    simpl; rewrite charAt_append.
    replace (String.length p + 1) with (String.length (p ++ String c EmptyString))
      by (rewrite length_append; reflexivity).
    replace (p ++ String c tail) with ((p ++ String c EmptyString) ++ tail)
      at 1 by (rewrite append_assoc; reflexivity).
    now rewrite slice_append.
  - fold (properPrefix (p ++ String c tail) q).
    rewrite (Hbefore q (or_introl eq_refl)).
    apply IH; intros q' Hq'; apply Hbefore; now right.
Qed.

Lemma camelFirst_no_match (ps : list string) (word : string) :
  (forall q, In q ps -> properPrefix word q = false) ->
  camelFirst ps word = word.
Proof.
  induction ps as [|q ps IH]; intros H; simpl; [reflexivity|].
  fold (properPrefix word q); rewrite (H q (or_introl eq_refl)).
  apply IH; intros q' Hq'; apply H; now right.
Qed.

End Identifiers.

(** C5. For the identifier [nrcliente] (no underscore) and the default
    configuration, whose prefix list contains [nr], [toCamelCase] returns
    [nrCliente].  In general, when the first remaining segment starts with a
    configured prefix token and is strictly longer than it (the first such
    token in list order), the character right after the token is
    capitalized, the token and the rest of the segment are unchanged, and
    the later segments follow capitalized. *)
Theorem C5_toCamelCase_glued_prefix :
  toCamelCase getDefaultConfig "nrcliente" = "nrCliente"
  /\ forall (cfg : Config) (str : string) (before after : list string)
            (p : string) (c : ascii) (tail : string) (rest : list string),
       camelParts cfg str = (p ++ String c tail) :: rest ->
       camelPrefixes cfg = (before ++ p :: after)%list ->
       (forall q, In q before -> properPrefix (p ++ String c tail) q = false) ->
       toCamelCase cfg str
       = p ++ String (upperChar c) tail
           ++ join EmptyString (map capitalize rest).
Proof.
  split; [reflexivity|].
  intros cfg str before after p c tail rest Hparts Hps Hfirst.
  rewrite toCamelCase_parts, Hparts, Hps.
  rewrite (camelFirst_first_match before after p c tail Hfirst).
  now rewrite append_assoc.
Qed.

Lemma C5_toCamelCase_glued_prefix_witness :
  camelParts getDefaultConfig "nrcliente" = ["nr" ++ String "c" "liente"]
  /\ camelPrefixes getDefaultConfig
     = ([] ++ "nr" :: ["cd"; "ds"; "dt"; "fl"; "vl"; "nm"; "tp"; "chm"; "pes"])%list
  /\ toCamelCase getDefaultConfig "nrcliente" = "nrCliente".
Proof.
  split; [reflexivity|]. split; [reflexivity|].
  apply (proj2 C5_toCamelCase_glued_prefix getDefaultConfig "nrcliente"
           [] ["cd"; "ds"; "dt"; "fl"; "vl"; "nm"; "tp"; "chm"; "pes"]
           "nr" "c"%char "liente" []).
  - reflexivity.
  - reflexivity.
  - intros q [].
Defined.

(** C6. For the identifier [dt_ressarcimento_cliente] and the default
    configuration, [toCamelCase] returns [dtRessarcimentoCliente]: no
    segment is dropped (the first one has two letters, not three), the
    first segment [dt] is returned unchanged by the prefix loop (no
    configured token is a prefix of it that is strictly shorter), and each
    later segment has its first character capitalized before the segments
    are concatenated. *)
Theorem C6_toCamelCase_compound :
  toCamelCase getDefaultConfig "dt_ressarcimento_cliente"
  = "dtRessarcimentoCliente"
  /\ camelParts getDefaultConfig "dt_ressarcimento_cliente"
     = ["dt"; "ressarcimento"; "cliente"]
  /\ firstHasLength3 ["dt"; "ressarcimento"; "cliente"] = false
  /\ forallb (fun p => negb (properPrefix "dt" p))
             (camelPrefixes getDefaultConfig) = true
  /\ camelFirst (camelPrefixes getDefaultConfig) "dt" = "dt"
  /\ map capitalize ["ressarcimento"; "cliente"] = ["Ressarcimento"; "Cliente"]
  /\ forall (cfg : Config) (str : string),
       toCamelCase cfg str =
       match camelParts cfg str with
       | [] => EmptyString
       | seg :: rest =>
           camelFirst (camelPrefixes cfg) seg
           ++ join EmptyString (map capitalize rest)
       end.
Proof.
  repeat split; try reflexivity.
  intros cfg str; apply toCamelCase_parts.
Qed.

(** C1, as the code has it.  [toPascalCase] lower-cases the identifier and
    splits it on underscores; it drops the first segment when that segment
    is a table-prefix token, then, when [removeThreeLetterPrefixes] is set,
    drops the segment that is first at that point when it has exactly three
    characters; every other segment is kept, capitalized, and the results
    are concatenated.  At most the two leading segments are dropped, a later
    segment equal to a table-prefix token stays, and there is no fallback:
    when no segment is left the type name is empty. *)
Theorem C1_toPascalCase_leading_segments_only :
  forall (cfg : Config) (str : string),
    let parts := split "_" (toLowerCase str) in
    let k1 := if arrIncludes (pascalPrefixes cfg) (hd EmptyString parts)
              then 1 else 0 in
    let k2 := if removeThreeLetterPrefixes (naming cfg)
                 && firstHasLength3 (skipn k1 parts)
              then 1 else 0 in
    toPascalCase cfg str
    = join EmptyString (map capitalize (skipn (k1 + k2) parts))
    /\ (forall seg, In seg (skipn 2 parts) ->
                    In (capitalize seg) (map capitalize (pascalParts cfg str)))
    /\ (skipn (k1 + k2) parts = [] -> toPascalCase cfg str = EmptyString).
Proof.
  intros cfg str parts k1 k2.
  assert (Hparts : pascalParts cfg str = skipn (k1 + k2) parts).
  { unfold pascalParts, k2, k1; fold parts.
    destruct parts as [|p0 rest] eqn:E;
      [exfalso; exact (split_not_nil _ _ E)|].
    cbn [hd].
    destruct (arrIncludes (pascalPrefixes cfg) p0);
      destruct (removeThreeLetterPrefixes (naming cfg)); cbn [andb shift tl skipn].
    - destruct rest as [|p1 rest]; cbn; [reflexivity|].
      destruct (String.length p1 =? 3)%nat; reflexivity.
    - destruct rest; reflexivity.
    - cbn. destruct (String.length p0 =? 3)%nat; reflexivity.
    - reflexivity. }
  unfold toPascalCase; rewrite Hparts.
  split; [reflexivity|]. split.
  - intros seg Hin; apply in_map.
    assert (Hle : forall (l : list string) n m, n <= m ->
                    In seg (skipn m l) -> In seg (skipn n l)).
    { clear; intros l n m Hnm.
      replace m with ((m - n) + n) by lia.
      rewrite <- skipn_skipn.
      generalize (skipn n l) as l'; generalize (m - n) as d.
      induction d as [|d IH]; intros l' H; [exact H|].
      destruct l' as [|x l']; [destruct H|].
      right; apply IH, H. }
    apply (Hle parts (k1 + k2) 2); [|exact Hin].
    unfold k1, k2.
    destruct (arrIncludes _ _); destruct (_ && _); simpl; lia.
  - intros ->; reflexivity.
Qed.

Lemma C1_toPascalCase_leading_segments_only_witness :
  In "tb" (skipn 2 (split "_" (toLowerCase "TB_ABC_CLIENTE_TB")))
  /\ In (capitalize "tb")
        (map capitalize (pascalParts getDefaultConfig "TB_ABC_CLIENTE_TB"))
  /\ toPascalCase getDefaultConfig "TB_ABC_CLIENTE_TB" = "ClienteTb"
  /\ toPascalCase getDefaultConfig "TB_ABC" = EmptyString.
Proof.
  assert (Hin : In "tb" (skipn 2 (split "_" (toLowerCase "TB_ABC_CLIENTE_TB"))))
    by (right; left; reflexivity).
  split; [exact Hin|]. split; [|split].
  - exact (proj1 (proj2 (C1_toPascalCase_leading_segments_only
                           getDefaultConfig "TB_ABC_CLIENTE_TB")) "tb" Hin).
  - exact (proj1 (C1_toPascalCase_leading_segments_only
                    getDefaultConfig "TB_ABC_CLIENTE_TB")).
  - exact (proj2 (proj2 (C1_toPascalCase_leading_segments_only
                           getDefaultConfig "TB_ABC")) eq_refl).
Defined.

(** C1 as stated does not hold of the code: in [cliente_tb] the segment
    [tb] is not the first one and stays, and for [tb] the only segment is
    dropped and the type name is empty. *)
Lemma C1_toPascalCase_counterexample :
  toPascalCase getDefaultConfig "cliente_tb" = "ClienteTb"
  /\ toTypeName_spec getDefaultConfig "cliente_tb" = "Cliente"
  /\ toPascalCase getDefaultConfig "tb" = EmptyString
  /\ toTypeName_spec getDefaultConfig "tb" = "Tb"
  /\ ~ (forall identifier,
          toPascalCase getDefaultConfig identifier
          = toTypeName_spec getDefaultConfig identifier)
  /\ ~ (forall identifier,
          toPascalCase getDefaultConfig identifier <> EmptyString).
Proof.
  repeat split; try reflexivity.
  - intros H; specialize (H "cliente_tb"); discriminate H.
  - intros H; exact (H "tb" eq_refl).
Qed.

(** * Numbers *)

Section Numbers.

Lemma roundNat_exact (z : Z) : (0 <= z < 2 ^ 53)%Z -> roundNat z = z.
Proof.
  intros [H0 H]; unfold roundNat.
  destruct (Z.eq_dec z 0) as [->|Hz]; [reflexivity|].
  assert (Hlog : (Z.log2 z < 53)%Z) by (apply Z.log2_lt_pow2; lia).
  apply Z.ltb_lt in Hlog; now rewrite Hlog.
Qed.

(** Below 2^53 every integer is a double. *)
Lemma toDouble_exact (z : Z) : (Z.abs z < 2 ^ 53)%Z -> toDouble z = Fin z.
Proof.
  intros H; unfold toDouble.
  rewrite roundNat_exact by lia.
  assert (Hsmall : (2 ^ 1024 <=? Z.abs z)%Z = false).
  { apply Z.leb_gt; eapply Z.lt_trans; [exact H | reflexivity]. }
  rewrite Hsmall; f_equal.
  destruct (z <? 0)%Z eqn:E; [apply Z.ltb_lt in E | apply Z.ltb_ge in E]; lia.
Qed.

(** From 2^53 on the double of an integer is at least 2^53. *)
Lemma roundNat_large (z : Z) : (2 ^ 53 <= z)%Z -> (2 ^ 53 <= roundNat z)%Z.
Proof.
  intros H; unfold roundNat.
  assert (Hpos : (0 < z)%Z) by lia.
  assert (Hk : (53 <= Z.log2 z)%Z) by (apply Z.log2_le_pow2; lia).
  destruct (Z.log2 z <? 53)%Z eqn:E; [apply Z.ltb_lt in E; lia|].
  pose proof (Z.log2_spec z Hpos) as [Hlo _].
  set (k := Z.log2 z) in *.
  set (sh := (k - 52)%Z).
  assert (Hsh : (0 <= sh)%Z) by (unfold sh; lia).
  assert (Hq : (2 ^ 52 <= Z.shiftr z sh)%Z).
  { rewrite Z.shiftr_div_pow2 by exact Hsh.
    apply Z.div_le_lower_bound; [apply Z.pow_pos_nonneg; lia|].
    rewrite <- Z.pow_add_r by lia.
    replace (sh + 52)%Z with k by (unfold sh; lia); exact Hlo. }
  set (q := Z.shiftr z sh) in *.
  assert (Hmono : forall q', (q <= q')%Z -> (2 ^ 53 <= Z.shiftl q' sh)%Z).
  { intros q' Hq'; rewrite Z.shiftl_mul_pow2 by exact Hsh.
    assert (Hp : (2 ^ 1 <= 2 ^ sh)%Z)
      by (apply Z.pow_le_mono_r; unfold sh; lia).
    change (2 ^ 53)%Z with (2 ^ 52 * 2 ^ 1)%Z.
    apply Z.mul_le_mono_nonneg; lia. }
  destruct (_ || _); apply Hmono; lia.
Qed.

Lemma mathInt_nonneg (radix : Z) (digits : string) (acc : Z) :
  (0 <= radix)%Z -> (0 <= acc)%Z -> (0 <= mathInt radix acc digits)%Z.
Proof.
  intros Hr; revert acc; induction digits as [|c s IH]; intros acc Hacc;
    cbn [mathInt]; [exact Hacc|].
  apply IH.
  assert (0 <= digitValue c)%Z
    by (unfold digitValue; destruct (isDigit c); [|destruct (isLower c)]; lia).
  nia.
Qed.

Lemma declared_nonneg (x : option string) : (0 <= declared x)%Z.
Proof.
  destruct x as [digits|]; cbn [declared]; [|lia].
  apply mathInt_nonneg; lia.
Qed.

Lemma span_digits_all (digits : string) :
  allChars isDigit digits = true ->
  span isDigit digits = (digits, EmptyString).
Proof.
  induction digits as [|c s IH]; intros H; [reflexivity|].
  cbn [allChars] in H; apply andb_true_iff in H as [Hc Hs].
  cbn [span]; now rewrite Hc, (IH Hs).
Qed.

(** On a run of digits [parseInt] gives the double of the integer the
    digits write. *)
Lemma isDigit_not (c d : ascii) :
  isDigit c = true -> isDigit d = false -> Ascii.eqb c d = false.
Proof.
  intros Hc Hd; apply Ascii.eqb_neq; intros ->; congruence.
Qed.

(** On a run of digits [parseInt] gives the double of the integer the
    digits write. *)
Lemma parseInt_digits (digits : string) :
  digits <> EmptyString -> allChars isDigit digits = true ->
  parseInt digits = toDouble (mathInt 10 0 digits).
Proof.
  intros Hne Hd; destruct digits as [|c s]; [congruence|].
  pose proof (span_digits_all _ Hd) as Hspan.
  cbn [allChars] in Hd; apply andb_true_iff in Hd as [Hc Hs].
  assert (Hspace : isSpace c = false)
    by (destruct c as [[] [] [] [] [] [] [] []]; reflexivity || discriminate).
  assert (Hsign : stripSign (String c s) = (false, String c s)).
  { unfold stripSign.
    now rewrite (isDigit_not c "-" Hc eq_refl), (isDigit_not c "+" Hc eq_refl). }
  assert (Hprefix : stripPrefix (String c s) = (10%Z, String c s)).
  { unfold stripPrefix; destruct s as [|x s']; [reflexivity|].
    cbn [allChars] in Hs; apply andb_true_iff in Hs as [Hx _].
    rewrite (isDigit_not x "x" Hx eq_refl), (isDigit_not x "X" Hx eq_refl).
    now rewrite andb_false_r. }
  unfold parseInt; cbn [trimStart]; rewrite Hspace, Hsign, Hprefix.
  cbn [Z.eqb Pos.eqb]; now rewrite Hspan.
Qed.

Lemma parseIntOr0_group (x : option string) :
  digitGroup x -> parseIntOr0 x = toDouble (declared x).
Proof.
  destruct x as [digits|]; cbn [digitGroup declared parseIntOr0];
    [|reflexivity].
  intros [Hne Hd]; destruct digits; [congruence|].
  now apply parseInt_digits.
Qed.

(** A capture group below 2^53 is parsed to the integer it writes. *)
Lemma parseIntOr0_exact (x : option string) :
  digitGroup x -> (declared x < 2 ^ 53)%Z ->
  parseIntOr0 x = Fin (declared x).
Proof.
  intros Hg Hsmall; rewrite (parseIntOr0_group x Hg).
  apply toDouble_exact; pose proof (declared_nonneg x); lia.
Qed.

(** Below 2^53 a number is printed with all its digits. *)
Lemma numToString_exact (z : Z) :
  (Z.abs z < 2 ^ 53)%Z -> numToString (Fin z) = decimalString z.
Proof.
  intros H; unfold numToString, positiveToString.
  destruct (z <? 0)%Z eqn:E.
  - apply Z.ltb_lt in E.
    assert (Hs : (- z <? 2 ^ 53)%Z = true) by (apply Z.ltb_lt; lia).
    rewrite Hs; destruct z as [|p|p]; try lia; reflexivity.
  - apply Z.ltb_ge in E.
    assert (Hs : (z <? 2 ^ 53)%Z = true) by (apply Z.ltb_lt; lia).
    now rewrite Hs.
Qed.

Lemma length_copies_char (c : ascii) (n : nat) :
  String.length (copies (String c EmptyString) n) = n.
Proof. induction n as [|n IH]; simpl; [reflexivity | now rewrite IH]. Qed.

(** Nines that fit are repeated, and the annotation around them fits. *)
Lemma repeat_nines_fit (n : Z) :
  (0 <= n <= maxNines)%Z ->
  repeat "9" (Fin n) = Ok (copies "9" (Z.to_nat n))
  /\ forall after,
       String.length after <= 2 ->
       template "@Min(0) @Max(" (copies "9" (Z.to_nat n)) after
       = Ok ("@Min(0) @Max(" ++ copies "9" (Z.to_nat n) ++ after).
Proof.
  unfold maxNines, maxStringLength; intros [H0 Hn]; split.
  - unfold repeat, maxStringLength.
    assert (E1 : (n <? 0)%Z = false) by (apply Z.ltb_ge; lia).
    assert (E2 : (2 ^ 29 - 24 <? n * Z.of_nat (String.length "9"))%Z = false)
      by (apply Z.ltb_ge; cbn [String.length Z.of_nat]; lia).
    now rewrite E1, E2.
  - intros after Hafter; unfold template, maxStringLength.
    rewrite length_copies_char.
    assert (E : (2 ^ 29 - 24
                 <? Z.of_nat (String.length "@Min(0) @Max(" + Z.to_nat n
                              + String.length after))%Z = false).
    { apply Z.ltb_ge; cbn [String.length]; lia. }
    now rewrite E.
Qed.

(** Nines that do not fit raise the [RangeError], in [repeat] or in the
    template around them. *)
Lemma repeat_nines_overflow (count : Num) (after : string) :
  match count with
  | Fin n => (maxNines < n)%Z /\ String.length after = 2
  | PosInf => True
  | _ => False
  end ->
  match repeat "9" count with
  | Ok nines => template "@Min(0) @Max(" nines after
  | RangeError => RangeError
  end = RangeError.
Proof.
  destruct count as [n| | |]; intros H;
    [|reflexivity | destruct H | destruct H].
  unfold maxNines, maxStringLength in H; destruct H as [Hn Hafter].
  unfold repeat, maxStringLength.
  destruct (n <? 0)%Z; [reflexivity|].
  destruct (2 ^ 29 - 24 <? n * Z.of_nat (String.length "9"))%Z eqn:E;
    [reflexivity|].
  apply Z.ltb_ge in E; cbn [String.length Z.of_nat] in E.
  unfold template, maxStringLength; rewrite length_copies_char, Hafter.
  assert (E' : (2 ^ 29 - 24
                <? Z.of_nat (String.length "@Min(0) @Max(" + Z.to_nat n + 2))%Z
               = true) by (apply Z.ltb_lt; cbn [String.length]; lia).
  now rewrite E'.
Qed.

(** A count beyond the longest string raises in [repeat] itself. *)
Lemma repeat_beyond (count : Num) :
  match count with
  | Fin n => (maxStringLength < n)%Z
  | PosInf => True
  | _ => False
  end ->
  repeat "9" count = RangeError.
Proof.
  destruct count as [n| | |]; intros H;
    [|reflexivity | destruct H | destruct H].
  unfold repeat; destruct (n <? 0)%Z; [reflexivity|].
  assert (E : (maxStringLength <? n * Z.of_nat (String.length "9"))%Z = true)
    by (apply Z.ltb_lt; cbn [String.length Z.of_nat]; lia).
  now rewrite E.
Qed.

End Numbers.

(** * The type mapper *)

Section TypeMapper.

Variable cfg : Config.

(** The [NUMBER] branch, case by case. *)
Lemma mapOracleType_number (type : string) (precision scale : option string) :
  includes (toUpperCase type) "NUMBER" = true ->
  mapOracleType cfg (Some type) precision scale =
  let p := parseIntOr0 precision in
  let s := parseIntOr0 scale in
  if gtb s (Fin 0) then
    Ok {| java := orStr (decimal (NUMBER (typeMapping cfg))) "BigDecimal";
          annotation :=
            if generateAnnotations (validation cfg)
            then "@Digits(integer = " ++ numToString (sub p s)
                 ++ ", fraction = " ++ numToString s ++ ")"
            else EmptyString |}
  else if gtb p (Fin (orNum (largeThreshold (NUMBER (typeMapping cfg))) 9))
  then
    match nineBound cfg p "L)" with
    | Ok text =>
        Ok {| java := orStr (large (NUMBER (typeMapping cfg))) "Long";
              annotation := text |}
    | RangeError => RangeError
    end
  else
    match nineBound cfg p ")" with
    | Ok text =>
        Ok {| java := orStr (number_default (NUMBER (typeMapping cfg)))
                            "Integer";
              annotation := text |}
    | RangeError => RangeError
    end.
Proof.
  intros H; unfold mapOracleType, nineBound; rewrite H; reflexivity.
Qed.

(** Within [maxNines] the annotation of an integer column is built. *)
Lemma nineBound_fit (n : Z) (after : string) :
  (0 <= n <= maxNines)%Z -> String.length after <= 2 ->
  nineBound cfg (Fin n) after
  = Ok (if generateAnnotations (validation cfg)
        then "@Min(0) @Max(" ++ copies "9" (Z.to_nat n) ++ after
        else EmptyString).
Proof.
  intros Hn Hafter; unfold nineBound.
  destruct (generateAnnotations (validation cfg)); [|reflexivity].
  destruct (repeat_nines_fit n Hn) as [Hrep Htem].
  now rewrite Hrep, (Htem after Hafter).
Qed.

End TypeMapper.

Lemma maxNines_safe : (maxNines < 2 ^ 53)%Z.
Proof. reflexivity. Qed.

(** The branches after [NUMBER], case by case: none of them raises. *)
Lemma mapOracleType_not_number (cfg : Config) (type : string)
    (precision scale : option string) :
  includes (toUpperCase type) "NUMBER" = false ->
  mapOracleType cfg (Some type) precision scale =
  Ok (if hasToken (stringTokens cfg) type then
        {| java := orStr (mapping_default (STRING (typeMapping cfg))) "String";
           annotation :=
             if generateAnnotations (validation cfg)
             then "@Size(max = " ++ numToString (parseIntOr0 precision) ++ ")"
             else EmptyString |}
      else if hasToken (dateTokens cfg) type then
        {| java := orStr (mapping_default (DATE (typeMapping cfg)))
                         "LocalDateTime";
           annotation := EmptyString |}
      else {| java := "String"; annotation := EmptyString |}).
Proof.
  intros H; unfold mapOracleType, hasToken, stringTokens, dateTokens.
  rewrite H.
  destruct (existsb _ _); [reflexivity|].
  destruct (existsb _ _); reflexivity.
Qed.

Lemma mapOracleType_not_number_returns (cfg : Config) (type : string)
    (precision scale : option string) :
  includes (toUpperCase type) "NUMBER" = false ->
  exists typeInfo, mapOracleType cfg (Some type) precision scale = Ok typeInfo.
Proof.
  intros H; rewrite (mapOracleType_not_number cfg type precision scale H).
  now eexists.
Qed.


(** Before [loadConfig] has run the mapper uses its built-in type names and
    writes no annotation. *)
Example mapOracleType_before_loadConfig :
  mapOracleType emptyConfig (Some "NUMBER") (Some "10") None
  = Ok {| java := "Long"; annotation := EmptyString |}.
Proof. reflexivity. Qed.

(** C3, as the code has it.  For [NUMBER(10)] and the default
    configuration [mapOracleType] returns the large type [Long] with the
    annotation [@Min(0) @Max(9999999999L)]: the bound is the digit 9 ten
    times, followed by the suffix of a long literal.  In general, with
    annotations enabled, a type containing [NUMBER] with scale 0 and a
    precision strictly above the threshold maps to the large type with the
    digit 9 repeated precision times as long as the annotation fits the
    longest string of the engine (a precision of at most [maxNines],
    536870873); for a larger precision [mapOracleType] raises the
    [RangeError] and returns nothing. *)
Theorem C3_mapOracleType_large :
  mapOracleType getDefaultConfig (Some "NUMBER") (Some "10") None
  = Ok {| java := "Long"; annotation := "@Min(0) @Max(9999999999L)" |}
  /\ forall (cfg : Config) (type : string) (precision scale : option string),
       includes (toUpperCase type) "NUMBER" = true ->
       digitGroup precision -> digitGroup scale ->
       declared scale = 0%Z ->
       (orNum (largeThreshold (NUMBER (typeMapping cfg))) 9
        < declared precision)%Z ->
       generateAnnotations (validation cfg) = true ->
       let nines := copies "9" (Z.to_nat (declared precision)) in
       ((declared precision <= maxNines)%Z ->
        mapOracleType cfg (Some type) precision scale
        = Ok {| java := orStr (large (NUMBER (typeMapping cfg))) "Long";
                annotation := "@Min(0) @Max(" ++ nines ++ "L)" |})
       /\ ((maxNines < declared precision)%Z ->
           mapOracleType cfg (Some type) precision scale = RangeError)
       /\ Z.of_nat (String.length nines) = declared precision
       /\ forall i d, String.get i nines = Some d -> d = "9"%char.
Proof.
  split; [reflexivity|].
  intros cfg type precision scale Hnum Hgp Hgs Hscale Hlarge Hann nines.
  pose proof (declared_nonneg precision) as Hp0.
  pose proof maxNines_safe as Hsafe.
  assert (Hs : parseIntOr0 scale = Fin 0)
    by (rewrite (parseIntOr0_exact scale Hgs), Hscale; [reflexivity | lia]).
  split; [|split; [|split]].
  - intros Hfit.
    rewrite (mapOracleType_number cfg type precision scale Hnum).
    cbv zeta; rewrite Hs, (parseIntOr0_exact precision Hgp) by lia.
    cbn [gtb Z.ltb Z.compare].
    apply Z.ltb_lt in Hlarge; rewrite Hlarge.
    rewrite (nineBound_fit cfg (declared precision) "L)" (conj Hp0 Hfit)
               (Nat.le_refl 2)).
    now rewrite Hann.
  - intros Hover.
    rewrite (mapOracleType_number cfg type precision scale Hnum).
    cbv zeta; rewrite Hs; cbn [gtb Z.ltb Z.compare].
    unfold nineBound; rewrite Hann.
    destruct (Z_lt_le_dec (declared precision) (2 ^ 53)) as [Hlt|Hge].
    + rewrite (parseIntOr0_exact precision Hgp Hlt); cbn [gtb].
      apply Z.ltb_lt in Hlarge; rewrite Hlarge.
      now rewrite (repeat_nines_overflow (Fin (declared precision)) "L)"
                     (conj Hover eq_refl)).
    + assert (Hrep : repeat "9" (parseIntOr0 precision) = RangeError).
      { rewrite (parseIntOr0_group precision Hgp).
        apply repeat_beyond; unfold toDouble; rewrite Z.abs_eq by lia.
        pose proof (roundNat_large _ Hge) as Hr.
        assert (Hneg : (declared precision <? 0)%Z = false)
          by (apply Z.ltb_ge; lia).
        rewrite Hneg; destruct (2 ^ 1024 <=? _)%Z; [exact I|].
        unfold maxStringLength; lia. }
      rewrite Hrep; now destruct (gtb _ _).
  - unfold nines; rewrite length_copies_char; apply Z2Nat.id, Hp0.
  - intros i d; apply get_copies_char.
Qed.

Lemma C3_mapOracleType_large_witness :
  includes (toUpperCase "NUMBER") "NUMBER" = true
  /\ digitGroup (Some "12")
  /\ declared None = 0%Z
  /\ (orNum (largeThreshold (NUMBER (typeMapping getDefaultConfig))) 9
      < declared (Some "12"))%Z
  /\ (declared (Some "12") <= maxNines)%Z
  /\ mapOracleType getDefaultConfig (Some "NUMBER") (Some "12") None
     = Ok {| java := "Long"; annotation := "@Min(0) @Max(999999999999L)" |}.
Proof.
  assert (Hg : digitGroup (Some "12")) by (split; [discriminate | reflexivity]).
  split; [reflexivity|]. split; [exact Hg|]. split; [reflexivity|].
  split; [reflexivity|]. split; [discriminate|].
  apply (proj2 C3_mapOracleType_large getDefaultConfig "NUMBER"
           (Some "12") None); try reflexivity; try exact Hg; try exact I.
  discriminate.
Defined.

(** C3 as stated does not hold of the code: the precision 600000000 is
    strictly above the threshold and the scale is 0, and [mapOracleType]
    returns no type at all, it raises the [RangeError] of [repeat]. *)
Lemma C3_mapOracleType_large_counterexample :
  includes (toUpperCase "NUMBER") "NUMBER" = true
  /\ digitGroup (Some "600000000")
  /\ declared None = 0%Z
  /\ (orNum (largeThreshold (NUMBER (typeMapping getDefaultConfig))) 9
      < declared (Some "600000000"))%Z
  /\ generateAnnotations (validation getDefaultConfig) = true
  /\ mapOracleType getDefaultConfig (Some "NUMBER") (Some "600000000") None
     = RangeError
  /\ ~ (forall precision : option string,
          digitGroup precision ->
          (9 < declared precision)%Z ->
          exists text,
            mapOracleType getDefaultConfig (Some "NUMBER") precision None
            = Ok {| java := "Long"; annotation := text |}).
Proof.
  assert (Hg : digitGroup (Some "600000000"))
    by (split; [discriminate | reflexivity]).
  assert (Hraise : mapOracleType getDefaultConfig (Some "NUMBER")
                     (Some "600000000") None = RangeError)
    by (vm_compute; reflexivity).
  split; [reflexivity|]. split; [exact Hg|]. split; [reflexivity|].
  split; [reflexivity|]. split; [reflexivity|]. split; [exact Hraise|].
  intros H; destruct (H (Some "600000000") Hg eq_refl) as [text Htext].
  rewrite Hraise in Htext; discriminate.
Qed.




(** C10. For the default configuration and every declared type that
    contains [NUMBER], a column without a parenthesized precision and scale
    (both capture groups undefined) has precision and scale parsed as 0 and
    maps to the default integer type [Integer] with the annotation
    [@Min(0) @Max()]: the digit 9 repeated zero times is the empty
    string. *)
Theorem C10_mapOracleType_bare_number :
  forall type : string,
    includes (toUpperCase type) "NUMBER" = true ->
    parseIntOr0 None = Fin 0
    /\ repeat "9" (parseIntOr0 None) = Ok EmptyString
    /\ mapOracleType getDefaultConfig (Some type) None None
       = Ok {| java := "Integer"; annotation := "@Min(0) @Max()" |}.
Proof.
  intros type Hnum; split; [reflexivity|]; split; [reflexivity|].
  rewrite (mapOracleType_number getDefaultConfig type None None Hnum).
  reflexivity.
Qed.

Lemma C10_mapOracleType_bare_number_witness :
  colMatch "FL_ATIVO Number," = Some ("FL_ATIVO", "Number", None, None)
  /\ includes (toUpperCase "Number") "NUMBER" = true
  /\ mapOracleType getDefaultConfig (Some "Number") None None
     = Ok {| java := "Integer"; annotation := "@Min(0) @Max()" |}
  /\ exists data,
       parseDDL getDefaultConfig "FL_ATIVO Number," = Ok data
       /\ map column_annotation (columns data) = ["@Min(0) @Max()"].
Proof.
  split; [reflexivity|]. split; [reflexivity|]. split.
  - apply (C10_mapOracleType_bare_number "Number"); reflexivity.
  - eexists; split; reflexivity.
Defined.

(** * The patterns of the parser

    Each pattern of [parseDDL] is embedded as a function that scans the
    text; the next two sections relate the three patterns that search the
    whole text to what they say about it: the text contains the keyword (in
    any letter case) followed by the groups. *)

Section Patterns.

Lemma allChars_append (p : ascii -> bool) (a b : string) :
  allChars p (a ++ b) = allChars p a && allChars p b.
Proof.
  induction a as [|c a IH]; simpl; [reflexivity|].
  now rewrite IH, andb_assoc.
Qed.

Lemma allChars_impl (p q : ascii -> bool) (s : string) :
  (forall c, p c = true -> q c = true) ->
  allChars p s = true -> allChars q s = true.
Proof.
  intros Hpq; induction s as [|c s IH]; simpl; [reflexivity|].
  intros H; apply andb_true_iff in H as [Hc Hs].
  now rewrite (Hpq c Hc), (IH Hs).
Qed.

(** What [span] returns: a split of the text, a first part within [p], and
    a rest that is empty or starts outside [p]. *)
Lemma span_spec (p : ascii -> bool) (s a b : string) :
  span p s = (a, b) ->
  s = a ++ b /\ allChars p a = true
  /\ match b with
     | EmptyString => True
     | String c _ => p c = false
     end.
Proof.
  revert a b; induction s as [|c s IH]; intros a b; simpl.
  - intros [= <- <-]; auto.
  - destruct (p c) eqn:Hc.
    + destruct (span p s) as [a' b'] eqn:E; intros [= <- <-].
      destruct (IH a' b' eq_refl) as (-> & Ha & Hb).
      simpl; rewrite Hc, Ha; auto.
    + intros [= <- <-]; simpl; rewrite Hc; auto.
Qed.

(** A run within [p] that is followed by a character outside [p] is what
    [span] takes. *)
Lemma span_run (p : ascii -> bool) (a : string) (c : ascii) (b : string) :
  allChars p a = true -> p c = false ->
  span p (a ++ String c b) = (a, String c b).
Proof.
  intros Ha Hc; induction a as [|x a IH]; simpl.
  - now rewrite Hc.
  - simpl in Ha; apply andb_true_iff in Ha as [Hx Ha].
    now rewrite Hx, (IH Ha).
Qed.


Lemma isEmpty_false (s : string) : isEmpty s = false <-> s <> EmptyString.
Proof. destruct s; simpl; split; congruence. Qed.


Lemma litCI_sound (lit s m r : string) :
  litCI lit s = Some (m, r) ->
  s = m ++ r /\ toUpperCase m = toUpperCase lit.
Proof.
  revert s m r; induction lit as [|a lit IH]; intros s m r; simpl.
  - intros [= <- <-]; auto.
  - destruct s as [|c s]; [discriminate|].
    destruct (Ascii.eqb (upperChar a) (upperChar c)) eqn:Hac; [|discriminate].
    destruct (litCI lit s) as [[m' r']|] eqn:E; [|discriminate].
    intros [= <- <-]; destruct (IH s m' r' E) as (-> & Hm).
    apply Ascii.eqb_eq in Hac.
    split; [reflexivity|].
    unfold toUpperCase in *; simpl; now rewrite Hm, Hac.
Qed.

Lemma litCI_complete (lit m r : string) :
  toUpperCase m = toUpperCase lit ->
  litCI lit (m ++ r) = Some (m, r).
Proof.
  revert m; induction lit as [|a lit IH]; intros m; unfold toUpperCase; simpl.
  - destruct m; [reflexivity | discriminate].
  - destruct m as [|c m]; [discriminate|]; simpl.
    intros [= Hc Hm]; rewrite Hc, Ascii.eqb_refl.
    now rewrite (IH m Hm).
Qed.

(** [search] fails exactly when the pattern fails at every position. *)
Lemma search_none {A : Type} (at_ : string -> option A) (s : string) :
  search at_ s = None <->
  forall pre post, s = pre ++ post -> at_ post = None.
Proof.
  induction s as [|c s IH]; simpl.
  - split.
    + destruct (at_ EmptyString) eqn:E; [discriminate|].
      intros _ pre post H; destruct pre; [|discriminate].
      simpl in H; now subst.
    + intros H; now rewrite (H EmptyString EmptyString eq_refl).
  - split.
    + destruct (at_ (String c s)) eqn:E; [discriminate|].
      intros H pre post Hs; destruct pre as [|x pre]; simpl in Hs.
      * now subst.
      * injection Hs as _ Hs; exact (proj1 IH H pre post Hs).
    + intros H; rewrite (H EmptyString (String c s) eq_refl).
      apply IH; intros pre post ->.
      exact (H (String c pre) post eq_refl).
Qed.

(** When [search] succeeds the pattern matched at some position. *)
Lemma search_some {A : Type} (at_ : string -> option A) (s : string)
    (r : A) :
  search at_ s = Some r ->
  exists pre post, s = pre ++ post /\ at_ post = Some r.
Proof.
  induction s as [|c s IH]; simpl.
  - destruct (at_ EmptyString) eqn:E; [|discriminate].
    intros [= <-]; now exists EmptyString, EmptyString.
  - destruct (at_ (String c s)) eqn:E.
    + intros [= <-]; now exists EmptyString, (String c s).
    + intros H; destruct (IH H) as (pre & post & -> & Hat).
      now exists (String c pre), post.
Qed.

End Patterns.

Section PatternMeaning.

Lemma isWord_dot : isWord "."%char = false.
Proof. reflexivity. Qed.



(** [/PRIMARY KEY \(([^)]+)\)/i] matches somewhere in the text exactly when
    the text contains a clause [PRIMARY KEY (cols)]. *)
Lemma primaryKey_matches (ddl : string) :
  search primaryKeyAt ddl <> None <-> PrimaryKeyClauseIn ddl.
Proof.
  split.
  - destruct (search primaryKeyAt ddl) as [m|] eqn:E; [|congruence].
    intros _; apply search_some in E as (pre & post & -> & Hat).
    unfold primaryKeyAt in Hat.
    destruct (litCI "PRIMARY KEY (" post) as [[kw r]|] eqn:Hlit;
      [|discriminate].
    apply litCI_sound in Hlit as (-> & Hkw).
    destruct (span notCloseParen r) as [g1 r1] eqn:Hg1.
    apply span_spec in Hg1 as (-> & Hw1 & Hr1).
    destruct (isEmpty g1) eqn:He1; [discriminate|].
    destruct r1 as [|c r2]; [discriminate|].
    assert (c = ")"%char) as ->.
    { unfold notCloseParen in Hr1; apply negb_false_iff, Ascii.eqb_eq in Hr1.
      exact Hr1. }
    exists pre, kw, g1, r2; repeat split; auto.
    now apply isEmpty_false.
  - intros (pre & kw & cols & post & -> & Hkw & Hc & Hwc) E.
    pose proof (proj1 (search_none _ _) E pre _ eq_refl) as Hat.
    unfold primaryKeyAt in Hat.
    rewrite (litCI_complete "PRIMARY KEY (" kw _ Hkw) in Hat.
    change (")" ++ post) with (String ")"%char post) in Hat.
    rewrite (span_run notCloseParen cols ")" post Hwc eq_refl) in Hat.
    apply isEmpty_false in Hc; rewrite Hc in Hat; discriminate.
Qed.

Lemma no_match_iff {A : Type} (o : option A) (P : Prop) :
  (o <> None <-> P) -> (o = None <-> ~ P).
Proof.
  intros [H1 H2]; split.
  - intros -> HP; now apply H2.
  - intros HnP; destruct o; [|reflexivity].
    exfalso; apply HnP, H1; discriminate.
Qed.

End PatternMeaning.

(** * The parser *)

Section Parser.

Variable cfg : Config.

(** The callback pushes what the line contributes, or raises with it. *)
Lemma parseLine_push (pks : list string) (cols : list Column) (line : string) :
  parseLine cfg pks cols line
  = match lineColumns cfg pks line with
    | Ok l => Ok (cols ++ l)%list
    | RangeError => RangeError
    end.
Proof.
  unfold lineColumns, parseLine.
  destruct (colMatch (trim line)) as [[[[colName colType] precision] scale]|];
    [|now rewrite app_nil_r].
  destruct (negb _ && negb _ && negb _ && negb _);
    [|now rewrite app_nil_r].
  destruct (mapOracleType cfg (Some colType) precision scale); reflexivity.
Qed.

(** The [forEach] loop pushes the columns in the order of the lines. *)
Lemma forEachLine_push (pks : list string) (lines : list string)
    (cols : list Column) :
  forEachLine cfg pks lines cols
  = match linesColumns cfg pks lines with
    | Ok l => Ok (cols ++ l)%list
    | RangeError => RangeError
    end.
Proof.
  unfold linesColumns; revert cols.
  induction lines as [|line lines IH]; intros cols; cbn [forEachLine].
  - now rewrite app_nil_r.
  - rewrite (parseLine_push pks cols), (parseLine_push pks []).
    destruct (lineColumns cfg pks line) as [l|]; [|reflexivity].
    rewrite (IH (cols ++ l)%list), (IH ([] ++ l)%list).
    destruct (forEachLine cfg pks lines []) as [l'|]; [|reflexivity].
    now rewrite app_assoc.
Qed.

Lemma linesColumns_cons (pks : list string) (line : string)
    (lines : list string) :
  linesColumns cfg pks (line :: lines)
  = match lineColumns cfg pks line with
    | Ok a => match linesColumns cfg pks lines with
              | Ok b => Ok (a ++ b)%list
              | RangeError => RangeError
              end
    | RangeError => RangeError
    end.
Proof.
  unfold linesColumns at 1; cbn [forEachLine]; fold (lineColumns cfg pks line).
  destruct (lineColumns cfg pks line) as [a|]; [|reflexivity].
  apply forEachLine_push.
Qed.

Lemma linesColumns_app (pks : list string) (before after : list string) :
  linesColumns cfg pks (before ++ after)
  = match linesColumns cfg pks before with
    | Ok a => match linesColumns cfg pks after with
              | Ok b => Ok (a ++ b)%list
              | RangeError => RangeError
              end
    | RangeError => RangeError
    end.
Proof.
  induction before as [|line before IH].
  - cbn [app]; change (linesColumns cfg pks []) with (@Ok (list Column) []).
    now destruct (linesColumns cfg pks after).
  - cbn [app]; rewrite !linesColumns_cons, IH.
    destruct (lineColumns cfg pks line) as [a|]; [|reflexivity].
    destruct (linesColumns cfg pks before) as [b|]; [|reflexivity].
    destruct (linesColumns cfg pks after) as [c|]; [|reflexivity].
    now rewrite app_assoc.
Qed.

(** What holds of the columns of every line holds of the columns of the
    lines. *)
Lemma linesColumns_Forall (P : Column -> Prop) (pks : list string)
    (lines : list string) (cols : list Column) :
  (forall line l, In line lines -> lineColumns cfg pks line = Ok l ->
                  Forall P l) ->
  linesColumns cfg pks lines = Ok cols -> Forall P cols.
Proof.
  revert cols; induction lines as [|line lines IH]; intros cols Hline.
  - intros H; injection H as <-; constructor.
  - rewrite linesColumns_cons.
    destruct (lineColumns cfg pks line) as [a|] eqn:Ha; [|discriminate].
    destruct (linesColumns cfg pks lines) as [b|] eqn:Hb; [|discriminate].
    intros H; injection H as <-.
    apply Forall_app; split.
    + apply (Hline line a); [now left | exact Ha].
    + apply IH; [|reflexivity].
      intros line' l Hin; apply Hline; now right.
Qed.

(** When the loop ends, every line has given its columns, and they are
    among the columns of the lines. *)
Lemma linesColumns_of_line (pks : list string) (lines : list string)
    (cols : list Column) (line : string) :
  linesColumns cfg pks lines = Ok cols -> In line lines ->
  exists l, lineColumns cfg pks line = Ok l /\ incl l cols.
Proof.
  revert cols; induction lines as [|line' lines IH]; intros cols.
  - intros _ [].
  - rewrite linesColumns_cons.
    destruct (lineColumns cfg pks line') as [a|] eqn:Ha; [|discriminate].
    destruct (linesColumns cfg pks lines) as [b|] eqn:Hb; [|discriminate].
    intros H; injection H as <-; intros [->|Hin].
    + exists a; split; [exact Ha|]. now apply incl_appl, incl_refl.
    + destruct (IH b eq_refl Hin) as (l & Hl & Hincl).
      exists l; split; [exact Hl|]. now apply incl_appr.
Qed.


(** The model [parseDDL] returns, field by field. *)
Lemma parseDDL_Ok (ddl : string) (data : TableModel) :
  parseDDL cfg ddl = Ok data ->
  schema data = fst (tableNames ddl)
  /\ originalTableName data = snd (tableNames ddl)
  /\ className data = toPascalCase cfg (snd (tableNames ddl))
  /\ linesColumns cfg (parsePks ddl) (split "010"%char ddl)
     = Ok (columns data).
Proof.
  unfold parseDDL, linesColumns.
  destruct (tableNames ddl) as [schema0 tableName].
  destruct (forEachLine cfg (parsePks ddl) (split "010"%char ddl) [])
    as [cols|]; [|discriminate].
  intros H; injection H as <-; repeat split.
Qed.

Lemma columns_parseDDL (ddl : string) (data : TableModel) :
  parseDDL cfg ddl = Ok data ->
  linesColumns cfg (parsePks ddl) (split "010"%char ddl) = Ok (columns data).
Proof. intros H; apply (parseDDL_Ok ddl data H). Qed.








End Parser.





(** C9. For every DDL with a line that, once trimmed, reads
    [PRIMARY KEY (...)], the column pattern matches that line with the name
    [PRIMARY] and the type [KEY] and without precision or scale, none of
    the four skip tests ([CONSTRAINT], [CREATE], [KEY], closing parenthesis)
    applies, the mapper gives a type to [KEY] without raising, and every
    model [parseDDL] returns has, at the place of the line, a column whose
    original name is [PRIMARY] and whose type is the one the mapper gives
    to [KEY]; under the default configuration that is the fallback,
    [String] with an empty annotation. *)
Theorem C9_parseDDL_primary_key_line_is_a_column :
  forall (cfg : Config) (ddl line rest : string) (data : TableModel),
    In line (split "010"%char ddl) ->
    trim line = "PRIMARY KEY (" ++ rest ->
    parseDDL cfg ddl = Ok data ->
    exists typeInfo : TypeInfo,
      mapOracleType cfg (Some "KEY") None None = Ok typeInfo
      /\ let col := {| originalName := "PRIMARY";
                       javaName := toCamelCase cfg "PRIMARY";
                       pascalName := capitalize (toCamelCase cfg "PRIMARY");
                       javaType := java typeInfo;
                       column_annotation := annotation typeInfo;
                       isId := arrIncludes (parsePks ddl) "PRIMARY" |} in
         colMatch (trim line) = Some ("PRIMARY", "KEY", None, None)
         /\ lineColumns cfg (parsePks ddl) line = Ok [col]
         /\ In col (columns data)
         /\ (forall before after,
               split "010"%char ddl = (before ++ line :: after)%list ->
               exists colsBefore colsAfter,
                 linesColumns cfg (parsePks ddl) before = Ok colsBefore
                 /\ linesColumns cfg (parsePks ddl) after = Ok colsAfter
                 /\ columns data = (colsBefore ++ col :: colsAfter)%list)
         /\ mapOracleType getDefaultConfig (Some "KEY") None None
            = Ok {| java := "String"; annotation := EmptyString |}
         /\ toCamelCase getDefaultConfig "PRIMARY" = "primary".
Proof.
  intros cfg ddl line rest data Hin Htrim Hdata.
  destruct (mapOracleType_not_number_returns cfg "KEY" None None eq_refl)
    as [typeInfo Hinfo].
  exists typeInfo; split; [exact Hinfo|]; intros col.
  assert (Hcol : colMatch (trim line) = Some ("PRIMARY", "KEY", None, None))
    by (rewrite Htrim; reflexivity).
  assert (Hline : lineColumns cfg (parsePks ddl) line = Ok [col])
    by (unfold lineColumns, parseLine; rewrite Hcol, Htrim;
        cbn [startsWith]; rewrite Hinfo; reflexivity).
  pose proof (columns_parseDDL cfg ddl data Hdata) as Hcols.
  split; [exact Hcol|]. split; [exact Hline|].
  split; [|split; [|split; reflexivity]].
  - destruct (linesColumns_of_line cfg _ _ _ line Hcols Hin)
      as (l & Hl & Hincl).
    rewrite Hline in Hl; injection Hl as <-.
    apply Hincl; now left.
  - intros before after Hlines.
    rewrite Hlines, linesColumns_app, linesColumns_cons, Hline in Hcols.
    destruct (linesColumns cfg (parsePks ddl) before) as [cb|];
      [|discriminate].
    destruct (linesColumns cfg (parsePks ddl) after) as [ca|];
      [|discriminate].
    injection Hcols as Hcols.
    exists cb, ca; repeat split; now rewrite <- Hcols.
Qed.

Lemma C9_parseDDL_primary_key_line_is_a_column_witness :
  let ddl := "CREATE TABLE TB_CLIENTE (" ++ nl
             ++ "  NR_CLIENTE NUMBER(10)," ++ nl
             ++ "  PRIMARY KEY (NR_CLIENTE)" ++ nl
             ++ ");" in
  exists data,
    parseDDL getDefaultConfig ddl = Ok data
    /\ In "  PRIMARY KEY (NR_CLIENTE)" (split "010"%char ddl)
    /\ trim "  PRIMARY KEY (NR_CLIENTE)" = "PRIMARY KEY (" ++ "NR_CLIENTE)"
    /\ map originalName (columns data) = ["NR_CLIENTE"; "PRIMARY"]
    /\ In {| originalName := "PRIMARY";
             javaName := "primary";
             pascalName := "Primary";
             javaType := "String";
             column_annotation := EmptyString;
             isId := false |}
          (columns data).
Proof.
  intros ddl.
  assert (Hin : In "  PRIMARY KEY (NR_CLIENTE)" (split "010"%char ddl))
    by (right; right; left; reflexivity).
  eexists; split; [reflexivity|].
  split; [exact Hin|]. split; [reflexivity|]. split; [reflexivity|].
  destruct (C9_parseDDL_primary_key_line_is_a_column
              getDefaultConfig ddl "  PRIMARY KEY (NR_CLIENTE)"
              "NR_CLIENTE)" _ Hin eq_refl eq_refl)
    as (typeInfo & Hinfo & _ & _ & Hcol & _).
  injection Hinfo as <-; exact Hcol.
Defined.

(** * Texts without an at sign

    The identifier transformer and the type mapper keep a text free of at
    signs when the identifier and the configuration are. *)

Section AtFree.

Lemma allChars_mapStr (p : ascii -> bool) (f : ascii -> ascii) (s : string) :
  (forall c, p c = true -> p (f c) = true) ->
  allChars p s = true -> allChars p (mapStr f s) = true.
Proof.
  intros Hf; induction s as [|c s IH]; simpl; [reflexivity|].
  intros H; apply andb_true_iff in H as [Hc Hs].
  now rewrite (Hf c Hc), (IH Hs).
Qed.

Lemma notAt_upperChar (c : ascii) : notAt c = true -> notAt (upperChar c) = true.
Proof. destruct c as [[] [] [] [] [] [] [] []]; intros H; exact H || reflexivity. Qed.

Lemma notAt_lowerChar (c : ascii) : notAt c = true -> notAt (lowerChar c) = true.
Proof. destruct c as [[] [] [] [] [] [] [] []]; intros H; exact H || reflexivity. Qed.

Lemma notAt_isWord (c : ascii) : isWord c = true -> notAt c = true.
Proof. destruct c as [[] [] [] [] [] [] [] []]; intros H; exact H || reflexivity. Qed.

Lemma atFree_word (s : string) : allChars isWord s = true -> atFree s = true.
Proof. apply allChars_impl, notAt_isWord. Qed.

Lemma atFree_append (a b : string) :
  atFree a = true -> atFree b = true -> atFree (a ++ b) = true.
Proof.
  unfold atFree; intros Ha Hb; now rewrite allChars_append, Ha, Hb.
Qed.

Lemma atFree_toUpperCase (s : string) :
  atFree s = true -> atFree (toUpperCase s) = true.
Proof. apply allChars_mapStr, notAt_upperChar. Qed.

Lemma atFree_toLowerCase (s : string) :
  atFree s = true -> atFree (toLowerCase s) = true.
Proof. apply allChars_mapStr, notAt_lowerChar. Qed.

Lemma atFree_slice (n : nat) (s : string) :
  atFree s = true -> atFree (slice n s) = true.
Proof.
  unfold atFree; revert s; induction n as [|n IH]; intros s H;
    [now destruct s|].
  destruct s as [|c s]; cbn [slice]; [reflexivity|].
  cbn [allChars] in H; apply andb_true_iff in H as [_ Hs]; now apply IH.
Qed.

Lemma atFree_charAt (n : nat) (s : string) :
  atFree s = true -> atFree (charAt n s) = true.
Proof.
  unfold charAt, atFree; revert n; induction s as [|c s IH]; intros n H.
  - now destruct n.
  - cbn [allChars] in H; apply andb_true_iff in H as [Hc Hs].
    destruct n as [|n]; cbn [String.get].
    + cbn [allChars]; now rewrite Hc.
    + now apply IH.
Qed.

Lemma atFree_prefix (p s : string) :
  String.prefix p s = true -> atFree s = true -> atFree p = true.
Proof.
  unfold atFree; revert s; induction p as [|a p IH]; intros s Hp H;
    [reflexivity|].
  destruct s as [|b s]; cbn [String.prefix] in Hp; [discriminate|].
  destruct (ascii_dec a b) as [->|]; [|discriminate].
  cbn [allChars] in *; apply andb_true_iff in H as [Hb Hs].
  now rewrite Hb, (IH s Hp Hs).
Qed.

Lemma atFree_capitalize (s : string) :
  atFree s = true -> atFree (capitalize s) = true.
Proof.
  intros H; unfold capitalize; apply atFree_append.
  - now apply atFree_toUpperCase, atFree_charAt.
  - now apply atFree_slice.
Qed.

Lemma atFree_split (sep : ascii) (s : string) :
  atFree s = true -> Forall (fun p => atFree p = true) (split sep s).
Proof.
  unfold atFree; induction s as [|c s IH]; intros H; cbn [split];
    [repeat constructor|].
  cbn [allChars] in H; apply andb_true_iff in H as [Hc Hs]; specialize (IH Hs).
  destruct (Ascii.eqb c sep); [constructor; [reflexivity | exact IH]|].
  destruct (split sep s) as [|h t];
    [repeat constructor; cbn [allChars]; now rewrite Hc|].
  inversion IH as [|? ? Hh Ht]; subst.
  constructor; [cbn [allChars]; now rewrite Hc, Hh | exact Ht].
Qed.

Lemma atFree_join_empty (l : list string) :
  Forall (fun p => atFree p = true) l -> atFree (join EmptyString l) = true.
Proof.
  induction 1 as [|w l Hw Hl IH]; [reflexivity|].
  rewrite join_empty_cons; now apply atFree_append.
Qed.

Lemma atFree_camelFirst (ps : list string) (word : string) :
  atFree word = true -> atFree (camelFirst ps word) = true.
Proof.
  intros Hw; induction ps as [|p ps IH]; simpl; [exact Hw|].
  destruct (startsWith word p) eqn:Hp; simpl; [|exact IH].
  destruct (String.length p <? String.length word)%nat; [|exact IH].
  apply atFree_append; [exact (atFree_prefix p word Hp Hw)|].
  apply atFree_append.
  - now apply atFree_toUpperCase, atFree_charAt.
  - now apply atFree_slice.
Qed.

Lemma Forall_tl {A : Type} (P : A -> Prop) (l : list A) :
  Forall P l -> Forall P (tl l).
Proof. destruct 1; [constructor | assumption]. Qed.

Lemma atFree_toCamelCase (cfg : Config) (str : string) :
  atFree str = true -> atFree (toCamelCase cfg str) = true.
Proof.
  intros H; rewrite toCamelCase_parts.
  assert (Hparts : Forall (fun p => atFree p = true) (camelParts cfg str)).
  { unfold camelParts.
    pose proof (atFree_split "_" _ (atFree_toLowerCase str H)) as Hs.
    destruct (_ && _); [apply Forall_tl|]; exact Hs. }
  destruct Hparts as [|seg rest Hseg Hrest]; [reflexivity|].
  apply atFree_append; [now apply atFree_camelFirst|].
  apply atFree_join_empty.
  induction Hrest as [|w l Hw Hl IH]; constructor;
    [now apply atFree_capitalize | exact IH].
Qed.

Lemma atFree_toPascalCase (cfg : Config) (str : string) :
  atFree str = true -> atFree (toPascalCase cfg str) = true.
Proof.
  intros H; unfold toPascalCase.
  assert (Hparts : Forall (fun p => atFree p = true) (pascalParts cfg str)).
  { unfold pascalParts.
    pose proof (atFree_split "_" _ (atFree_toLowerCase str H)) as Hs.
    destruct (arrIncludes _ _).
    - apply Forall_tl in Hs. destruct (_ && _ && _); [apply Forall_tl|]; exact Hs.
    - destruct (_ && _ && _); [apply Forall_tl|]; exact Hs. }
  apply atFree_join_empty.
  induction Hparts as [|w l Hw Hl IH]; constructor;
    [now apply atFree_capitalize | exact IH].
Qed.

Lemma atFree_orStr (s d : string) :
  atFree s = true -> atFree d = true -> atFree (orStr s d) = true.
Proof. destruct s; simpl; auto. Qed.

Lemma atFree_java (cfg : Config) (type : option string)
    (precision scale : option string) (typeInfo : TypeInfo) :
  atFreeConfig cfg = true ->
  mapOracleType cfg type precision scale = Ok typeInfo ->
  atFree (java typeInfo) = true.
Proof.
  unfold atFreeConfig; intros H.
  repeat (apply andb_true_iff in H as [H ?]).
  unfold mapOracleType.
  repeat match goal with
         | |- context [if ?b then _ else _] => destruct b
         | |- context [match ?r with Ok _ => _ | RangeError => _ end] =>
             destruct r
         end; intros Heq; try discriminate Heq; injection Heq as <-;
    cbn [java]; try reflexivity; now apply atFree_orStr.
Qed.

End AtFree.

(** * Markers in the rendered entity *)

Section Markers.

Lemma includes_cons_AtI (c : ascii) (s : string) :
  includes (String c s) "@I"
  = (Ascii.eqb c "@"%char && startsWith s "I") || includes s "@I".
Proof.
  cbn [includes String.prefix]; unfold startsWith.
  destruct (ascii_dec "@" c) as [<-|Hne]; [reflexivity|].
  assert (Ascii.eqb c "@"%char = false) as ->
    by (apply Ascii.eqb_neq; congruence).
  reflexivity.
Qed.

Lemma clean_cons (c : ascii) (s : string) :
  clean (String c s) = true <->
  (Ascii.eqb c "@"%char && startsWith s "I") = false
  /\ (s = EmptyString -> Ascii.eqb c "@"%char = false)
  /\ clean s = true.
Proof.
  unfold clean; rewrite includes_cons_AtI; cbn [lastIsAt].
  destruct s as [|d s].
  - cbn; destruct (Ascii.eqb c "@"%char); cbn; intuition congruence.
  - destruct (Ascii.eqb c "@"%char && startsWith (String d s) "I");
      cbn [orb negb andb]; [intuition congruence|].
    intuition congruence.
Qed.

Lemma startsWith_I_cons (d : ascii) (s : string) :
  startsWith (String d s) "I" = Ascii.eqb d "I"%char.
Proof.
  unfold startsWith; cbn [String.prefix].
  destruct (ascii_dec "I" d) as [<-|Hne]; [now destruct s|].
  symmetry; apply Ascii.eqb_neq; congruence.
Qed.

Lemma clean_append (a b : string) :
  clean a = true -> clean b = true -> clean (a ++ b) = true.
Proof.
  intros Ha Hb; induction a as [|c a IH]; [exact Hb|].
  apply clean_cons in Ha as (H1 & H2 & H3).
  cbn [append]; apply clean_cons; split; [|split].
  - destruct a as [|d a].
    + rewrite (H2 eq_refl); reflexivity.
    + cbn [append]; rewrite startsWith_I_cons in *; exact H1.
  - destruct a as [|d a]; [intros _; exact (H2 eq_refl) | discriminate].
  - exact (IH H3).
Qed.

Lemma atFree_clean (s : string) : atFree s = true -> clean s = true.
Proof.
  unfold atFree; induction s as [|c s IH]; intros H; [reflexivity|].
  cbn [allChars] in H; apply andb_true_iff in H as [Hc Hs].
  unfold notAt in Hc; apply negb_true_iff in Hc.
  apply clean_cons; rewrite Hc; auto.
Qed.

Lemma prefix_append (p q s : string) :
  String.prefix (p ++ q) s = true -> String.prefix p s = true.
Proof.
  revert s; induction p as [|a p IH]; intros s H; [now destruct s|].
  destruct s as [|b s]; cbn [append String.prefix] in *; [discriminate|].
  destruct (ascii_dec a b); [now apply IH | discriminate].
Qed.

(** A text without the start of a marker is without the marker. *)
Lemma includes_longer (s p q : string) :
  includes s p = false -> includes s (p ++ q) = false.
Proof.
  induction s as [|c s IH]; cbn [includes]; intros H;
    apply orb_false_iff in H as [Hp Hs]; apply orb_false_iff; split.
  - destruct (String.prefix (p ++ q) EmptyString) eqn:E; [|reflexivity].
    apply prefix_append in E; congruence.
  - reflexivity.
  - destruct (String.prefix (p ++ q) (String c s)) eqn:E; [|reflexivity].
    apply prefix_append in E; congruence.
  - exact (IH Hs).
Qed.

Lemma clean_join (sep : string) (l : list string) :
  clean sep = true -> Forall (fun s => clean s = true) l ->
  clean (join sep l) = true.
Proof.
  intros Hsep; induction 1 as [|s l Hs Hl IH]; [reflexivity|].
  unfold join in *; cbn [String.concat].
  destruct l as [|s' l]; [exact Hs|].
  apply clean_append; [exact Hs|]; apply clean_append; [exact Hsep | exact IH].
Qed.

Ltac clean_pieces :=
  repeat match goal with
         | |- clean (append _ _) = true => apply clean_append
         end.

Variable cfg : Config.
Hypothesis cfg_atFree : atFreeConfig cfg = true.

Lemma clean_indent : clean (orStr (indentation (output cfg)) "    ") = true.
Proof.
  unfold atFreeConfig in cfg_atFree.
  apply andb_true_iff in cfg_atFree as [_ H].
  apply atFree_clean, atFree_orStr; [exact H | reflexivity].
Qed.

(** Without a key column and with texts free of at signs, the entity holds
    no at sign followed by a capital I. *)
Lemma generateEntity_clean (data : TableModel) :
  atFree (schema data) = true ->
  atFree (originalTableName data) = true ->
  atFree (className data) = true ->
  Forall plainColumn (columns data) ->
  clean (generateEntity cfg data) = true.
Proof.
  intros Hschema Htable Hclass Hcols.
  assert (Hfilter : filter isId (columns data) = []).
  { induction Hcols as [|col l (Hid & _) _ IH]; [reflexivity|].
    cbn [filter]; now rewrite Hid. }
  unfold generateEntity; rewrite Hfilter; cbn [List.length Nat.ltb Nat.leb].
  pose proof clean_indent as Hindent.
  clean_pieces; try reflexivity; try exact Hindent;
    try (apply atFree_clean; assumption).
  apply clean_join; [reflexivity|].
  apply Forall_forall; intros s Hin.
  apply in_map_iff in Hin as (col & <- & Hcol).
  destruct (proj1 (Forall_forall _ _) Hcols col Hcol)
    as (Hid & Hname & Htype & Hjava).
  rewrite Hid.
  clean_pieces; try reflexivity; try exact Hindent;
    apply atFree_clean; assumption.
Qed.

End Markers.

(** * The model of a DDL without a primary-key clause *)

Section NoPrimaryKey.

Variable cfg : Config.

(** The first group of the column pattern is a run of word characters. *)
Lemma colMatch_name_word (trimmed colName colType : string)
    (precision scale : option string) :
  colMatch trimmed = Some (colName, colType, precision, scale) ->
  allChars isWord colName = true.
Proof.
  unfold colMatch.
  destruct (span isWord trimmed) as [n r] eqn:Hn.
  apply span_spec in Hn as (_ & Hword & _).
  destruct (isEmpty n); [discriminate|].
  destruct (span isSpace r) as [ws r1].
  destruct (isEmpty ws); [discriminate|].
  destruct (span isWord r1) as [ty r2].
  destruct (isEmpty ty); [discriminate|].
  destruct (precisionScaleAt r2); intros [= <- _ _ _]; exact Hword.
Qed.

(** The groups of the two table patterns are runs of word characters. *)
Lemma createTableSchemaAt_groups (ddl : string) (m : list string) :
  search createTableSchemaAt ddl = Some m ->
  exists whole g1 g2,
    m = [whole; g1; g2]
    /\ allChars isWord g1 = true /\ allChars isWord g2 = true.
Proof.
  intros H; apply search_some in H as (pre & post & _ & Hat).
  unfold createTableSchemaAt in Hat.
  destruct (litCI "CREATE TABLE " post) as [[kw r]|]; [|discriminate].
  destruct (span isWord r) as [g1 r1] eqn:Hg1.
  apply span_spec in Hg1 as (_ & Hw1 & _).
  destruct (isEmpty g1); [discriminate|].
  destruct r1 as [|c r2]; [discriminate|].
  destruct (Ascii.eqb c "."%char) eqn:Hc;
    [apply Ascii.eqb_eq in Hc; subst c
    |destruct c as [[] [] [] [] [] [] [] []]; try discriminate Hat;
     discriminate Hc].
  destruct (span isWord r2) as [g2 r3] eqn:Hg2.
  apply span_spec in Hg2 as (_ & Hw2 & _).
  destruct (isEmpty g2); [discriminate|].
  injection Hat as <-; now exists (kw ++ g1 ++ "." ++ g2), g1, g2.
Qed.

Lemma createTableAt_groups (ddl : string) (m : list string) :
  search createTableAt ddl = Some m ->
  exists whole g1, m = [whole; g1] /\ allChars isWord g1 = true.
Proof.
  intros H; apply search_some in H as (pre & post & _ & Hat).
  unfold createTableAt in Hat.
  destruct (litCI "CREATE TABLE " post) as [[kw r]|]; [|discriminate].
  destruct (span isWord r) as [g1 r1] eqn:Hg1.
  apply span_spec in Hg1 as (_ & Hw1 & _).
  destruct (isEmpty g1); [discriminate|].
  injection Hat as <-; now exists (kw ++ g1), g1.
Qed.

(** Schema and table name of a model are runs of word characters: groups
    of the patterns or the placeholders. *)
Lemma tableNames_word (ddl : string) :
  allChars isWord (fst (tableNames ddl)) = true
  /\ allChars isWord (snd (tableNames ddl)) = true.
Proof.
  unfold tableNames.
  destruct (search createTableSchemaAt ddl) as [m|] eqn:E1.
  - apply createTableSchemaAt_groups in E1 as (w & g1 & g2 & -> & H1 & H2).
    cbn; auto.
  - destruct (search createTableAt ddl) as [m|] eqn:E2.
    + apply createTableAt_groups in E2 as (w & g1 & -> & H1).
      cbn; auto.
    + cbn; auto.
Qed.

Lemma parseDDL_names_word (ddl : string) (data : TableModel) :
  parseDDL cfg ddl = Ok data ->
  allChars isWord (schema data) = true
  /\ allChars isWord (originalTableName data) = true.
Proof.
  intros H; destruct (parseDDL_Ok cfg ddl data H) as (-> & -> & _).
  apply tableNames_word.
Qed.

(** Without a primary-key list no column is a key, and with a
    configuration free of at signs its texts are free of them. *)
Lemma lineColumns_plain (line : string) (l : list Column) :
  atFreeConfig cfg = true ->
  lineColumns cfg [] line = Ok l -> Forall plainColumn l.
Proof.
  intros Hcfg; unfold lineColumns, parseLine.
  destruct (colMatch (trim line))
    as [[[[colName colType] precision] scale]|] eqn:Hcol;
    [|intros [= <-]; constructor].
  destruct (negb _ && negb _ && negb _ && negb _);
    [|intros [= <-]; constructor].
  destruct (mapOracleType cfg (Some colType) precision scale)
    as [typeInfo|] eqn:Hinfo; [|discriminate].
  intros [= <-]; cbn [app].
  apply colMatch_name_word, atFree_word in Hcol.
  repeat constructor; cbn.
  - exact Hcol.
  - exact (atFree_java cfg _ _ _ typeInfo Hcfg Hinfo).
  - now apply atFree_toCamelCase.
Qed.

Lemma lineColumns_not_key (line : string) (l : list Column) :
  lineColumns cfg [] line = Ok l -> Forall (fun col => isId col = false) l.
Proof.
  unfold lineColumns, parseLine.
  destruct (colMatch (trim line))
    as [[[[colName colType] precision] scale]|];
    [|intros [= <-]; constructor].
  destruct (negb _ && negb _ && negb _ && negb _);
    [|intros [= <-]; constructor].
  destruct (mapOracleType cfg (Some colType) precision scale);
    [|discriminate].
  intros [= <-]; repeat constructor.
Qed.

Lemma parsePks_none (ddl : string) :
  ~ PrimaryKeyClauseIn ddl -> parsePks ddl = [].
Proof.
  intros H; apply (no_match_iff _ _ (primaryKey_matches ddl)) in H.
  unfold parsePks; now rewrite H.
Qed.

End NoPrimaryKey.

(** C8. For every DDL without a clause [PRIMARY KEY (...)], every column of
    the model that [parseDDL] returns has [isId] false, and the entity that
    [generateEntity] renders from that model contains no [@IdClass] marker
    (the configured type names and indentation carrying no at sign of their
    own, as in the default configuration). *)
Theorem C8_no_primary_key_no_IdClass :
  forall (cfg : Config) (ddl : string) (data : TableModel),
    ~ PrimaryKeyClauseIn ddl ->
    parseDDL cfg ddl = Ok data ->
    Forall (fun col => isId col = false) (columns data)
    /\ filter isId (columns data) = []
    /\ (atFreeConfig cfg = true ->
        includes (generateEntity cfg data) "@IdClass" = false).
Proof.
  intros cfg ddl data Hpk Hdata.
  pose proof (parsePks_none ddl Hpk) as Hpks.
  pose proof (columns_parseDDL cfg ddl data Hdata) as Hcols.
  rewrite Hpks in Hcols.
  assert (Hids : Forall (fun col => isId col = false) (columns data)).
  { apply (linesColumns_Forall cfg _ [] (split "010"%char ddl)); [|exact Hcols].
    intros line l _; apply lineColumns_not_key. }
  split; [exact Hids|]. split.
  - revert Hids; generalize (columns data); intros cols Hids.
    induction Hids as [|col l Hid _ IH]; [reflexivity|].
    cbn [filter]; now rewrite Hid.
  - intros Hcfg.
    assert (Hclean : clean (generateEntity cfg data) = true).
    { destruct (parseDDL_names_word cfg ddl data Hdata) as [Hs Ht].
      apply generateEntity_clean; [exact Hcfg| | | |].
      - now apply atFree_word.
      - now apply atFree_word.
      - destruct (parseDDL_Ok cfg ddl data Hdata) as (_ & Hname & -> & _).
        apply atFree_toPascalCase, atFree_word; now rewrite <- Hname.
      - apply (linesColumns_Forall cfg _ [] (split "010"%char ddl));
          [|exact Hcols].
        intros line l _; now apply lineColumns_plain. }
    unfold clean in Hclean; apply andb_true_iff in Hclean as [Hinc _].
    apply negb_true_iff in Hinc.
    exact (includes_longer _ "@I" "dClass" Hinc).
Qed.

Lemma C8_no_primary_key_no_IdClass_witness :
  let ddl := "CREATE TABLE TB_CLIENTE (" ++ nl
             ++ "  NR_CLIENTE NUMBER(10)," ++ nl
             ++ "  NM_CLIENTE VARCHAR2(100)" ++ nl
             ++ ");" in
  ~ PrimaryKeyClauseIn ddl
  /\ atFreeConfig getDefaultConfig = true
  /\ exists data,
       parseDDL getDefaultConfig ddl = Ok data
       /\ map isId (columns data) = [false; false]
       /\ includes (generateEntity getDefaultConfig data) "@IdClass" = false.
Proof.
  intros ddl.
  assert (Hpk : ~ PrimaryKeyClauseIn ddl)
    by (apply (no_match_iff _ _ (primaryKey_matches _)); reflexivity).
  split; [exact Hpk|]. split; [reflexivity|].
  eexists; split; [reflexivity|]. split; [reflexivity|].
  exact (proj2 (proj2 (C8_no_primary_key_no_IdClass getDefaultConfig ddl _
                         Hpk eq_refl))
           eq_refl).
Defined.

(** The condition on the configuration is needed: the templates copy the
    indentation as it is. *)
Remark indentation_is_copied_as_it_is :
  atFreeConfig markerIndentConfig = false
  /\ exists data,
       parseDDL markerIndentConfig "NR_CLIENTE NUMBER(10)" = Ok data
       /\ filter isId (columns data) = []
       /\ includes (generateEntity markerIndentConfig data) "@IdClass" = true.
Proof. split; [reflexivity|]. eexists; repeat split; reflexivity. Qed.

(** * The required marker of the DTO *)

(** C2, at the input where the code leaves it.  With the string type
    configured as [CharSequence], the column [NM_CLIENTE VARCHAR2(100)]
    resolves to the configured string type, and [generateDTO] gives it the
    marker for the other types, [@NotNull]: the marker of the string type,
    [@NotBlank], appears nowhere in the DTO.  [notBlank] compares the type
    with the literal [String], which the default configuration makes the
    same thing. *)
Theorem C2_generateDTO_marker_compares_with_literal_String :
  let ddl := "CREATE TABLE TB_CLIENTE (" ++ nl
             ++ "  NM_CLIENTE VARCHAR2(100)" ++ nl
             ++ ");" in
  exists data dataDefault : TableModel,
    parseDDL charSequenceConfig ddl = Ok data
    /\ parseDDL getDefaultConfig ddl = Ok dataDefault
    /\ mapping_default (STRING (typeMapping charSequenceConfig))
       = "CharSequence"
    /\ map javaType (columns data) = ["CharSequence"]
    /\ map (notBlank charSequenceConfig) (columns data) = ["@NotNull"]
    /\ map (dtoInterface charSequenceConfig) (columns data)
       = ["    protected interface NmCliente {" ++ nl
          ++ "    @NotNull" ++ nl
          ++ "    @Size(max = 100)" ++ nl
          ++ "    @Schema(description = " ++ dquote ++ " " ++ dquote
          ++ ", example = " ++ dquote ++ " " ++ dquote ++ ")" ++ nl
          ++ "    CharSequence getNmCliente();" ++ nl
          ++ "    }"]
    /\ includes (generateDTO charSequenceConfig data) "@NotBlank" = false
    /\ map (notBlank getDefaultConfig) (columns dataDefault) = ["@NotBlank"].
Proof.
  intros ddl; do 2 eexists; repeat split; reflexivity.
Qed.

(** * More of the type mapper *)

(** X1. A type that does not contain [NUMBER] and contains one of the
    string tokens maps to the string type, and its annotation (when
    annotations are enabled) bounds the length by the precision as the
    engine reads and prints it: the number that is written when it is
    below 2^53, the nearest double beyond.  The scale plays no part.  A
    column without a length, such as [VARCHAR2], gets [@Size(max = 0)]. *)
Theorem X1_mapOracleType_string :
  forall (cfg : Config) (type : string) (precision scale : option string),
    includes (toUpperCase type) "NUMBER" = false ->
    hasToken (stringTokens cfg) type = true ->
    mapOracleType cfg (Some type) precision scale
    = Ok {| java := orStr (mapping_default (STRING (typeMapping cfg)))
                          "String";
            annotation :=
              if generateAnnotations (validation cfg)
              then "@Size(max = " ++ numToString (parseIntOr0 precision)
                   ++ ")"
              else EmptyString |}
    /\ (digitGroup precision -> (declared precision < 2 ^ 53)%Z ->
        numToString (parseIntOr0 precision)
        = decimalString (declared precision)).
Proof.
  intros cfg type precision scale Hnum Hstr; split.
  - now rewrite (mapOracleType_not_number cfg type precision scale Hnum),
      Hstr.
  - intros Hg Hsmall; rewrite (parseIntOr0_exact precision Hg Hsmall).
    apply numToString_exact; pose proof (declared_nonneg precision); lia.
Qed.

Lemma X1_mapOracleType_string_witness :
  includes (toUpperCase "VARCHAR2") "NUMBER" = false
  /\ hasToken (stringTokens getDefaultConfig) "VARCHAR2" = true
  /\ mapOracleType getDefaultConfig (Some "VARCHAR2") (Some "100") None
     = Ok {| java := "String"; annotation := "@Size(max = 100)" |}
  /\ mapOracleType getDefaultConfig (Some "VARCHAR2") None None
     = Ok {| java := "String"; annotation := "@Size(max = 0)" |}
  /\ mapOracleType getDefaultConfig (Some "VARCHAR2")
       (Some "9007199254740993") None
     = Ok {| java := "String";
             annotation := "@Size(max = 9007199254740992)" |}.
Proof.
  split; [reflexivity|]. split; [reflexivity|]. split; [|split].
  - exact (proj1 (X1_mapOracleType_string getDefaultConfig "VARCHAR2"
                    (Some "100") None eq_refl eq_refl)).
  - exact (proj1 (X1_mapOracleType_string getDefaultConfig "VARCHAR2" None
                    None eq_refl eq_refl)).
  - exact (proj1 (X1_mapOracleType_string getDefaultConfig "VARCHAR2"
                    (Some "9007199254740993") None eq_refl eq_refl)).
Defined.

(** X2. A type that contains neither [NUMBER] nor a string token and
    contains a date token maps to the date type, and its annotation is
    empty whatever the precision and whether annotations are enabled or
    not. *)
Theorem X2_mapOracleType_date :
  forall (cfg : Config) (type : string) (precision scale : option string),
    includes (toUpperCase type) "NUMBER" = false ->
    hasToken (stringTokens cfg) type = false ->
    hasToken (dateTokens cfg) type = true ->
    mapOracleType cfg (Some type) precision scale
    = Ok {| java := orStr (mapping_default (DATE (typeMapping cfg)))
                          "LocalDateTime";
            annotation := EmptyString |}.
Proof.
  intros cfg type precision scale Hnum Hstr Hdate.
  now rewrite (mapOracleType_not_number cfg type precision scale Hnum),
    Hstr, Hdate.
Qed.

Lemma X2_mapOracleType_date_witness :
  includes (toUpperCase "timestamp") "NUMBER" = false
  /\ hasToken (stringTokens getDefaultConfig) "timestamp" = false
  /\ hasToken (dateTokens getDefaultConfig) "timestamp" = true
  /\ mapOracleType getDefaultConfig (Some "timestamp") (Some "6") None
     = Ok {| java := "LocalDateTime"; annotation := EmptyString |}.
Proof.
  split; [reflexivity|]. split; [reflexivity|]. split; [reflexivity|].
  exact (X2_mapOracleType_date getDefaultConfig "timestamp" (Some "6") None
           eq_refl eq_refl eq_refl).
Defined.

(** X3. A type that contains neither [NUMBER] nor a string token nor a date
    token maps to the literal [String] with an empty annotation, for every
    configuration: the fallback does not read the configured name of the
    string type. *)
Theorem X3_mapOracleType_fallback :
  forall (cfg : Config) (type : string) (precision scale : option string),
    includes (toUpperCase type) "NUMBER" = false ->
    hasToken (stringTokens cfg) type = false ->
    hasToken (dateTokens cfg) type = false ->
    mapOracleType cfg (Some type) precision scale
    = Ok {| java := "String"; annotation := EmptyString |}.
Proof.
  intros cfg type precision scale Hnum Hstr Hdate.
  now rewrite (mapOracleType_not_number cfg type precision scale Hnum),
    Hstr, Hdate.
Qed.

Lemma X3_mapOracleType_fallback_witness :
  includes (toUpperCase "BLOB") "NUMBER" = false
  /\ hasToken (stringTokens charSequenceConfig) "BLOB" = false
  /\ hasToken (dateTokens charSequenceConfig) "BLOB" = false
  /\ mapOracleType charSequenceConfig (Some "BLOB") (Some "10") None
     = Ok {| java := "String"; annotation := EmptyString |}
  /\ mapOracleType charSequenceConfig (Some "CLOBTEXT") None None
     = Ok {| java := "CharSequence"; annotation := "@Size(max = 0)" |}.
Proof.
  split; [reflexivity|]. split; [reflexivity|]. split; [reflexivity|].
  split; [|reflexivity].
  exact (X3_mapOracleType_fallback charSequenceConfig "BLOB" (Some "10") None
           eq_refl eq_refl eq_refl).
Defined.

(** X4. With [generateAnnotations] off (or missing) the mapper raises
    nothing and writes no annotation, whatever the type, the precision and
    the scale. *)
Theorem X4_mapOracleType_annotations_off :
  forall (cfg : Config) (type precision scale : option string),
    generateAnnotations (validation cfg) = false ->
    exists typeInfo : TypeInfo,
      mapOracleType cfg type precision scale = Ok typeInfo
      /\ annotation typeInfo = EmptyString.
Proof.
  intros cfg type precision scale Hoff.
  unfold mapOracleType; rewrite Hoff.
  repeat match goal with
         | |- context [if ?b then _ else _] => destruct b
         end; eexists; split; reflexivity.
Qed.

Lemma X4_mapOracleType_annotations_off_witness :
  generateAnnotations (validation emptyConfig) = false
  /\ exists typeInfo : TypeInfo,
       mapOracleType emptyConfig (Some "NUMBER") (Some "15") (Some "2")
       = Ok typeInfo
       /\ annotation typeInfo = EmptyString.
Proof.
  split; [reflexivity|].
  exact (X4_mapOracleType_annotations_off emptyConfig (Some "NUMBER")
           (Some "15") (Some "2") eq_refl).
Defined.

(** X5. A type containing [NUMBER] with scale 0 and a precision that does
    not exceed the threshold (nor [maxNines], which only a threshold beyond
    it allows) maps to the default integer type, whether annotations are
    enabled or not; when they are, the bound is the digit 9 repeated
    precision times, without the suffix of a long literal, and when they
    are not the annotation is empty.  The threshold itself is still on this
    side: [NUMBER(9)] is an [Integer]. *)
Theorem X5_mapOracleType_default_integer :
  forall (cfg : Config) (type : string) (precision scale : option string),
    includes (toUpperCase type) "NUMBER" = true ->
    digitGroup precision -> digitGroup scale ->
    declared scale = 0%Z ->
    (declared precision
     <= orNum (largeThreshold (NUMBER (typeMapping cfg))) 9)%Z ->
    (declared precision <= maxNines)%Z ->
    mapOracleType cfg (Some type) precision scale
    = Ok {| java := orStr (number_default (NUMBER (typeMapping cfg)))
                          "Integer";
            annotation :=
              if generateAnnotations (validation cfg)
              then "@Min(0) @Max("
                   ++ copies "9" (Z.to_nat (declared precision)) ++ ")"
              else EmptyString |}.
Proof.
  intros cfg type precision scale Hnum Hgp Hgs Hscale Hsmall Hfit.
  pose proof (declared_nonneg precision) as Hp0.
  pose proof maxNines_safe as Hsafe.
  assert (Hs : parseIntOr0 scale = Fin 0)
    by (rewrite (parseIntOr0_exact scale Hgs), Hscale; [reflexivity | lia]).
  rewrite (mapOracleType_number cfg type precision scale Hnum).
  cbv zeta; rewrite Hs, (parseIntOr0_exact precision Hgp) by lia.
  cbn [gtb Z.ltb Z.compare].
  apply Z.ltb_ge in Hsmall; rewrite Hsmall.
  now rewrite (nineBound_fit cfg (declared precision) ")" (conj Hp0 Hfit)
                 (Nat.le_succ_diag_r 1)).
Qed.

Lemma X5_mapOracleType_default_integer_witness :
  includes (toUpperCase "NUMBER") "NUMBER" = true
  /\ digitGroup (Some "9")
  /\ declared None = 0%Z
  /\ (declared (Some "9")
      <= orNum (largeThreshold (NUMBER (typeMapping getDefaultConfig))) 9)%Z
  /\ (declared (Some "9") <= maxNines)%Z
  /\ mapOracleType getDefaultConfig (Some "NUMBER") (Some "9") None
     = Ok {| java := "Integer"; annotation := "@Min(0) @Max(999999999)" |}
  /\ mapOracleType emptyConfig (Some "NUMBER") (Some "9") None
     = Ok {| java := "Integer"; annotation := EmptyString |}.
Proof.
  assert (Hg : digitGroup (Some "9")) by (split; [discriminate | reflexivity]).
  split; [reflexivity|]. split; [exact Hg|]. split; [reflexivity|].
  split; [discriminate|]. split; [discriminate|]. split.
  - apply (X5_mapOracleType_default_integer getDefaultConfig "NUMBER"
             (Some "9") None); try reflexivity; try exact Hg; try exact I;
      discriminate.
  - apply (X5_mapOracleType_default_integer emptyConfig "NUMBER"
             (Some "9") None); try reflexivity; try exact Hg; try exact I;
      discriminate.
Defined.

(** X6. Without the list of date types in the configuration the mapper
    looks for [DATE] only: a type that contains [TIMESTAMP] and none of
    [NUMBER], the string tokens and [DATE] falls to the fallback [String],
    while the default configuration maps it to the date type. *)
Theorem X6_mapOracleType_timestamp_needs_configured_list :
  forall (type : string) (precision scale : option string),
    includes (toUpperCase type) "NUMBER" = false ->
    hasToken (stringTokens getDefaultConfig) type = false ->
    includes (toUpperCase type) "DATE" = false ->
    includes (toUpperCase type) "TIMESTAMP" = true ->
    mapOracleType noDateTypesConfig (Some type) precision scale
    = Ok {| java := "String"; annotation := EmptyString |}
    /\ mapOracleType getDefaultConfig (Some type) precision scale
       = Ok {| java := "LocalDateTime"; annotation := EmptyString |}.
Proof.
  intros type precision scale Hnum Hstr Hdate Hts; split.
  - rewrite (mapOracleType_not_number _ type precision scale Hnum).
    change (hasToken (stringTokens noDateTypesConfig) type)
      with (hasToken (stringTokens getDefaultConfig) type).
    rewrite Hstr.
    unfold hasToken, dateTokens; cbn [existsb orArr types DATE typeMapping
                                      noDateTypesConfig].
    now rewrite Hdate.
  - rewrite (mapOracleType_not_number _ type precision scale Hnum), Hstr.
    unfold hasToken, dateTokens; cbn [existsb orArr types DATE typeMapping
                                      getDefaultConfig].
    now rewrite Hdate, Hts.
Qed.

Lemma X6_mapOracleType_timestamp_needs_configured_list_witness :
  includes (toUpperCase "TIMESTAMP") "NUMBER" = false
  /\ hasToken (stringTokens getDefaultConfig) "TIMESTAMP" = false
  /\ includes (toUpperCase "TIMESTAMP") "DATE" = false
  /\ includes (toUpperCase "TIMESTAMP") "TIMESTAMP" = true
  /\ mapOracleType noDateTypesConfig (Some "TIMESTAMP") None None
     = Ok {| java := "String"; annotation := EmptyString |}
  /\ mapOracleType getDefaultConfig (Some "TIMESTAMP") None None
     = Ok {| java := "LocalDateTime"; annotation := EmptyString |}.
Proof.
  split; [reflexivity|]. split; [reflexivity|].
  split; [reflexivity|]. split; [reflexivity|].
  exact (X6_mapOracleType_timestamp_needs_configured_list "TIMESTAMP"
           None None eq_refl eq_refl eq_refl eq_refl).
Defined.

(** * More of the identifier transformer *)

Section Splitting.

Variable sep : ascii.

(** No part of a split holds the separator. *)
Lemma split_parts_no_sep (s : string) :
  Forall (fun part => allChars (notSep sep) part = true) (split sep s).
Proof.
  induction s as [|c s IH]; cbn [split]; [repeat constructor|].
  destruct (Ascii.eqb c sep) eqn:Hc; [constructor; [reflexivity | exact IH]|].
  destruct (split sep s) as [|h t];
    [repeat constructor; cbn [allChars]; unfold notSep; now rewrite Hc|].
  inversion IH as [|? ? Hh Ht]; subst.
  constructor; [|exact Ht].
  cbn [allChars]; unfold notSep at 1; now rewrite Hc, Hh.
Qed.

(** A text without the separator is the only part of its split. *)
Lemma split_single (s : string) :
  allChars (notSep sep) s = true -> split sep s = [s].
Proof.
  induction s as [|c s IH]; intros H; cbn [split]; [reflexivity|].
  cbn [allChars] in H; apply andb_true_iff in H as [Hc Hs].
  unfold notSep in Hc; apply negb_true_iff in Hc.
  now rewrite Hc, (IH Hs).
Qed.

(** The first part ends at the first separator. *)
Lemma split_first (a b : string) :
  allChars (notSep sep) a = true ->
  split sep (a ++ String sep b) = a :: split sep b.
Proof.
  induction a as [|c a IH]; intros H; cbn [append split].
  - now rewrite Ascii.eqb_refl.
  - cbn [allChars] in H; apply andb_true_iff in H as [Hc Ha].
    unfold notSep in Hc; apply negb_true_iff in Hc.
    now rewrite Hc, (IH Ha).
Qed.

End Splitting.

Section CharClosure.

(** A class of characters that upper-casing does not leave. *)
Variable P : ascii -> bool.
Hypothesis P_upper : forall c, P c = true -> P (upperChar c) = true.

Lemma allChars_slice (n : nat) (s : string) :
  allChars P s = true -> allChars P (slice n s) = true.
Proof.
  revert s; induction n as [|n IH]; intros s H; [now destruct s|].
  destruct s as [|c s]; cbn [slice]; [reflexivity|].
  cbn [allChars] in H; apply andb_true_iff in H as [_ Hs]; now apply IH.
Qed.

Lemma allChars_charAt (n : nat) (s : string) :
  allChars P s = true -> allChars P (charAt n s) = true.
Proof.
  unfold charAt; revert n; induction s as [|c s IH]; intros n H.
  - now destruct n.
  - cbn [allChars] in H; apply andb_true_iff in H as [Hc Hs].
    destruct n as [|n]; cbn [String.get].
    + cbn [allChars]; now rewrite Hc.
    + now apply IH.
Qed.

Lemma allChars_prefix (p s : string) :
  String.prefix p s = true -> allChars P s = true -> allChars P p = true.
Proof.
  revert s; induction p as [|a p IH]; intros s Hp H; [reflexivity|].
  destruct s as [|b s]; cbn [String.prefix] in Hp; [discriminate|].
  destruct (ascii_dec a b) as [->|]; [|discriminate].
  cbn [allChars] in *; apply andb_true_iff in H as [Hb Hs].
  now rewrite Hb, (IH s Hp Hs).
Qed.

Lemma allChars_capitalize (s : string) :
  allChars P s = true -> allChars P (capitalize s) = true.
Proof.
  intros H; unfold capitalize; rewrite allChars_append.
  apply andb_true_iff; split.
  - now apply allChars_mapStr, allChars_charAt.
  - now apply allChars_slice.
Qed.

Lemma allChars_camelFirst (ps : list string) (word : string) :
  allChars P word = true -> allChars P (camelFirst ps word) = true.
Proof.
  intros Hw; induction ps as [|p ps IH]; cbn [camelFirst]; [exact Hw|].
  destruct (startsWith word p) eqn:Hp; cbn [andb]; [|exact IH].
  destruct (String.length p <? String.length word)%nat; [|exact IH].
  rewrite !allChars_append, (allChars_prefix p word Hp Hw).
  rewrite (allChars_mapStr P upperChar _ P_upper (allChars_charAt _ _ Hw)).
  now rewrite (allChars_slice _ _ Hw).
Qed.

Lemma allChars_join_empty (l : list string) :
  Forall (fun part => allChars P part = true) l ->
  allChars P (join EmptyString l) = true.
Proof.
  induction 1 as [|w l Hw Hl IH]; [reflexivity|].
  now rewrite join_empty_cons, allChars_append, Hw, IH.
Qed.

Lemma Forall_capitalize (l : list string) :
  Forall (fun part => allChars P part = true) l ->
  Forall (fun part => allChars P part = true) (map capitalize l).
Proof.
  induction 1 as [|w l Hw Hl IH]; constructor;
    [now apply allChars_capitalize | exact IH].
Qed.

(** The names are made of the characters of the parts. *)
Lemma toCamelCase_chars (cfg : Config) (str : string) :
  Forall (fun part => allChars P part = true) (split "_" (toLowerCase str)) ->
  allChars P (toCamelCase cfg str) = true.
Proof.
  intros Hs; rewrite toCamelCase_parts.
  assert (Hparts : Forall (fun part => allChars P part = true)
                          (camelParts cfg str)).
  { unfold camelParts; destruct (_ && _); [apply Forall_tl|]; exact Hs. }
  destruct Hparts as [|seg rest Hseg Hrest]; [reflexivity|].
  rewrite allChars_append, (allChars_camelFirst _ _ Hseg).
  now apply allChars_join_empty, Forall_capitalize.
Qed.

Lemma toPascalCase_chars (cfg : Config) (str : string) :
  Forall (fun part => allChars P part = true) (split "_" (toLowerCase str)) ->
  allChars P (toPascalCase cfg str) = true.
Proof.
  intros Hs; unfold toPascalCase.
  apply allChars_join_empty, Forall_capitalize.
  unfold pascalParts.
  destruct (arrIncludes _ _).
  - apply Forall_tl in Hs.
    destruct (_ && _ && _); [apply Forall_tl|]; exact Hs.
  - destruct (_ && _ && _); [apply Forall_tl|]; exact Hs.
Qed.

End CharClosure.

Section NameCharacters.

Lemma notUnderscore_upper (c : ascii) :
  notUnderscore c = true -> notUnderscore (upperChar c) = true.
Proof. destruct c as [[] [] [] [] [] [] [] []]; intros H; exact H || reflexivity. Qed.

Lemma notUnderscore_lower (c : ascii) :
  notUnderscore c = true -> notUnderscore (lowerChar c) = true.
Proof. destruct c as [[] [] [] [] [] [] [] []]; intros H; exact H || reflexivity. Qed.

Lemma isAlnum_upper (c : ascii) :
  isAlnum c = true -> isAlnum (upperChar c) = true.
Proof. destruct c as [[] [] [] [] [] [] [] []]; intros H; exact H || reflexivity. Qed.

Lemma isWord_lower (c : ascii) : isWord c = true -> isWord (lowerChar c) = true.
Proof. destruct c as [[] [] [] [] [] [] [] []]; intros H; exact H || reflexivity. Qed.

Lemma isAlnum_word (c : ascii) :
  isWord c = true -> notUnderscore c = true -> isAlnum c = true.
Proof.
  destruct c as [[] [] [] [] [] [] [] []]; intros H1 H2;
    reflexivity || discriminate.
Qed.

Lemma allChars_both (p q r : ascii -> bool) (s : string) :
  (forall c, p c = true -> q c = true -> r c = true) ->
  allChars p s = true -> allChars q s = true -> allChars r s = true.
Proof.
  intros Hr; induction s as [|c s IH]; cbn [allChars]; [reflexivity|].
  intros Hp Hq; apply andb_true_iff in Hp as [Hpc Hps].
  apply andb_true_iff in Hq as [Hqc Hqs].
  now rewrite (Hr c Hpc Hqc), (IH Hps Hqs).
Qed.

(** The parts of a run of word characters are runs of letters and
    digits. *)
Lemma split_word_parts (s : string) :
  allChars isWord s = true ->
  Forall (fun part => allChars isAlnum part = true) (split "_" s).
Proof.
  intros Hw.
  pose proof (split_parts_no_sep "_" s) as Hno.
  assert (Hword : Forall (fun part => allChars isWord part = true)
                         (split "_" s)).
  { clear Hno; induction s as [|c s IH]; cbn [split]; [repeat constructor|].
    cbn [allChars] in Hw; apply andb_true_iff in Hw as [Hc Hs].
    specialize (IH Hs).
    destruct (Ascii.eqb c "_"); [constructor; [reflexivity | exact IH]|].
    destruct (split "_" s) as [|h t];
      [repeat constructor; cbn [allChars]; now rewrite Hc|].
    inversion IH as [|? ? Hh Ht]; subst.
    constructor; [cbn [allChars]; now rewrite Hc, Hh | exact Ht]. }
  induction Hword as [|part l Hp Hl IH]; [constructor|].
  inversion Hno as [|? ? Hn Hns]; subst.
  constructor; [|exact (IH Hns)].
  exact (allChars_both isWord (notSep "_") isAlnum part isAlnum_word Hp Hn).
Qed.

Lemma length_mapStr (f : ascii -> ascii) (s : string) :
  String.length (mapStr f s) = String.length s.
Proof. induction s as [|c s IH]; cbn; [reflexivity | now rewrite IH]. Qed.

End NameCharacters.

(** X7. The field name that [toCamelCase] returns never holds an
    underscore, whatever the identifier and the configuration; for an
    identifier of word characters, as the column pattern captures, it is
    made of letters and digits only. *)
Theorem X7_toCamelCase_characters :
  forall (cfg : Config) (str : string),
    allChars notUnderscore (toCamelCase cfg str) = true
    /\ (allChars isWord str = true ->
        allChars isAlnum (toCamelCase cfg str) = true).
Proof.
  intros cfg str; split.
  - apply (toCamelCase_chars notUnderscore notUnderscore_upper).
    exact (split_parts_no_sep "_" (toLowerCase str)).
  - intros Hw.
    apply (toCamelCase_chars isAlnum isAlnum_upper), split_word_parts.
    exact (allChars_mapStr isWord lowerChar str isWord_lower Hw).
Qed.

Lemma X7_toCamelCase_characters_witness :
  allChars isWord "VL_LIMITE_CREDITO_2" = true
  /\ toCamelCase getDefaultConfig "VL_LIMITE_CREDITO_2" = "vlLimiteCredito2"
  /\ allChars isAlnum (toCamelCase getDefaultConfig "VL_LIMITE_CREDITO_2")
     = true.
Proof.
  split; [reflexivity|]. split; [reflexivity|].
  exact (proj2 (X7_toCamelCase_characters getDefaultConfig
                  "VL_LIMITE_CREDITO_2") eq_refl).
Defined.

(** X8. The type name that [toPascalCase] returns never holds an
    underscore, whatever the identifier and the configuration; for an
    identifier of word characters it is made of letters and digits only. *)
Theorem X8_toPascalCase_characters :
  forall (cfg : Config) (str : string),
    allChars notUnderscore (toPascalCase cfg str) = true
    /\ (allChars isWord str = true ->
        allChars isAlnum (toPascalCase cfg str) = true).
Proof.
  intros cfg str; split.
  - apply (toPascalCase_chars notUnderscore notUnderscore_upper).
    exact (split_parts_no_sep "_" (toLowerCase str)).
  - intros Hw.
    apply (toPascalCase_chars isAlnum isAlnum_upper), split_word_parts.
    exact (allChars_mapStr isWord lowerChar str isWord_lower Hw).
Qed.

Lemma X8_toPascalCase_characters_witness :
  allChars isWord "TB_PEDIDO_ITEM" = true
  /\ toPascalCase getDefaultConfig "TB_PEDIDO_ITEM" = "PedidoItem"
  /\ allChars isAlnum (toPascalCase getDefaultConfig "TB_PEDIDO_ITEM") = true.
Proof.
  split; [reflexivity|]. split; [reflexivity|].
  exact (proj2 (X8_toPascalCase_characters getDefaultConfig "TB_PEDIDO_ITEM")
           eq_refl).
Defined.

(** X9. With [removeThreeLetterPrefixes] set, an identifier of exactly
    three characters and no underscore is its own three-letter prefix: the
    only segment is dropped and both [toCamelCase] and [toPascalCase] return
    the empty string. *)
Theorem X9_three_letter_identifier_gives_empty_name :
  forall (cfg : Config) (str : string),
    removeThreeLetterPrefixes (naming cfg) = true ->
    String.length str = 3 ->
    allChars notUnderscore str = true ->
    toCamelCase cfg str = EmptyString
    /\ toPascalCase cfg str = EmptyString.
Proof.
  intros cfg str Hflag Hlen Hno.
  assert (Hsplit : split "_" (toLowerCase str) = [toLowerCase str]).
  { apply split_single.
    exact (allChars_mapStr notUnderscore lowerChar str notUnderscore_lower Hno). }
  assert (Hl : String.length (toLowerCase str) = 3)
    by (unfold toLowerCase; now rewrite length_mapStr).
  split.
  - rewrite toCamelCase_parts; unfold camelParts.
    rewrite Hsplit, Hflag; cbn [firstHasLength3 andb]; now rewrite Hl.
  - unfold toPascalCase, pascalParts; rewrite Hsplit, Hflag; cbn [hd].
    destruct (arrIncludes (pascalPrefixes cfg) (toLowerCase str));
      cbn [shift tl List.length Nat.ltb Nat.leb andb firstHasLength3];
      [reflexivity|].
    now rewrite Hl.
Qed.

Lemma X9_three_letter_identifier_gives_empty_name_witness :
  removeThreeLetterPrefixes (naming getDefaultConfig) = true
  /\ String.length "COD" = 3
  /\ allChars notUnderscore "COD" = true
  /\ toCamelCase getDefaultConfig "COD" = EmptyString
  /\ toPascalCase getDefaultConfig "COD" = EmptyString
  /\ exists data,
       parseDDL getDefaultConfig "COD NUMBER(3)," = Ok data
       /\ map javaName (columns data) = [EmptyString].
Proof.
  split; [reflexivity|]. split; [reflexivity|]. split; [reflexivity|].
  destruct (X9_three_letter_identifier_gives_empty_name getDefaultConfig "COD"
              eq_refl eq_refl eq_refl) as [H1 H2].
  split; [exact H1|]. split; [exact H2|].
  eexists; split; reflexivity.
Defined.

(** X10. For an identifier of two segments whose first one is a
    table-prefix token (in any letter case) and whose second one does not
    have exactly three characters, [toPascalCase] returns the second
    segment lower-cased with its first character capitalized: [TB_CLIENTE]
    gives [Cliente]. *)
Theorem X10_toPascalCase_strips_table_prefix :
  forall (cfg : Config) (token name : string),
    allChars notUnderscore token = true ->
    allChars notUnderscore name = true ->
    arrIncludes (pascalPrefixes cfg) (toLowerCase token) = true ->
    String.length name <> 3 ->
    toPascalCase cfg (token ++ "_" ++ name) = capitalize (toLowerCase name).
Proof.
  intros cfg token name Htok Hname Hin Hlen.
  assert (Hsplit : split "_" (toLowerCase (token ++ "_" ++ name))
                   = [toLowerCase token; toLowerCase name]).
  { assert (Hmap : toLowerCase (token ++ "_" ++ name)
                   = toLowerCase token ++ String "_" (toLowerCase name)).
    { unfold toLowerCase; clear; induction token as [|c t IH];
        cbn; [reflexivity | now rewrite <- IH]. }
    rewrite Hmap, split_first, split_single; [reflexivity| |].
    - exact (allChars_mapStr notUnderscore lowerChar name notUnderscore_lower
               Hname).
    - exact (allChars_mapStr notUnderscore lowerChar token notUnderscore_lower
               Htok). }
  unfold toPascalCase, pascalParts; rewrite Hsplit; cbn [hd]; rewrite Hin.
  cbn [shift tl List.length Nat.ltb Nat.leb firstHasLength3].
  assert (Hl : (String.length (toLowerCase name) =? 3)%nat = false).
  { unfold toLowerCase; rewrite length_mapStr; now apply Nat.eqb_neq. }
  rewrite Hl, andb_false_r; unfold join; cbn [map String.concat].
  reflexivity.
Qed.

Lemma X10_toPascalCase_strips_table_prefix_witness :
  allChars notUnderscore "TB" = true
  /\ allChars notUnderscore "CLIENTE" = true
  /\ arrIncludes (pascalPrefixes getDefaultConfig) (toLowerCase "TB") = true
  /\ String.length "CLIENTE" <> 3
  /\ toPascalCase getDefaultConfig "TB_CLIENTE" = "Cliente".
Proof.
  split; [reflexivity|]. split; [reflexivity|]. split; [reflexivity|].
  split; [discriminate|].
  apply (X10_toPascalCase_strips_table_prefix getDefaultConfig "TB" "CLIENTE");
    try reflexivity; discriminate.
Defined.

(** * More of the parser *)

Section Trimming.

Lemma trimStart_head (s : string) :
  match trimStart s with
  | EmptyString => True
  | String c _ => isSpace c = false
  end.
Proof.
  induction s as [|c s IH]; cbn [trimStart]; [exact I|].
  destruct (isSpace c) eqn:Hc; [exact IH | exact Hc].
Qed.

Lemma trimStart_fixed (s : string) :
  match s with
  | EmptyString => True
  | String c _ => isSpace c = false
  end -> trimStart s = s.
Proof.
  destruct s as [|c s]; [reflexivity|]; cbn [trimStart]; now intros ->.
Qed.

(** [trimEnd] keeps the first character of a text that starts outside the
    white space. *)
Lemma trimEnd_head (s : string) :
  match s with
  | EmptyString => True
  | String c _ => isSpace c = false
  end ->
  match trimEnd s with
  | EmptyString => True
  | String c _ => isSpace c = false
  end.
Proof.
  destruct s as [|c s]; [intros _; exact I|]; intros Hc; cbn [trimEnd].
  destruct (trimEnd s); [rewrite Hc|]; exact Hc.
Qed.

Lemma trimEnd_idempotent (s : string) : trimEnd (trimEnd s) = trimEnd s.
Proof.
  induction s as [|c s IH]; [reflexivity|]; cbn [trimEnd].
  destruct (trimEnd s) as [|d t] eqn:E.
  - destruct (isSpace c) eqn:Hc; [reflexivity|].
    cbn [trimEnd]; now rewrite Hc.
  - change (trimEnd (String c (String d t))) with
      (match trimEnd (String d t) with
       | EmptyString => if isSpace c then EmptyString else String c EmptyString
       | String a b => String c (String a b)
       end).
    now rewrite IH.
Qed.

Lemma trim_idempotent (s : string) : trim (trim s) = trim s.
Proof.
  unfold trim.
  rewrite (trimStart_fixed (trimEnd (trimStart s))
             (trimEnd_head _ (trimStart_head s))).
  apply trimEnd_idempotent.
Qed.

End Trimming.

(** X11. Every name of the primary-key list that [parseDDL] collects is
    trimmed: trimming it again changes nothing, so white space around the
    commas of [PRIMARY KEY (A , B)] does not reach the comparison with the
    column names. *)
Theorem X11_parsePks_entries_are_trimmed :
  forall ddl : string,
    Forall (fun pk => trim pk = pk) (parsePks ddl)
    /\ parsePks ("PRIMARY KEY (NR_PEDIDO , NR_ITEM )")
       = ["NR_PEDIDO"; "NR_ITEM"].
Proof.
  intros ddl; split; [|reflexivity].
  unfold parsePks; destruct (search primaryKeyAt ddl) as [g|]; [|constructor].
  induction (split "," g) as [|pk l IH]; cbn [map]; constructor;
    [apply trim_idempotent | exact IH].
Qed.

Section ParserInvariants.

Variable cfg : Config.

Lemma colMatch_name_nonempty (trimmed colName colType : string)
    (precision scale : option string) :
  colMatch trimmed = Some (colName, colType, precision, scale) ->
  colName <> EmptyString.
Proof.
  unfold colMatch.
  destruct (span isWord trimmed) as [n r].
  destruct (isEmpty n) eqn:He; [discriminate|].
  destruct (span isSpace r) as [ws r1].
  destruct (isEmpty ws); [discriminate|].
  destruct (span isWord r1) as [ty r2].
  destruct (isEmpty ty); [discriminate|].
  destruct (precisionScaleAt r2); intros [= <- _ _ _].
  now apply isEmpty_false.
Qed.

Lemma lineColumns_derived (ddl line : string) (l : list Column) :
  lineColumns cfg (parsePks ddl) line = Ok l ->
  Forall (derivedColumn cfg ddl) l.
Proof.
  unfold lineColumns, parseLine.
  destruct (colMatch (trim line))
    as [[[[colName colType] precision] scale]|] eqn:Hcol;
    [|intros [= <-]; constructor].
  destruct (negb _ && negb _ && negb _ && negb _);
    [|intros [= <-]; constructor].
  destruct (mapOracleType cfg (Some colType) precision scale);
    [|discriminate].
  intros [= <-]; repeat constructor; cbn.
  - exact (colMatch_name_nonempty _ _ _ _ _ Hcol).
  - exact (colMatch_name_word _ _ _ _ _ Hcol).
Qed.

Lemma lineColumns_at_most_one (pks : list string) (line : string)
    (l : list Column) :
  lineColumns cfg pks line = Ok l -> List.length l <= 1.
Proof.
  unfold lineColumns, parseLine.
  destruct (colMatch (trim line))
    as [[[[colName colType] precision] scale]|];
    [|intros [= <-]; cbn; lia].
  destruct (negb _ && negb _ && negb _ && negb _);
    [|intros [= <-]; cbn; lia].
  destruct (mapOracleType cfg (Some colType) precision scale);
    [|discriminate].
  intros [= <-]; cbn; lia.
Qed.

Lemma linesColumns_length (pks : list string) (lines : list string)
    (cols : list Column) :
  linesColumns cfg pks lines = Ok cols ->
  List.length cols <= List.length lines.
Proof.
  revert cols; induction lines as [|line lines IH]; intros cols.
  - intros H; injection H as <-; apply Nat.le_refl.
  - rewrite linesColumns_cons.
    destruct (lineColumns cfg pks line) as [a|] eqn:Ha; [|discriminate].
    destruct (linesColumns cfg pks lines) as [b|]; [|discriminate].
    intros H; injection H as <-.
    rewrite length_app; cbn [List.length].
    pose proof (lineColumns_at_most_one pks line a Ha).
    pose proof (IH b eq_refl); lia.
Qed.

End ParserInvariants.

(** X12. Every column of a model that [parseDDL] returns has a non-empty
    original name made of word characters, a field name that is
    [toCamelCase] of it, a Pascal name that is the field name with its first
    character capitalized, and a key flag that says whether the original
    name is, letter for letter, in the primary-key list. *)
Theorem X12_parseDDL_columns_are_derived :
  forall (cfg : Config) (ddl : string) (data : TableModel),
    parseDDL cfg ddl = Ok data ->
    Forall (derivedColumn cfg ddl) (columns data).
Proof.
  intros cfg ddl data Hdata.
  apply (linesColumns_Forall cfg _ (parsePks ddl) (split "010"%char ddl));
    [|now apply columns_parseDDL].
  intros line l _; apply lineColumns_derived.
Qed.

Lemma X12_parseDDL_columns_are_derived_witness :
  let ddl := "CREATE TABLE TB_CLIENTE (" ++ nl
             ++ "  NR_CLIENTE NUMBER(10)," ++ nl
             ++ "  CONSTRAINT PK PRIMARY KEY (NR_CLIENTE)" ++ nl
             ++ ");" in
  exists data,
    parseDDL getDefaultConfig ddl = Ok data
    /\ map originalName (columns data) = ["NR_CLIENTE"]
    /\ Forall (derivedColumn getDefaultConfig ddl) (columns data).
Proof.
  intros ddl; eexists; split; [reflexivity|]. split; [reflexivity|].
  exact (X12_parseDDL_columns_are_derived getDefaultConfig ddl _ eq_refl).
Defined.

(** X13. A line gives at most one column, so a model that [parseDDL]
    returns has no more columns than the text has lines; the empty text
    gives the placeholders and no column. *)
Theorem X13_parseDDL_no_more_columns_than_lines :
  forall (cfg : Config) (ddl : string),
    (forall data : TableModel,
        parseDDL cfg ddl = Ok data ->
        List.length (columns data) <= List.length (split "010"%char ddl))
    /\ parseDDL cfg EmptyString
       = Ok {| schema := "dbo"; originalTableName := "Unknown";
               className := toPascalCase cfg "Unknown"; columns := [] |}.
Proof.
  intros cfg ddl; split; [|reflexivity].
  intros data Hdata.
  exact (linesColumns_length cfg _ _ _ (columns_parseDDL cfg ddl data Hdata)).
Qed.

Lemma X13_parseDDL_no_more_columns_than_lines_witness :
  let ddl := "CREATE TABLE TB_CLIENTE (" ++ nl
             ++ "  NR_CLIENTE NUMBER(10)," ++ nl
             ++ "  NM_CLIENTE VARCHAR2(100)" ++ nl
             ++ ");" in
  exists data,
    parseDDL getDefaultConfig ddl = Ok data
    /\ List.length (columns data) = 2
    /\ List.length (split "010"%char ddl) = 4
    /\ List.length (columns data) <= List.length (split "010"%char ddl).
Proof.
  intros ddl; eexists; split; [reflexivity|].
  split; [reflexivity|]. split; [reflexivity|].
  exact (proj1 (X13_parseDDL_no_more_columns_than_lines getDefaultConfig ddl)
           _ eq_refl).
Defined.

Section Searching.

(** A pattern that cannot match inside [pre] is searched for after it. *)
Lemma search_skip {A : Type} (at_ : string -> option A) (pre rest : string) :
  (forall c s, In c (list_ascii_of_string pre) -> at_ (String c s) = None) ->
  search at_ (pre ++ rest) = search at_ rest.
Proof.
  induction pre as [|c pre IH]; intros H; [reflexivity|].
  cbn [append search].
  rewrite (H c (pre ++ rest) (or_introl eq_refl)).
  apply IH; intros d s Hd; apply H; now right.
Qed.

Lemma allChars_In (p : ascii -> bool) (s : string) (c : ascii) :
  allChars p s = true -> In c (list_ascii_of_string s) -> p c = true.
Proof.
  induction s as [|d s IH]; cbn [allChars list_ascii_of_string];
    [intros _ []|].
  intros H [<-|Hin]; apply andb_true_iff in H as [Hd Hs]; auto.
Qed.

Lemma litCI_CREATE_needs_C (c : ascii) (s : string) :
  notLetterC c = true -> litCI "CREATE TABLE " (String c s) = None.
Proof.
  unfold notLetterC; intros H; apply negb_true_iff in H.
  assert (E : Ascii.eqb (upperChar "C") (upperChar c) = false)
    by (rewrite Ascii.eqb_sym; exact H).
  cbn [litCI]; now rewrite E.
Qed.

(** A run within [p] up to the end of the text, or up to a character
    outside [p], is what [span] takes. *)
Lemma span_word_run (a post : string) :
  allChars isWord a = true -> endsWord post ->
  span isWord (a ++ post) = (a, post).
Proof.
  intros Ha Hpost; destruct post as [|c post].
  - rewrite append_nil_r; clear Hpost.
    induction a as [|x a IH]; [reflexivity|].
    cbn [allChars] in Ha; apply andb_true_iff in Ha as [Hx Ha].
    cbn [span]; now rewrite Hx, (IH Ha).
  - now apply span_run.
Qed.

End Searching.

(** X14. When the statement [CREATE TABLE schema.table] (keyword in any
    letter case) comes after a text without the letter C and the table name
    ends where the word characters end, a model that [parseDDL] returns has
    that schema and that table name exactly as written, and the type name
    is [toPascalCase] of the table name. *)
Theorem X14_parseDDL_reads_schema_and_table :
  forall (cfg : Config) (pre kw sch tbl post : string) (data : TableModel),
    allChars notLetterC pre = true ->
    toUpperCase kw = "CREATE TABLE " ->
    sch <> EmptyString -> allChars isWord sch = true ->
    tbl <> EmptyString -> allChars isWord tbl = true ->
    endsWord post ->
    parseDDL cfg (pre ++ kw ++ sch ++ "." ++ tbl ++ post) = Ok data ->
    schema data = sch
    /\ originalTableName data = tbl
    /\ className data = toPascalCase cfg tbl.
Proof.
  intros cfg pre kw sch tbl post data Hpre Hkw Hs Hws Ht Hwt Hpost Hdata.
  assert (Hsearch : search createTableSchemaAt
                      (pre ++ kw ++ sch ++ "." ++ tbl ++ post)
                    = Some [kw ++ sch ++ "." ++ tbl; sch; tbl]).
  { rewrite search_skip.
    - assert (Hat : createTableSchemaAt (kw ++ sch ++ "." ++ tbl ++ post)
                    = Some [kw ++ sch ++ "." ++ tbl; sch; tbl]).
      { unfold createTableSchemaAt.
        rewrite (litCI_complete "CREATE TABLE " kw _ Hkw).
        change ("." ++ tbl ++ post) with (String "."%char (tbl ++ post)).
        rewrite (span_run isWord sch "." _ Hws isWord_dot).
        apply isEmpty_false in Hs; rewrite Hs.
        rewrite (span_word_run tbl post Hwt Hpost).
        apply isEmpty_false in Ht; rewrite Ht; reflexivity. }
      destruct (kw ++ sch ++ "." ++ tbl ++ post); cbn [search];
        now rewrite Hat.
    - intros c s Hc; unfold createTableSchemaAt.
      now rewrite (litCI_CREATE_needs_C c s (allChars_In _ _ _ Hpre Hc)). }
  destruct (parseDDL_Ok cfg _ data Hdata) as (Hsch & Htbl & Hcls & _).
  rewrite Hsch, Htbl, Hcls; unfold tableNames; rewrite Hsearch; cbn; auto.
Qed.

Lemma X14_parseDDL_reads_schema_and_table_witness :
  allChars notLetterC ("-- pedidos" ++ nl) = true
  /\ toUpperCase "Create Table " = "CREATE TABLE "
  /\ endsWord (" (" ++ nl ++ "  NR_PEDIDO NUMBER(10)" ++ nl ++ ");")
  /\ exists data,
       parseDDL getDefaultConfig
         (("-- pedidos" ++ nl) ++ "Create Table " ++ "VENDAS" ++ "."
          ++ "TB_PEDIDO"
          ++ (" (" ++ nl ++ "  NR_PEDIDO NUMBER(10)" ++ nl ++ ");"))
       = Ok data
       /\ schema data = "VENDAS"
       /\ originalTableName data = "TB_PEDIDO"
       /\ className data = "Pedido".
Proof.
  split; [reflexivity|]. split; [reflexivity|]. split; [reflexivity|].
  eexists; split; [reflexivity|].
  apply (X14_parseDDL_reads_schema_and_table getDefaultConfig
           ("-- pedidos" ++ nl) "Create Table " "VENDAS" "TB_PEDIDO"
           (" (" ++ nl ++ "  NR_PEDIDO NUMBER(10)" ++ nl ++ ");"));
    try reflexivity; discriminate.
Defined.

(** X15. The skip tests of the line loop compare letter for letter: a
    line that, once trimmed, starts with [create table] in lower case is
    not skipped, the mapper gives a type to [table] without raising, and a
    model that [parseDDL] returns has a column whose original name is
    [create] and whose type is the one the mapper gives to [table]. *)
Theorem X15_parseDDL_lower_case_create_line_is_a_column :
  forall (cfg : Config) (ddl line rest : string) (data : TableModel),
    In line (split "010"%char ddl) ->
    trim line = "create table " ++ rest ->
    parseDDL cfg ddl = Ok data ->
    exists typeInfo : TypeInfo,
      mapOracleType cfg (Some "table") None None = Ok typeInfo
      /\ let col := {| originalName := "create";
                       javaName := toCamelCase cfg "create";
                       pascalName := capitalize (toCamelCase cfg "create");
                       javaType := java typeInfo;
                       column_annotation := annotation typeInfo;
                       isId := arrIncludes (parsePks ddl) "create" |} in
         lineColumns cfg (parsePks ddl) line = Ok [col]
         /\ In col (columns data).
Proof.
  intros cfg ddl line rest data Hin Htrim Hdata.
  destruct (mapOracleType_not_number_returns cfg "table" None None eq_refl)
    as [typeInfo Hinfo].
  exists typeInfo; split; [exact Hinfo|]; intros col.
  assert (Hcol : colMatch (trim line) = Some ("create", "table", None, None))
    by (rewrite Htrim; reflexivity).
  assert (Hline : lineColumns cfg (parsePks ddl) line = Ok [col])
    by (unfold lineColumns, parseLine; rewrite Hcol, Htrim;
        cbn [startsWith]; rewrite Hinfo; reflexivity).
  split; [exact Hline|].
  destruct (linesColumns_of_line cfg _ _ _ line
              (columns_parseDDL cfg ddl data Hdata) Hin) as (l & Hl & Hincl).
  rewrite Hline in Hl; injection Hl as <-.
  apply Hincl; now left.
Qed.

Lemma X15_parseDDL_lower_case_create_line_is_a_column_witness :
  let ddl := "create table tb_cliente (" ++ nl
             ++ "  nr_cliente number(10)" ++ nl
             ++ ");" in
  exists data,
    parseDDL getDefaultConfig ddl = Ok data
    /\ In "create table tb_cliente (" (split "010"%char ddl)
    /\ trim "create table tb_cliente (" = "create table " ++ "tb_cliente ("
    /\ map originalName (columns data) = ["create"; "nr_cliente"]
    /\ In {| originalName := "create"; javaName := "create";
             pascalName := "Create"; javaType := "String";
             column_annotation := EmptyString; isId := false |}
          (columns data).
Proof.
  intros ddl.
  assert (Hin : In "create table tb_cliente (" (split "010"%char ddl))
    by (left; reflexivity).
  eexists; split; [reflexivity|].
  split; [exact Hin|]. split; [reflexivity|]. split; [reflexivity|].
  destruct (X15_parseDDL_lower_case_create_line_is_a_column
              getDefaultConfig ddl "create table tb_cliente ("
              "tb_cliente (" _ Hin eq_refl eq_refl)
    as (typeInfo & Hinfo & _ & Hcol).
  injection Hinfo as <-; exact Hcol.
Defined.

(** * More of the renderers *)

Section Occurrences.

Lemma prefix_self (p rest : string) : String.prefix p (p ++ rest) = true.
Proof. exact (startsWith_append p rest). Qed.

Lemma prefix_refl (p : string) : String.prefix p p = true.
Proof.
  induction p as [|c p IH]; [reflexivity|]; cbn [String.prefix].
  destruct (ascii_dec c c) as [_|n]; [exact IH | now elim n].
Qed.

Lemma prefix_step (a q t : string) :
  String.prefix q t = true -> String.prefix (a ++ q) (a ++ t) = true.
Proof.
  intros H; induction a as [|c a IH]; [exact H|].
  cbn [append String.prefix].
  destruct (ascii_dec c c) as [_|n]; [exact IH | now elim n].
Qed.

Lemma prefix_longer_text (p a b : string) :
  String.prefix p a = true -> String.prefix p (a ++ b) = true.
Proof.
  revert a; induction p as [|c p IH]; intros a H; [now destruct (a ++ b)|].
  destruct a as [|d a]; cbn [String.prefix append] in *; [discriminate|].
  destruct (ascii_dec c d); [now apply IH | discriminate].
Qed.

Lemma includes_here (s p : string) :
  String.prefix p s = true -> includes s p = true.
Proof. intros H; destruct s; cbn [includes]; now rewrite H. Qed.

Lemma includes_app_r (a b p : string) :
  includes b p = true -> includes (a ++ b) p = true.
Proof.
  intros H; induction a as [|c a IH]; [exact H|].
  cbn [append includes]; rewrite IH; apply orb_true_r.
Qed.

Lemma includes_app_l (a b p : string) :
  includes a p = true -> includes (a ++ b) p = true.
Proof.
  induction a as [|c a IH]; cbn [includes]; intros H.
  - rewrite orb_false_r in H.
    apply includes_here; now apply (prefix_longer_text p EmptyString b).
  - apply orb_true_iff in H as [H|H]; cbn [append includes].
    + pose proof (prefix_longer_text p (String c a) b H) as H'.
      cbn [append] in H'; now rewrite H'.
    + rewrite (IH H); apply orb_true_r.
Qed.

Lemma includes_join (sep : string) (l : list string) (x p : string) :
  In x l -> includes x p = true -> includes (join sep l) p = true.
Proof.
  intros Hin Hx; unfold join; induction l as [|y l IH]; [destruct Hin|].
  cbn [String.concat]; destruct l as [|z l].
  - destruct Hin as [->|[]]; exact Hx.
  - destruct Hin as [->|Hin]; [now apply includes_app_l|].
    apply includes_app_r, includes_app_r, IH, Hin.
Qed.

(** A text that holds [p] holds it between a text before and a text
    after. *)
Lemma prefix_decompose (p s : string) :
  String.prefix p s = true -> exists post, s = p ++ post.
Proof.
  revert s; induction p as [|c p IH]; intros s H; [now exists s|].
  destruct s as [|d s]; cbn [String.prefix] in H; [discriminate|].
  destruct (ascii_dec c d) as [<-|]; [|discriminate].
  destruct (IH s H) as [post ->]; now exists post.
Qed.

Lemma includes_decompose (s p : string) :
  includes s p = true -> exists pre post, s = pre ++ p ++ post.
Proof.
  induction s as [|c s IH]; cbn [includes]; intros H.
  - rewrite orb_false_r in H; apply prefix_decompose in H as [post E].
    now exists EmptyString, post.
  - apply orb_true_iff in H as [H|H].
    + apply prefix_decompose in H as [post E]; now exists EmptyString, post.
    + destruct (IH H) as (pre & post & ->); now exists (String c pre), post.
Qed.

End Occurrences.

Section Scanner.

Lemma scanIdC_append (st : nat) (a b : string) :
  scanIdC st (a ++ b) = scanIdC (scanIdC st a) b.
Proof. revert st; induction a as [|c a IH]; intros st; [reflexivity | apply IH]. Qed.

Lemma scanIdC_found (s : string) : scanIdC 4 s = 4.
Proof. induction s as [|c s IH]; [reflexivity | exact IH]. Qed.

(** Wherever the scanner is, reading the start of the marker finds it. *)
Lemma scanIdC_marker (st : nat) (post : string) :
  scanIdC st ("@IdC" ++ post) = 4.
Proof.
  destruct st as [|[|[|[|[|n]]]]]; cbn; apply scanIdC_found.
Qed.

Lemma quiet_append (a b : string) :
  quiet a = true -> quiet b = true -> quiet (a ++ b) = true.
Proof.
  unfold quiet; intros Ha Hb; apply Nat.eqb_eq in Ha.
  now rewrite scanIdC_append, Ha.
Qed.

Lemma atFree_quiet (s : string) : atFree s = true -> quiet s = true.
Proof.
  unfold atFree, quiet; induction s as [|c s IH]; intros H; [reflexivity|].
  cbn [allChars] in H; apply andb_true_iff in H as [Hc Hs].
  unfold notAt in Hc; apply negb_true_iff in Hc.
  cbn [scanIdC stepIdC]; rewrite Hc; exact (IH Hs).
Qed.

(** A quiet text does not hold the marker. *)
Lemma quiet_no_marker (s : string) :
  quiet s = true -> includes s "@IdClass" = false.
Proof.
  intros Hq; apply (includes_longer s "@IdC" "lass").
  destruct (includes s "@IdC") eqn:E; [|reflexivity].
  apply includes_decompose in E as (pre & post & ->).
  unfold quiet in Hq; apply Nat.eqb_eq in Hq.
  rewrite scanIdC_append, scanIdC_marker in Hq; discriminate.
Qed.

Lemma quiet_join (sep : string) (l : list string) :
  quiet sep = true -> Forall (fun s => quiet s = true) l ->
  quiet (join sep l) = true.
Proof.
  intros Hsep; induction 1 as [|s l Hs Hl IH]; [reflexivity|].
  unfold join in *; cbn [String.concat].
  destruct l as [|s' l]; [exact Hs|].
  apply quiet_append; [exact Hs|]; apply quiet_append; [exact Hsep | exact IH].
Qed.

End Scanner.

Section EntityMarkers.

Variable cfg : Config.
Hypothesis cfg_atFree : atFreeConfig cfg = true.

Ltac quiet_pieces :=
  repeat first
    [ reflexivity
    | match goal with
      | |- quiet (append _ _) = true => apply quiet_append
      end ].

Lemma quiet_indent : quiet (orStr (indentation (output cfg)) "    ") = true.
Proof.
  unfold atFreeConfig in cfg_atFree.
  apply andb_true_iff in cfg_atFree as [_ H].
  apply atFree_quiet, atFree_orStr; [exact H | reflexivity].
Qed.

(** With at most one key column and texts free of at signs, the entity is
    quiet: its [@Id] lines do not go on to the composite-key marker. *)
Lemma generateEntity_quiet (data : TableModel) :
  atFree (schema data) = true ->
  atFree (originalTableName data) = true ->
  atFree (className data) = true ->
  Forall textColumn (columns data) ->
  (1 <? List.length (filter isId (columns data)))%nat = false ->
  quiet (generateEntity cfg data) = true.
Proof.
  intros Hschema Htable Hclass Hcols Hcount.
  unfold generateEntity; rewrite Hcount.
  pose proof quiet_indent as Hindent.
  quiet_pieces; try exact Hindent; try (apply atFree_quiet; assumption).
  apply quiet_join; [reflexivity|].
  apply Forall_forall; intros s Hin.
  apply in_map_iff in Hin as (col & <- & Hcol).
  destruct (proj1 (Forall_forall _ _) Hcols col Hcol)
    as (Hname & Htype & Hjava).
  destruct (isId col);
    quiet_pieces; try exact Hindent; apply atFree_quiet; assumption.
Qed.

(** With two key columns or more the entity holds the marker. *)
Lemma generateEntity_marker (data : TableModel) :
  (1 <? List.length (filter isId (columns data)))%nat = true ->
  includes (generateEntity cfg data)
           ("@IdClass(" ++ className data ++ "Id.class)") = true.
Proof.
  intros Hcount; unfold generateEntity; rewrite Hcount.
  do 17 apply includes_app_r.
  apply includes_app_l, includes_here, prefix_refl.
Qed.

End EntityMarkers.

Section ParsedTexts.

Variable cfg : Config.
Hypothesis cfg_atFree : atFreeConfig cfg = true.

Lemma lineColumns_text (pks : list string) (line : string)
    (l : list Column) :
  lineColumns cfg pks line = Ok l -> Forall textColumn l.
Proof.
  unfold lineColumns, parseLine.
  destruct (colMatch (trim line))
    as [[[[colName colType] precision] scale]|] eqn:Hcol;
    [|intros [= <-]; constructor].
  destruct (negb _ && negb _ && negb _ && negb _);
    [|intros [= <-]; constructor].
  destruct (mapOracleType cfg (Some colType) precision scale)
    as [typeInfo|] eqn:Hinfo; [|discriminate].
  intros [= <-]; cbn [app].
  apply colMatch_name_word, atFree_word in Hcol.
  repeat constructor; cbn.
  - exact Hcol.
  - exact (atFree_java cfg _ _ _ typeInfo cfg_atFree Hinfo).
  - now apply atFree_toCamelCase.
Qed.

Lemma parseDDL_className (ddl : string) (data : TableModel) :
  parseDDL cfg ddl = Ok data ->
  className data = toPascalCase cfg (originalTableName data).
Proof.
  intros H; destruct (parseDDL_Ok cfg ddl data H) as (_ & -> & -> & _).
  reflexivity.
Qed.

Lemma parseDDL_atFree (ddl : string) (data : TableModel) :
  parseDDL cfg ddl = Ok data ->
  atFree (schema data) = true
  /\ atFree (originalTableName data) = true
  /\ atFree (className data) = true
  /\ Forall textColumn (columns data).
Proof.
  intros Hdata.
  destruct (parseDDL_names_word cfg ddl data Hdata) as [Hs Ht].
  apply atFree_word in Hs; apply atFree_word in Ht.
  split; [exact Hs|]. split; [exact Ht|]. split.
  - rewrite (parseDDL_className ddl data Hdata).
    now apply atFree_toPascalCase.
  - apply (linesColumns_Forall cfg _ (parsePks ddl) (split "010"%char ddl));
      [|now apply columns_parseDDL].
    intros line l _; apply lineColumns_text.
Qed.

End ParsedTexts.

(** X16. For a configuration whose type names and indentation carry no at
    sign, the entity rendered from a parsed model holds the composite-key
    marker [@IdClass] exactly when two or more columns of the model are
    key columns; with two or more the marker names the class
    [<className>Id]. *)
Theorem X16_generateEntity_IdClass_iff_composite_key :
  forall (cfg : Config) (ddl : string) (data : TableModel),
    atFreeConfig cfg = true ->
    parseDDL cfg ddl = Ok data ->
    includes (generateEntity cfg data) "@IdClass"
    = (1 <? List.length (filter isId (columns data)))%nat
    /\ ((1 <? List.length (filter isId (columns data)))%nat = true ->
        includes (generateEntity cfg data)
                 ("@IdClass(" ++ className data ++ "Id.class)") = true).
Proof.
  intros cfg ddl data Hcfg Hdata.
  destruct (1 <? List.length (filter isId (columns data)))%nat eqn:Hcount.
  - pose proof (generateEntity_marker cfg data Hcount) as Hm.
    split; [|intros _; exact Hm].
    destruct (includes (generateEntity cfg data) "@IdClass") eqn:E;
      [reflexivity|].
    pose proof (includes_longer _ "@IdClass"
                  ("(" ++ className data ++ "Id.class)") E) as Hno.
    cbn [append] in Hno, Hm; congruence.
  - split; [|discriminate].
    destruct (parseDDL_atFree cfg Hcfg ddl data Hdata)
      as (Hs & Ht & Hc & Hcols).
    apply quiet_no_marker, (generateEntity_quiet cfg Hcfg); assumption.
Qed.

Lemma X16_generateEntity_IdClass_iff_composite_key_witness :
  let ddl2 := "CREATE TABLE TB_ITEM (" ++ nl
              ++ "  NR_PEDIDO NUMBER(10)," ++ nl
              ++ "  NR_ITEM NUMBER(4)," ++ nl
              ++ "  CONSTRAINT PK_ITEM PRIMARY KEY (NR_PEDIDO, NR_ITEM)" ++ nl
              ++ ");" in
  let ddl1 := "CREATE TABLE TB_ITEM (" ++ nl
              ++ "  NR_PEDIDO NUMBER(10)," ++ nl
              ++ "  CONSTRAINT PK_ITEM PRIMARY KEY (NR_PEDIDO)" ++ nl
              ++ ");" in
  atFreeConfig getDefaultConfig = true
  /\ exists data2 data1,
       parseDDL getDefaultConfig ddl2 = Ok data2
       /\ parseDDL getDefaultConfig ddl1 = Ok data1
       /\ map isId (columns data2) = [true; true]
       /\ includes (generateEntity getDefaultConfig data2)
                   "@IdClass(ItemId.class)" = true
       /\ map isId (columns data1) = [true]
       /\ includes (generateEntity getDefaultConfig data1) "@IdClass" = false.
Proof.
  intros ddl2 ddl1.
  split; [reflexivity|].
  do 2 eexists.
  split; [reflexivity|]. split; [reflexivity|].
  split; [reflexivity|]. split; [|split].
  - exact (proj2 (X16_generateEntity_IdClass_iff_composite_key
                    getDefaultConfig ddl2 _ eq_refl eq_refl) eq_refl).
  - reflexivity.
  - exact (proj1 (X16_generateEntity_IdClass_iff_composite_key
                    getDefaultConfig ddl1 _ eq_refl eq_refl)).
Defined.

Section EveryColumnIsRendered.

Variable cfg : Config.

Ltac to_join :=
  repeat match goal with
         | |- includes (append (join _ _) _) _ = true =>
             apply includes_app_l
         | |- includes (append _ _) _ = true => apply includes_app_r
         end.

Ltac to_base_fields :=
  repeat match goal with
         | |- includes (append (join nl _) _) _ = true =>
             apply includes_app_l
         | |- includes (append _ _) _ = true => apply includes_app_r
         end.

Lemma generateEntity_field (data : TableModel) (col : Column) :
  In col (columns data) ->
  includes (generateEntity cfg data) (entityField cfg col) = true.
Proof.
  intros Hin; unfold generateEntity; cbv zeta.
  to_join.
  apply (includes_join _ _ (entityField cfg col));
    [|apply includes_here, prefix_refl].
  exact (in_map (entityField cfg) _ _ Hin).
Qed.

Lemma generateDTO_interface (data : TableModel) (col : Column) :
  In col (columns data) ->
  includes (generateDTO cfg data) (dtoInterface cfg col) = true.
Proof.
  intros Hin; unfold generateDTO; cbv zeta.
  to_join.
  apply (includes_join _ _ (dtoInterface cfg col));
    [|apply includes_here, prefix_refl].
  exact (in_map (dtoInterface cfg) _ _ Hin).
Qed.

Lemma generateDTO_base_field (data : TableModel) (col : Column) :
  In col (columns data) ->
  includes (generateDTO cfg data) (dtoBaseField cfg col) = true.
Proof.
  intros Hin; unfold generateDTO; cbv zeta.
  to_base_fields.
  apply (includes_join _ _ (dtoBaseField cfg col));
    [|apply includes_here, prefix_refl].
  exact (in_map (dtoBaseField cfg) _ _ Hin).
Qed.

End EveryColumnIsRendered.

(** X17. No column is lost by [generateEntity]: for every column of the
    model the entity holds the lines of that column, the [@Column]
    annotation with the original name followed by the private field with
    the mapped type and the field name, preceded by an [@Id] line when the
    column is a key. *)
Theorem X17_generateEntity_renders_every_column :
  forall (cfg : Config) (data : TableModel) (col : Column),
    In col (columns data) ->
    let indent := orStr (indentation (output cfg)) "    " in
    let lines :=
      indent ++ "@Column(name = " ++ dquote ++ originalName col ++ dquote
      ++ ")" ++ nl
      ++ indent ++ "private " ++ javaType col ++ " " ++ javaName col ++ ";" in
    includes (generateEntity cfg data)
             (if isId col then indent ++ "@Id" ++ nl ++ lines else lines)
    = true.
Proof.
  intros cfg data col Hin indent lines.
  pose proof (generateEntity_field cfg data col Hin) as H.
  unfold entityField in H; cbv zeta in H; fold indent in H.
  destruct (isId col).
  - unfold lines; rewrite !append_assoc in H.
    cbn [append] in H |- *; exact H.
  - exact H.
Qed.

Lemma X17_generateEntity_renders_every_column_witness :
  let col := {| originalName := "NR_CLIENTE"; javaName := "nrCliente";
                pascalName := "NrCliente"; javaType := "Long";
                column_annotation := "@Min(0) @Max(9999999999L)";
                isId := true |} in
  exists data,
    parseDDL getDefaultConfig
      ("NR_CLIENTE NUMBER(10)," ++ nl ++ "PRIMARY KEY (NR_CLIENTE)")
    = Ok data
    /\ In col (columns data)
    /\ includes (generateEntity getDefaultConfig data)
                ("    @Id" ++ nl
                 ++ "    @Column(name = " ++ dquote ++ "NR_CLIENTE" ++ dquote
                 ++ ")" ++ nl
                 ++ "    private Long nrCliente;") = true.
Proof.
  intros col.
  pose (data := {| schema := "dbo"; originalTableName := "Unknown";
                   className := "Unknown";
                   columns := [col; {| originalName := "PRIMARY";
                                       javaName := "primary";
                                       pascalName := "Primary";
                                       javaType := "String";
                                       column_annotation := EmptyString;
                                       isId := false |}] |}).
  exists data; split; [reflexivity|].
  assert (Hin : In col (columns data)) by (left; reflexivity).
  split; [exact Hin|].
  exact (X17_generateEntity_renders_every_column getDefaultConfig data col Hin).
Defined.

(** X18. No column is lost by [generateDTO]: for every column of the model
    the DTO holds the interface of that column (with its required marker,
    its annotation and its getter) and the private field that the class
    [Base] gives it. *)
Theorem X18_generateDTO_renders_every_column :
  forall (cfg : Config) (data : TableModel) (col : Column),
    In col (columns data) ->
    includes (generateDTO cfg data) (dtoInterface cfg col) = true
    /\ includes (generateDTO cfg data) (dtoBaseField cfg col) = true
    /\ includes (dtoInterface cfg col)
                (javaType col ++ " get" ++ pascalName col ++ "();") = true
    /\ includes (dtoInterface cfg col) (notBlank cfg col) = true.
Proof.
  intros cfg data col Hin.
  split; [now apply generateDTO_interface|].
  split; [now apply generateDTO_base_field|].
  split; unfold dtoInterface; cbv zeta.
  - do 15 apply includes_app_r.
    apply includes_here; do 3 apply prefix_step; apply prefix_self.
  - do 6 apply includes_app_r.
    apply includes_here, prefix_self.
Qed.

Lemma X18_generateDTO_renders_every_column_witness :
  let col := {| originalName := "NM_CLIENTE"; javaName := "nmCliente";
                pascalName := "NmCliente"; javaType := "String";
                column_annotation := "@Size(max = 100)"; isId := false |} in
  exists data,
    parseDDL getDefaultConfig "NM_CLIENTE VARCHAR2(100)," = Ok data
    /\ In col (columns data)
    /\ includes (generateDTO getDefaultConfig data)
                ("    protected interface NmCliente {" ++ nl
                 ++ "    @NotBlank" ++ nl
                 ++ "    @Size(max = 100)" ++ nl) = true
    /\ includes (generateDTO getDefaultConfig data)
                "            private String nmCliente;" = true.
Proof.
  intros col.
  pose (data := {| schema := "dbo"; originalTableName := "Unknown";
                   className := "Unknown"; columns := [col] |}).
  exists data; split; [reflexivity|].
  assert (Hin : In col (columns data)) by (left; reflexivity).
  split; [exact Hin|].
  destruct (X18_generateDTO_renders_every_column getDefaultConfig data col Hin)
    as (H1 & H2 & _).
  split; [|exact H2].
  reflexivity.
Defined.

(** * The versions of the generator *)

(** X19. With the prefix lists left to the built-in ones and
    [removeThreeLetterPrefixes] set, the configurable [toCamelCase] and
    [toPascalCase] return what version 2.0 returned, for every identifier;
    under the default configuration [toPascalCase] does so as well, while
    [toCamelCase] knows two more prefixes. *)
Theorem X19_identifier_transformer_keeps_version_2 :
  forall cfg : Config,
    prefixes (naming cfg) = None ->
    tablePrefixes (naming cfg) = None ->
    removeThreeLetterPrefixes (naming cfg) = true ->
    (forall str, toCamelCase cfg str = toCamelCase_v2 str)
    /\ (forall str, toPascalCase cfg str = toPascalCase_v2 str)
    /\ (forall str, toPascalCase getDefaultConfig str = toPascalCase_v2 str)
    /\ toCamelCase getDefaultConfig "pesnome" = "pesNome"
    /\ toCamelCase_v2 "pesnome" = "pesnome".
Proof.
  intros cfg Hps Htps Hflag.
  assert (Htb : forall x, arrIncludes ["tb"] x = String.eqb x "tb")
    by (intros x; cbn; apply orb_false_r).
  split; [|split; [|split; [|split; reflexivity]]].
  - intros str; unfold toCamelCase, toCamelCase_v2, camelParts, camelPrefixes.
    now rewrite Hps, Hflag.
  - intros str; unfold toPascalCase, toPascalCase_v2, pascalParts,
      pascalPrefixes.
    now rewrite Htps, Hflag, Htb.
  - intros str; unfold toPascalCase, toPascalCase_v2, pascalParts,
      pascalPrefixes.
    cbn [tablePrefixes removeThreeLetterPrefixes naming getDefaultConfig
         orArr andb].
    now rewrite Htb.
Qed.

Lemma X19_identifier_transformer_keeps_version_2_witness :
  prefixes (naming emptyConfig) = None
  /\ toCamelCase_v2 "NR_CLIENTE" = "nrCliente"
  /\ toPascalCase_v2 "TB_CLIENTE" = "Cliente"
  /\ forall str, toPascalCase getDefaultConfig str = toPascalCase_v2 str.
Proof.
  split; [reflexivity|]. split; [reflexivity|]. split; [reflexivity|].
  exact (proj1 (proj2 (proj2
    (X19_identifier_transformer_keeps_version_2
       {| naming := {| prefixes := None; tablePrefixes := None;
                       removeThreeLetterPrefixes := true |};
          typeMapping := typeMapping emptyConfig;
          validation := validation emptyConfig;
          output := output emptyConfig |}
       eq_refl eq_refl eq_refl)))).
Defined.

(** X20. With annotations enabled and the type-mapping section left to the
    built-in names, threshold and token lists, the configurable
    [mapOracleType] returns what version 2.0 returned, for every type,
    precision and scale. *)
Theorem X20_mapOracleType_keeps_version_2 :
  forall cfg : Config,
    generateAnnotations (validation cfg) = true ->
    typeMapping cfg = typeMapping emptyConfig ->
    forall type precision scale,
      mapOracleType cfg type precision scale
      = mapOracleType_v2 type precision scale.
Proof.
  intros cfg Hann Htm type precision scale.
  unfold mapOracleType, mapOracleType_v2; rewrite Hann, Htm.
  cbn [typeMapping emptyConfig NUMBER STRING DATE number_default large decimal
       largeThreshold types mapping_default orStr orNum orArr Z.eqb existsb].
  rewrite !orb_false_r, orb_assoc; reflexivity.
Qed.

Lemma X20_mapOracleType_keeps_version_2_witness :
  let cfg := {| naming := naming emptyConfig;
                typeMapping := typeMapping emptyConfig;
                validation := validation getDefaultConfig;
                output := output emptyConfig |} in
  generateAnnotations (validation cfg) = true
  /\ mapOracleType cfg (Some "NUMBER") (Some "12") None
     = mapOracleType_v2 (Some "NUMBER") (Some "12") None
  /\ mapOracleType_v2 (Some "NUMBER") (Some "12") None
     = Ok {| java := "Long"; annotation := "@Min(0) @Max(999999999999L)" |}.
Proof.
  intros cfg.
  split; [reflexivity|]. split; [|reflexivity].
  exact (X20_mapOracleType_keeps_version_2 cfg eq_refl eq_refl
           (Some "NUMBER") (Some "12") None).
Defined.

(** X21. The first version of [toPascalCase] never returns an empty array
    (it falls back to the unfiltered segments when its filter leaves
    nothing), and every entry of the array is at most one character: the
    type name is made of initials only. *)
Theorem X21_toPascalCase_v1_initials :
  forall str : string,
    toPascalCase_v1 str <> []
    /\ Forall (fun w => String.length w <= 1) (toPascalCase_v1 str)
    /\ toPascalCase_v1 "TB_CLIENTE_PEDIDO" = ["C"; "P"]
    /\ toPascalCase_v1 "tb" = ["T"].
Proof.
  intros str; split; [|split; [|split; reflexivity]].
  - unfold toPascalCase_v1.
    destruct (filter _ (split "_" (toLowerCase str))) as [|p l] eqn:E;
      cbn [List.length Nat.ltb Nat.leb].
    + destruct (split "_" (toLowerCase str)) eqn:E';
        [exfalso; exact (split_not_nil _ _ E') | discriminate].
    + discriminate.
  - unfold toPascalCase_v1.
    apply Forall_forall; intros w Hin.
    apply in_map_iff in Hin as (word & <- & _).
    unfold toUpperCase, charAt; rewrite length_mapStr.
    destruct (String.get 0 word); cbn; lia.
Qed.

(** * The results of a run *)

(** X22. Whatever boxes are ticked, the run has a result: ticking nothing
    gives the same results as ticking both, the entity first and the DTO
    second; otherwise the results are the ticked ones.  The file names are
    the type name followed by [.java] and [DTO.java], whatever the
    configuration says. *)
Theorem X22_buildResults_never_empty :
  forall (cfg : Config) (parsedData : TableModel) (outputs : list string),
    let e := arrIncludes outputs "entity" in
    let d := arrIncludes outputs "dto" in
    buildResults cfg parsedData outputs
    = ((if e || negb d then [entityResult cfg parsedData] else [])
       ++ (if d || negb e then [dtoResult cfg parsedData] else []))%list
    /\ buildResults cfg parsedData outputs <> []
    /\ buildResults cfg parsedData []
       = buildResults cfg parsedData ["entity"; "dto"]
    /\ Forall (fun r => filename r = className parsedData ++ ".java"
                        \/ filename r = className parsedData ++ "DTO.java")
              (buildResults cfg parsedData outputs).
Proof.
  intros cfg parsedData outputs e d.
  assert (Hshape : buildResults cfg parsedData outputs
                   = ((if e || negb d then [entityResult cfg parsedData] else [])
                      ++ (if d || negb e then [dtoResult cfg parsedData]
                          else []))%list).
  { unfold buildResults; fold e d; destruct e, d; reflexivity. }
  split; [exact Hshape|]. split; [|split; [reflexivity|]].
  - rewrite Hshape; destruct e, d; discriminate.
  - rewrite Hshape; destruct e, d; cbn [app orb negb];
      repeat (apply Forall_cons;
              [first [left; reflexivity | right; reflexivity]|]);
      apply Forall_nil.
Qed.

(** X23. The text copied to the clipboard holds the code of every
    result. *)
Theorem X23_combinedCode_holds_every_result :
  forall (results : list Result) (r : Result),
    In r results ->
    includes (combinedCode results)
             ("// " ++ result_type r ++ nl ++ code r) = true.
Proof.
  intros results r Hin; unfold combinedCode.
  apply (includes_join _ _ ("// " ++ result_type r ++ nl ++ code r));
    [|apply includes_here, prefix_refl].
  exact (in_map (fun r => "// " ++ result_type r ++ nl ++ code r) _ _ Hin).
Qed.

Lemma X23_combinedCode_holds_every_result_witness :
  exists data,
    parseDDL getDefaultConfig "NR_CLIENTE NUMBER(10)" = Ok data
    /\ let results := buildResults getDefaultConfig data [] in
       In (dtoResult getDefaultConfig data) results
       /\ includes (combinedCode results)
                   ("// DTO" ++ nl ++ generateDTO getDefaultConfig data)
          = true.
Proof.
  pose (data := {| schema := "dbo"; originalTableName := "Unknown";
                   className := "Unknown";
                   columns := [ {| originalName := "NR_CLIENTE";
                                   javaName := "nrCliente";
                                   pascalName := "NrCliente";
                                   javaType := "Long";
                                   column_annotation :=
                                     "@Min(0) @Max(9999999999L)";
                                   isId := false |} ] |}).
  exists data; split; [reflexivity|]; intros results.
  assert (Hin : In (dtoResult getDefaultConfig data) results)
    by (right; left; reflexivity).
  split; [exact Hin|].
  exact (X23_combinedCode_holds_every_result results
           (dtoResult getDefaultConfig data) Hin).
Defined.

(** * What the column pattern captures *)

Section ColumnPattern.

Lemma isSpace_not_word (c : ascii) : isWord c = true -> isSpace c = false.
Proof.
  destruct c as [[] [] [] [] [] [] [] []]; intros H;
    reflexivity || discriminate.
Qed.

Lemma isWord_not_space (c : ascii) : isSpace c = true -> isWord c = false.
Proof.
  destruct c as [[] [] [] [] [] [] [] []]; intros H;
    reflexivity || discriminate.
Qed.

(** The first two groups of the column pattern on a line that starts with
    a name, white space and a type that ends at [rest]. *)
Lemma colMatch_name_type (name ws type rest : string) :
  name <> EmptyString -> allChars isWord name = true ->
  ws <> EmptyString -> allChars isSpace ws = true ->
  type <> EmptyString -> allChars isWord type = true ->
  endsWord rest ->
  colMatch (name ++ ws ++ type ++ rest)
  = let (precision, scale) := precisionScaleAt rest in
    Some (name, type, precision, scale).
Proof.
  intros Hn Hwn Hs Hws Ht Hwt Hrest; unfold colMatch.
  destruct ws as [|w ws]; [congruence|].
  destruct type as [|t type]; [congruence|].
  assert (Hw : isWord w = false)
    by (cbn [allChars] in Hws; apply andb_true_iff in Hws as [Hw _];
        now apply isWord_not_space).
  assert (Htc : isSpace t = false)
    by (cbn [allChars] in Hwt; apply andb_true_iff in Hwt as [Htc _];
        now apply isSpace_not_word).
  change (String w ws ++ String t type ++ rest)
    with (String w (ws ++ String t type ++ rest)).
  rewrite (span_run isWord name w _ Hwn Hw).
  apply isEmpty_false in Hn; rewrite Hn.
  change (String w (ws ++ String t type ++ rest))
    with (String w ws ++ String t (type ++ rest)).
  rewrite (span_run isSpace (String w ws) t _ Hws Htc); cbn [isEmpty].
  change (String t (type ++ rest)) with (String t type ++ rest).
  rewrite (span_word_run (String t type) rest Hwt Hrest); cbn [isEmpty].
  reflexivity.
Qed.

Lemma span_digits (digits : string) (c : ascii) (rest : string) :
  allChars isDigit digits = true -> isDigit c = false ->
  span isDigit (digits ++ String c rest) = (digits, String c rest).
Proof. apply span_run. Qed.

End ColumnPattern.

(** X24. On a line that reads name, white space, type and then
    [(precision,scale)] or [(precision)], written with digits and without
    a space, the column pattern captures the name, the type and the digits
    exactly as written; what follows the closing parenthesis plays no
    part. *)
Theorem X24_colMatch_captures_what_is_written :
  forall (name ws type precision scale rest : string),
    name <> EmptyString -> allChars isWord name = true ->
    ws <> EmptyString -> allChars isSpace ws = true ->
    type <> EmptyString -> allChars isWord type = true ->
    precision <> EmptyString -> allChars isDigit precision = true ->
    scale <> EmptyString -> allChars isDigit scale = true ->
    colMatch (name ++ ws ++ type ++ "(" ++ precision ++ "," ++ scale ++ ")"
              ++ rest)
    = Some (name, type, Some precision, Some scale)
    /\ colMatch (name ++ ws ++ type ++ "(" ++ precision ++ ")" ++ rest)
       = Some (name, type, Some precision, None).
Proof.
  intros name ws type precision scale rest
    Hn Hwn Hs Hws Ht Hwt Hp Hdp Hsc Hds.
  apply isEmpty_false in Hp; apply isEmpty_false in Hsc.
  split.
  - rewrite (colMatch_name_type name ws type
               ("(" ++ precision ++ "," ++ scale ++ ")" ++ rest)
               Hn Hwn Hs Hws Ht Hwt eq_refl).
    cbn [append precisionScaleAt].
    rewrite (span_digits precision "," _ Hdp eq_refl), Hp.
    rewrite (span_digits scale ")" _ Hds eq_refl), Hsc.
    reflexivity.
  - rewrite (colMatch_name_type name ws type
               ("(" ++ precision ++ ")" ++ rest)
               Hn Hwn Hs Hws Ht Hwt eq_refl).
    cbn [append precisionScaleAt].
    rewrite (span_digits precision ")" _ Hdp eq_refl), Hp.
    reflexivity.
Qed.

Lemma X24_colMatch_captures_what_is_written_witness :
  allChars isWord "VL_LIMITE" = true
  /\ allChars isSpace "  " = true
  /\ allChars isDigit "15" = true
  /\ colMatch ("VL_LIMITE" ++ "  " ++ "NUMBER" ++ "(" ++ "15" ++ "," ++ "2"
               ++ ")" ++ " NOT NULL,")
     = Some ("VL_LIMITE", "NUMBER", Some "15", Some "2").
Proof.
  split; [reflexivity|]. split; [reflexivity|]. split; [reflexivity|].
  apply (proj1 (X24_colMatch_captures_what_is_written
                  "VL_LIMITE" "  " "NUMBER" "15" "2" " NOT NULL,"
                  ltac:(discriminate) eq_refl ltac:(discriminate) eq_refl
                  ltac:(discriminate) eq_refl ltac:(discriminate) eq_refl
                  ltac:(discriminate) eq_refl)).
Defined.

(** X25. A space after the comma is not part of the column pattern: on a
    line that reads [name type(precision, ...] the pattern still matches
    the name and the type but captures neither precision nor scale, so
    under the default configuration [NUMBER(15, 2)] becomes an [Integer]
    with the annotation [@Min(0) @Max()]. *)
Theorem X25_colMatch_space_after_comma_loses_precision :
  forall (name ws type precision rest : string),
    name <> EmptyString -> allChars isWord name = true ->
    ws <> EmptyString -> allChars isSpace ws = true ->
    type <> EmptyString -> allChars isWord type = true ->
    precision <> EmptyString -> allChars isDigit precision = true ->
    colMatch (name ++ ws ++ type ++ "(" ++ precision ++ ", " ++ rest)
    = Some (name, type, None, None)
    /\ (includes (toUpperCase type) "NUMBER" = true ->
        mapOracleType getDefaultConfig (Some type) None None
        = Ok {| java := "Integer"; annotation := "@Min(0) @Max()" |}).
Proof.
  intros name ws type precision rest Hn Hwn Hs Hws Ht Hwt Hp Hdp.
  apply isEmpty_false in Hp.
  split.
  - rewrite (colMatch_name_type name ws type
               ("(" ++ precision ++ ", " ++ rest)
               Hn Hwn Hs Hws Ht Hwt eq_refl).
    cbn [append precisionScaleAt].
    rewrite (span_digits precision "," _ Hdp eq_refl), Hp.
    reflexivity.
  - intros Hnum.
    rewrite (mapOracleType_number getDefaultConfig type None None Hnum).
    reflexivity.
Qed.

Lemma X25_colMatch_space_after_comma_loses_precision_witness :
  colMatch ("VL_LIMITE" ++ " " ++ "NUMBER" ++ "(" ++ "15" ++ ", " ++ "2),")
  = Some ("VL_LIMITE", "NUMBER", None, None)
  /\ exists data,
       parseDDL getDefaultConfig "VL_LIMITE NUMBER(15, 2)," = Ok data
       /\ map (fun col => (javaType col, column_annotation col))
              (columns data)
          = [("Integer", "@Min(0) @Max()")].
Proof.
  split; [|eexists; split; reflexivity].
  apply (proj1 (X25_colMatch_space_after_comma_loses_precision
                  "VL_LIMITE" " " "NUMBER" "15" "2),"
                  ltac:(discriminate) eq_refl ltac:(discriminate) eq_refl
                  ltac:(discriminate) eq_refl ltac:(discriminate) eq_refl)).
Defined.
